(** * Shape algebra of the layers in [common.py]

    A shallow embedding of the tensor-reshaping blocks of [common.py]
    (window partition and reverse, Focus, Conv, Bottleneck, BottleneckCSP,
    SPP, Classify, ChannelAttention, SAM, DAM, BDAM) and the properties the
    specification states about them.

    Python integers are [Z]; a tensor shape is a [list Z].  Python floats are
    IEEE 754 binary64 numbers: the expansion factor of Bottleneck and
    BottleneckCSP is a [float] of the Standard Library's [SpecFloat], and
    [c2 * e] is the correctly rounded binary64 product.  The quotients of
    [window_reverse] are taken over the rationals, where they are exact
    (every one is an integer below 2^53 for a tensor that fits in memory).
    Errors raised by Python or by torch are values of [exn] in the [result]
    monad. *)

From Stdlib Require Import ZArith QArith Qround Qpower Lia.
From Stdlib Require Import Floats.SpecFloat.
From stdpp Require Import base tactics option list numbers.

Local Open Scope Z_scope.

(** ** Python scalars and exceptions *)

Module Py.

Inductive exn : Type :=
| ZeroDivisionError
| ValueError
| IndexError
| RuntimeError
| OverflowError.

Inductive result (A : Type) : Type :=
| Ok (a : A)
| Raise (e : exn).
Global Arguments Ok {A} a.
Global Arguments Raise {A} e.

Global Instance result_ret : MRet result := fun A a => Ok a.
Global Instance result_bind : MBind result := fun A B f m =>
  match m with
  | Ok a => f a
  | Raise e => Raise e
  end.
Global Instance result_fmap : FMap result := fun A B f m =>
  match m with
  | Ok a => Ok (f a)
  | Raise e => Raise e
  end.

(** [assert c e]: go on when [c] holds, raise [e] otherwise. *)
Definition check (c : bool) (e : exn) : result unit :=
  if c then Ok tt else Raise e.

(** [a // b] on integers: floor division, [ZeroDivisionError] on [b = 0]. *)
Definition floordiv (a b : Z) : result Z :=
  if b =? 0 then Raise ZeroDivisionError else Ok (a / b).

(** [a / b] (true division), [ZeroDivisionError] on a zero divisor. *)
Definition truediv (a b : Q) : result Q :=
  if Qeq_bool b 0 then Raise ZeroDivisionError else Ok (a / b)%Q.

(** [int(x)] of the number a float denotes: truncation toward zero. *)
Definition int (x : Q) : Z :=
  if Qle_bool 0 x then Qfloor x else Qceiling x.

(** [round(x)] of a float: to the nearest integer, ties to the even one. *)
Definition round (x : Q) : Z :=
  let f := Qfloor x in
  match (x - inject_Z f ?= 1 # 2)%Q with
  | Lt => f
  | Gt => f + 1
  | Eq => if Z.even f then f else f + 1
  end.

(** [min(a, b)] on integers. *)
Definition min (a b : Z) : Z := if b <? a then b else a.

(** *** Floats

    A Python float is a binary64 number: precision 53, exponents below
    1024. *)
Definition float : Type := spec_float.

(** The rational a finite float denotes. *)
Definition float_value (x : float) : Q :=
  match x with
  | S754_finite s m e => (inject_Z (if s then Z.neg m else Z.pos m) * 2 ^ e)%Q
  | _ => 0%Q
  end.

(** [float(n)] of an int, as in [n * x]: the nearest float, ties to even;
    [OverflowError] beyond the range of the floats. *)
Definition float_of_int (n : Z) : result float :=
  match binary_normalize 53 1024 n 0 false with
  | S754_infinity _ => Raise OverflowError
  | x => Ok x
  end.

(** [n * x] for an int [n] and a float [x]. *)
Definition mul_int_float (n : Z) (x : float) : result float :=
  y ← float_of_int n; Ok (SFmul 53 1024 y x).

(** [int(x)] of a float: truncation toward zero, [OverflowError] on an
    infinity and [ValueError] on a NaN. *)
Definition int_of_float (x : float) : result Z :=
  match x with
  | S754_nan => Raise ValueError
  | S754_infinity _ => Raise OverflowError
  | S754_zero _ => Ok 0
  | S754_finite _ _ _ => Ok (int (float_value x))
  end.

(** The float literal that denotes [p / q] in decimal, for ints [p] and [q]
    below 2^53: the float nearest to the quotient. *)
Definition float_lit (p q : Z) : float :=
  SFdiv 53 1024 (binary_normalize 53 1024 p 0 false) (binary_normalize 53 1024 q 0 false).

(** [1.0], [0.5], [0.25], [0.1] and [0.7]. *)
Definition float_1_0 : float := Eval vm_compute in float_lit 1 1.
Definition float_0_5 : float := Eval vm_compute in float_lit 5 10.
Definition float_0_25 : float := Eval vm_compute in float_lit 25 100.
Definition float_0_1 : float := Eval vm_compute in float_lit 1 10.
Definition float_0_7 : float := Eval vm_compute in float_lit 7 10.

End Py.
Export Py.

Notation "a // b" := (floordiv a b) (at level 40, left associativity).

(** ** Shapes: what torch computes from sizes alone *)

Module Shape.

Definition numel (s : list Z) : Z := foldr Z.mul 1 s.

(** Row-major offset of a multi-index, and the multi-index of an offset. *)
Fixpoint ravel (s idx : list Z) : Z :=
  match s, idx with
  | _ :: s', i :: idx' => i * numel s' + ravel s' idx'
  | _, _ => 0
  end.

Fixpoint unravel (s : list Z) (k : Z) : list Z :=
  match s with
  | [] => []
  | _ :: s' => k / numel s' :: unravel s' (k mod numel s')
  end.

(** A multi-index addresses an element of a tensor of shape [s]. *)
Definition in_range (s idx : list Z) : Prop :=
  Forall2 (fun i d => 0 <= i < d) idx s.

(** torch accepts an axis [d] of a rank-[r] tensor when [-r <= d < r]. *)
Definition wrap_dim (r : nat) (d : Z) : result nat :=
  if (0 <=? d) && (d <? Z.of_nat r) then Ok (Z.to_nat d)
  else if (- Z.of_nat r <=? d) && (d <? 0) then Ok (Z.to_nat (d + Z.of_nat r))
  else Raise IndexError.

Fixpoint distinct (ds : list nat) : bool :=
  match ds with
  | [] => true
  | d :: ds' => negb (existsb (Nat.eqb d) ds') && distinct ds'
  end.

(** [gather ds l]: the list whose [i]-th entry is [l[ds[i]]]. *)
Definition gather (ds : list nat) (l : list Z) : list Z :=
  map (fun d => l !!! d) ds.

(** [scatter ds l]: the list whose [ds[i]]-th entry is [l[i]]. *)
Definition scatter (ds : list nat) (l : list Z) : list Z :=
  foldr (fun di acc => <[di.1 := di.2]> acc) (replicate (length ds) 0) (zip ds l).

(** The axes of [x.permute(dims)]: one per axis of [x], none repeated. *)
Definition permute_dims (s : list Z) (dims : list Z) : result (list nat) :=
  _ ← check (length dims =? length s)%nat RuntimeError;
  ds ← mapM (wrap_dim (length s)) dims;
  _ ← check (distinct ds) RuntimeError;
  Ok ds.

(** [x.transpose(d0, d1)] is the permutation that exchanges two axes. *)
Definition transpose_dims (s : list Z) (d0 d1 : Z) : result (list nat) :=
  a ← wrap_dim (length s) d0;
  b ← wrap_dim (length s) d1;
  let ids := seq 0 (length s) in
  Ok (<[a := b]> (<[b := a]> ids)).

(** The sizes [x.view(dims)] resolves to: at most one [-1], which stands for
    the quotient of the element count by the product of the other sizes
    (ambiguous, hence refused, when that product is 0); otherwise the
    products must agree. *)
Definition view_shape (s : list Z) (dims : list Z) : result (list Z) :=
  _ ← check (forallb (fun d => -1 <=? d) dims) RuntimeError;
  let known := numel (filter (fun d => d ≠ -1) dims) in
  match length (filter (fun d => d = -1) dims) with
  | O => _ ← check (numel s =? known) RuntimeError; Ok dims
  | S O =>
      _ ← check ((0 <? known) && (numel s mod known =? 0)) RuntimeError;
      Ok (map (fun d => if d =? -1 then numel s / known else d) dims)
  | _ => Raise RuntimeError
  end.

(** Length of the slice [start::step] of an axis of size [n]. *)
Definition slice_start (n start : Z) : Z :=
  if start <? 0 then Z.max 0 (start + n) else Z.min start n.
Definition slice_len (n start step : Z) : Z :=
  (n - slice_start n start + step - 1) / step.

(** Shape of [x[..., a::sa, b::sb]]. *)
Definition strided_shape (s : list Z) (a sa b sb : Z) : result (list Z) :=
  _ ← check ((0 <? sa) && (0 <? sb)) ValueError;
  match reverse s with
  | w :: h :: rest =>
      Ok (reverse rest ++ [slice_len h a sa; slice_len w b sb])
  | _ => Raise IndexError
  end.

(** Shape of [torch.cat(xs, d)]: the tensors agree on every other axis. *)
Definition agree_except (d : nat) (s1 s2 : list Z) : bool :=
  bool_decide (<[d := 0]> s1 = <[d := 0]> s2).

Definition cat_shape (ss : list (list Z)) (dim : Z) : result (list Z) :=
  match ss with
  | [] => Raise RuntimeError
  | s :: rest =>
      d ← wrap_dim (length s) dim;
      _ ← check (forallb (agree_except d s) rest) RuntimeError;
      Ok (<[d := foldr Z.add 0 (map (fun s' => s' !!! d) ss)]> s)
  end.

End Shape.
Export Shape.

(** ** Tensors with their elements

    A tensor is its shape and its elements in row-major order of the
    multi-index, which is the order [view] preserves.  Strides are not
    modelled: [permute] and [transpose] reorder the element list, and
    [contiguous] is the identity.  torch refuses a [view] whose strides are
    incompatible with the storage; the views of [window_partition] and
    [window_reverse] only split one axis or follow a [contiguous()], which
    is always compatible.  The view of [Flatten] merges axes, which torch
    accepts on a contiguous tensor only: what is proved of [Flatten] is the
    shape it gives to the output of a convolution, which is contiguous, and
    the errors it raises, which do not depend on the strides. *)

Module Tensor.
Section Tensor.
Context {A : Type} {inh : Inhabited A}.

Record tensor : Type := mk_tensor { shape : list Z; data : list A }.

Definition wf (t : tensor) : Prop :=
  Forall (fun d => 0 <= d) (shape t) /\
  Z.of_nat (length (data t)) = numel (shape t).

Definition get (t : tensor) (idx : list Z) : A :=
  data t !!! Z.to_nat (ravel (shape t) idx).

Definition tabulate (s : list Z) (f : list Z -> A) : tensor :=
  mk_tensor s ((fun k => f (unravel s k)) <$> seqZ 0 (numel s)).

(** Element [idx] of the permuted tensor is element [scatter ds idx] of [t]. *)
Definition permute_by (t : tensor) (ds : list nat) : tensor :=
  tabulate (gather ds (shape t)) (fun idx => get t (scatter ds idx)).

Definition permute (t : tensor) (dims : list Z) : result tensor :=
  ds ← permute_dims (shape t) dims; Ok (permute_by t ds).

Definition transpose (t : tensor) (d0 d1 : Z) : result tensor :=
  ds ← transpose_dims (shape t) d0 d1; Ok (permute_by t ds).

Definition view (t : tensor) (dims : list Z) : result tensor :=
  s ← view_shape (shape t) dims; Ok (mk_tensor s (data t)).

Definition contiguous (t : tensor) : tensor := t.

(** Source index of element [idx] of [x[..., a::sa, b::sb]]. *)
Definition strided_index (s : list Z) (a sa b sb : Z) (idx : list Z) : list Z :=
  let r := length idx in
  take (r - 2) idx ++
    [slice_start (s !!! (r - 2)%nat) a + idx !!! (r - 2)%nat * sa;
     slice_start (s !!! (r - 1)%nat) b + idx !!! (r - 1)%nat * sb].

Definition strided (t : tensor) (a sa b sb : Z) : result tensor :=
  s ← strided_shape (shape t) a sa b sb;
  Ok (tabulate s (fun idx => get t (strided_index (shape t) a sa b sb idx))).

(** Element [idx] of a concatenation along axis [d]: walk the operands,
    subtracting their extents from the coordinate on [d]. *)
Fixpoint cat_get (ts : list tensor) (d : nat) (idx : list Z) : A :=
  match ts with
  | [] => inhabitant
  | t :: ts' =>
      let n := shape t !!! d in
      if idx !!! d <? n then get t idx
      else cat_get ts' d (<[d := idx !!! d - n]> idx)
  end.

Definition cat (ts : list tensor) (dim : Z) : result tensor :=
  s ← cat_shape (shape <$> ts) dim;
  d ← wrap_dim (length s) dim;
  Ok (tabulate s (cat_get ts d)).

End Tensor.
Global Arguments tensor A : clear implicits.
End Tensor.

(** ** The tensor interface the layers are written against

    [size x] is [x.shape]; the other members are the torch methods of the same
    name, [strided x a sa b sb] is [x[..., a::sa, b::sb]] and [cat] is
    [torch.cat]. *)

Class TensorOps (T : Type) : Type := {
  size : T -> list Z;
  permute : T -> list Z -> result T;
  transpose : T -> Z -> Z -> result T;
  view : T -> list Z -> result T;
  contiguous : T -> T;
  strided : T -> Z -> Z -> Z -> Z -> result T;
  cat : list T -> Z -> result T
}.

(** Tensors with elements. *)
Global Instance tensor_ops {A : Type} `{Inhabited A} : TensorOps (Tensor.tensor A) := {|
  size := Tensor.shape;
  permute := Tensor.permute;
  transpose := Tensor.transpose;
  view := Tensor.view;
  contiguous := Tensor.contiguous;
  strided := Tensor.strided;
  cat := Tensor.cat
|}.

(** Tensors reduced to their shape (torch's meta tensors). *)
Record meta : Type := Meta { meta_shape : list Z }.

Global Instance meta_eq_dec : EqDecision meta.
Proof. solve_decision. Defined.

Global Instance meta_ops : TensorOps meta := {|
  size := meta_shape;
  permute x dims :=
    ds ← permute_dims (meta_shape x) dims; Ok (Meta (gather ds (meta_shape x)));
  transpose x d0 d1 :=
    ds ← transpose_dims (meta_shape x) d0 d1; Ok (Meta (gather ds (meta_shape x)));
  view x dims := Meta <$> view_shape (meta_shape x) dims;
  contiguous x := x;
  strided x a sa b sb := Meta <$> strided_shape (meta_shape x) a sa b sb;
  cat xs dim := Meta <$> cat_shape (meta_shape <$> xs) dim
|}.

(** The meta tensor of a tensor. *)
Definition to_meta {A : Type} (t : Tensor.tensor A) : meta :=
  Meta (Tensor.shape t).

(** ** Window partition and reverse (common.py, lines 274-288) *)

Section Windows.
Context {T : Type} `{TensorOps T}.

Definition window_partition (x : T) (window_size : Z) : result T :=
  x ← permute x [0; 2; 3; 1];
  match size x with
  | [B; H; W; C] =>
      hq ← H // window_size;
      wq ← W // window_size;
      x ← view x [B; hq; window_size; wq; window_size; C];
      x ← permute x [0; 1; 3; 2; 4; 5];
      windows ← view (contiguous x) [-1; window_size; window_size; C];
      permute windows [0; 3; 1; 2]
  | _ => Raise ValueError
  end.

Definition window_reverse (windows : T) (window_size H W : Z) : result T :=
  windows ← permute windows [0; 2; 3; 1];
  n0 ← from_option Ok (Raise IndexError) (size windows !! 0%nat);
  a ← truediv (inject_Z (H * W)) (inject_Z window_size);
  b ← truediv a (inject_Z window_size);
  q ← truediv (inject_Z n0) b;
  let B := int q in
  hq ← H // window_size;
  wq ← W // window_size;
  x ← view windows [B; hq; wq; window_size; window_size; -1];
  x ← permute x [0; 1; 3; 2; 4; 5];
  x ← view (contiguous x) [B; H; W; -1];
  permute x [0; 3; 1; 2].

End Windows.

Definition iota (s : list Z) : Tensor.tensor Z :=
  Tensor.mk_tensor s (seqZ 0 (numel s)).

(** ** torch.nn primitives

    Their hyper-parameters are records; learned weights are not part of the
    embedding.  What a primitive does to a tensor is a member of [NNOps], and
    the layers of [common.py] are written once against that interface: the
    results about data flow hold for every implementation of it ([tensor_add]
    and [tensor_mul] are [+] and [*] on tensors), the results
    about shapes are read off the [meta] implementation, which follows the
    shape contracts of the torch documentation (evaluation mode; batched
    4-axis inputs, and for [conv2d] the unbatched 3-axis input as well). *)

(** An [int], or a tuple or list of [int]s. *)
Inductive int_or_seq : Type :=
| Int (k : Z)
| Seq (ks : list Z).

(** [torch.nn.modules.utils._pair]. *)
Definition pair_of (v : int_or_seq) : list Z :=
  match v with
  | Int k => [k; k]
  | Seq ks => ks
  end.

Record Conv2d : Type := {
  in_channels : Z;
  out_channels : Z;
  kernel_size : list Z;
  stride : list Z;
  padding : list Z;
  groups : Z;
  bias : bool
}.

(** [nn.Conv2d(in_channels, out_channels, kernel_size, stride, padding,
    groups=groups, bias=bias)]: the constructor refuses a group count that is
    not positive or does not divide both channel counts, and cannot allocate
    a weight of negative extent. *)
Definition nn_Conv2d (c_in c_out : Z) (k s p : int_or_seq) (g : Z) (b : bool)
  : result Conv2d :=
  _ ← check (0 <? g) ValueError;
  _ ← check (c_in mod g =? 0) ValueError;
  _ ← check (c_out mod g =? 0) ValueError;
  _ ← check ((0 <=? c_in) && (0 <=? c_out) && forallb (Z.leb 0) (pair_of k)) RuntimeError;
  Ok {| in_channels := c_in; out_channels := c_out; kernel_size := pair_of k;
        stride := pair_of s; padding := pair_of p; groups := g; bias := b |}.

Record BatchNorm2d : Type := { num_features : Z }.
Definition nn_BatchNorm2d (c : Z) : BatchNorm2d := {| num_features := c |}.

Record MaxPool2d : Type := {
  pool_kernel_size : Z;
  pool_stride : Z;
  pool_padding : Z
}.
Definition nn_MaxPool2d (k s p : Z) : MaxPool2d :=
  {| pool_kernel_size := k; pool_stride := s; pool_padding := p |}.

Inductive activation : Type :=
| Hardswish
| Identity
| LeakyReLU (negative_slope : float) (inplace : bool)
| ReLU
| Sigmoid.

Class NNOps (T : Type) `{TensorOps T} : Type := {
  conv2d : Conv2d -> T -> result T;
  batch_norm : BatchNorm2d -> T -> result T;
  hardswish : T -> T;
  leaky_relu : float -> T -> T;
  relu : T -> T;
  sigmoid : T -> T;
  max_pool2d : MaxPool2d -> T -> result T;
  adaptive_avg_pool2d : Z -> T -> result T;
  adaptive_max_pool2d : Z -> T -> result T;
  tensor_add : T -> T -> result T;
  tensor_mul : T -> T -> result T;
  matmul : T -> T -> result T
}.

Definition apply_act {T : Type} `{NNOps T} (a : activation) (x : T) : T :=
  match a with
  | Hardswish => hardswish x
  | Identity => x
  | LeakyReLU slope _ => leaky_relu slope x
  | ReLU => relu x
  | Sigmoid => sigmoid x
  end.

(** *** Shape contracts *)

Module MetaNN.

(** Output extent of a convolution or pooling window along one axis:
    [floor((n + 2p - k) / s) + 1]. *)
Definition out_size (n p k s : Z) : Z := (n + 2 * p - k) / s + 1.

(** [conv2d] takes a batched input (N,C,H,W) or an unbatched one (C,H,W). *)
Definition conv2d_shape (c : Conv2d) (x : list Z) : result (list Z) :=
  match x, kernel_size c, stride c, padding c with
  | [n; ch; h; w], [kh; kw], [sh; sw], [ph; pw] =>
      _ ← check (ch =? in_channels c) RuntimeError;
      _ ← check (groups c <=? out_channels c) RuntimeError;
      _ ← check ((0 <? kh) && (0 <? kw) && (0 <? sh) && (0 <? sw)
                 && (0 <=? ph) && (0 <=? pw)) RuntimeError;
      _ ← check ((kh <=? h + 2 * ph) && (kw <=? w + 2 * pw)) RuntimeError;
      Ok [n; out_channels c; out_size h ph kh sh; out_size w pw kw sw]
  | [ch; h; w], [kh; kw], [sh; sw], [ph; pw] =>
      _ ← check (ch =? in_channels c) RuntimeError;
      _ ← check (groups c <=? out_channels c) RuntimeError;
      _ ← check ((0 <? kh) && (0 <? kw) && (0 <? sh) && (0 <? sw)
                 && (0 <=? ph) && (0 <=? pw)) RuntimeError;
      _ ← check ((kh <=? h + 2 * ph) && (kw <=? w + 2 * pw)) RuntimeError;
      Ok [out_channels c; out_size h ph kh sh; out_size w pw kw sw]
  | _, _, _, _ => Raise RuntimeError
  end.

Definition batch_norm_shape (b : BatchNorm2d) (x : list Z) : result (list Z) :=
  match x with
  | [n; ch; h; w] => _ ← check (ch =? num_features b) RuntimeError; Ok x
  | _ => Raise ValueError
  end.

Definition max_pool2d_shape (m : MaxPool2d) (x : list Z) : result (list Z) :=
  let k := pool_kernel_size m in
  let s := pool_stride m in
  let p := pool_padding m in
  match x with
  | [n; ch; h; w] =>
      _ ← check ((0 <? k) && (0 <? s) && (0 <=? p) && (2 * p <=? k)) RuntimeError;
      _ ← check ((k <=? h + 2 * p) && (k <=? w + 2 * p)) RuntimeError;
      Ok [n; ch; out_size h p k s; out_size w p k s]
  | _ => Raise RuntimeError
  end.

(** Adaptive pooling to [o x o]: every non-batch extent must be positive. *)
Definition adaptive_pool2d_shape (o : Z) (x : list Z) : result (list Z) :=
  match x with
  | [n; ch; h; w] =>
      _ ← check ((0 <? ch) && (0 <? h) && (0 <? w)) RuntimeError;
      Ok [n; ch; o; o]
  | _ => Raise RuntimeError
  end.

(** Adaptive average pooling to 1 x 1 is the mean over the last two axes,
    which torch takes without looking at the extents; to any other output
    size it checks them as the adaptive maximum pooling does. *)
Definition adaptive_avg_pool2d_shape (o : Z) (x : list Z) : result (list Z) :=
  if o =? 1 then
    match reverse x with
    | _ :: _ :: rest => Ok (reverse rest ++ [1; 1])
    | _ => Raise IndexError
    end
  else adaptive_pool2d_shape o x.

(** Broadcasting, on shapes written last axis first. *)
Fixpoint broadcast_rev (a b : list Z) : result (list Z) :=
  match a, b with
  | [], _ => Ok b
  | _, [] => Ok a
  | x :: a', y :: b' =>
      r ← broadcast_rev a' b';
      if x =? y then Ok (x :: r)
      else if x =? 1 then Ok (y :: r)
      else if y =? 1 then Ok (x :: r)
      else Raise RuntimeError
  end.

Definition broadcast (a b : list Z) : result (list Z) :=
  reverse <$> broadcast_rev (reverse a) (reverse b).

(** [a @ b] for operands of rank at least 2: the batch axes broadcast and the
    inner extents agree.  (The conventions for rank-1 operands are left out:
    none reaches [@] in this file.) *)
Definition matmul_shape (a b : list Z) : result (list Z) :=
  match reverse a, reverse b with
  | k :: m :: ba, n :: k' :: bb =>
      _ ← check (k =? k') RuntimeError;
      batch ← broadcast_rev ba bb;
      Ok (reverse batch ++ [m; n])
  | _, _ => Raise RuntimeError
  end.

Definition lift1 (f : list Z -> result (list Z)) (x : meta) : result meta :=
  Meta <$> f (meta_shape x).
Definition lift2 (f : list Z -> list Z -> result (list Z)) (x y : meta) : result meta :=
  Meta <$> f (meta_shape x) (meta_shape y).

End MetaNN.

Global Instance meta_nn : NNOps meta := {|
  conv2d c := MetaNN.lift1 (MetaNN.conv2d_shape c);
  batch_norm b := MetaNN.lift1 (MetaNN.batch_norm_shape b);
  hardswish x := x;
  leaky_relu _ x := x;
  relu x := x;
  sigmoid x := x;
  max_pool2d m := MetaNN.lift1 (MetaNN.max_pool2d_shape m);
  adaptive_avg_pool2d o := MetaNN.lift1 (MetaNN.adaptive_avg_pool2d_shape o);
  adaptive_max_pool2d o := MetaNN.lift1 (MetaNN.adaptive_pool2d_shape o);
  tensor_add := MetaNN.lift2 MetaNN.broadcast;
  tensor_mul := MetaNN.lift2 MetaNN.broadcast;
  matmul := MetaNN.lift2 MetaNN.matmul_shape
|}.

(** ** The layers of common.py *)

(** [autopad] (lines 13-23). *)
Definition autopad (k : int_or_seq) (p : option int_or_seq) : int_or_seq :=
  match p with
  | None =>
      match k with
      | Int k => Int (k / 2)
      | Seq ks => Seq ((fun x => x / 2) <$> ks)
      end
  | Some p => p
  end.

(** [nn.Sequential]: feed the output of each module to the next. *)
Definition sequential {M T : Type} (fwd : M -> T -> result T) (ms : list M) (x : T)
  : result T :=
  foldl (fun acc m => acc ≫= fwd m) (Ok x) ms.

(** [Conv] (lines 40-58). *)
Module Conv.
Record t : Type := { conv : Conv2d; bn : BatchNorm2d; act : activation }.

Definition init (c1 c2 : Z) (k s : int_or_seq) (p : option int_or_seq) (g : Z)
  (act : bool) : result t :=
  conv ← nn_Conv2d c1 c2 k s (autopad k p) g false;
  Ok {| conv := conv; bn := nn_BatchNorm2d c2;
        act := if act then Hardswish else Identity |}.

Definition forward {T : Type} `{NNOps T} (self : t) (x : T) : result T :=
  y ← conv2d (conv self) x;
  y ← batch_norm (bn self) y;
  Ok (apply_act (act self) y).

Definition fuseforward {T : Type} `{NNOps T} (self : t) (x : T) : result T :=
  y ← conv2d (conv self) x;
  Ok (apply_act (act self) y).
End Conv.

(** [Bottleneck] (lines 60-83). *)
Module Bottleneck.
Record t : Type := { cv1 : Conv.t; cv2 : Conv.t; add : bool }.

Definition init (c1 c2 : Z) (shortcut : bool) (g : Z) (e : float) : result t :=
  c_ ← mul_int_float c2 e ≫= int_of_float;
  cv1 ← Conv.init c1 c_ (Int 1) (Int 1) None 1 true;
  cv2 ← Conv.init c_ c2 (Int 3) (Int 1) None g true;
  Ok {| cv1 := cv1; cv2 := cv2; add := shortcut && (c1 =? c2) |}.

Definition forward {T : Type} `{NNOps T} (self : t) (x : T) : result T :=
  if add self then
    y ← Conv.forward (cv1 self) x;
    y ← Conv.forward (cv2 self) y;
    tensor_add x y
  else
    y ← Conv.forward (cv1 self) x;
    Conv.forward (cv2 self) y.
End Bottleneck.

(** [BottleneckCSP] (lines 85-106). *)
Module BottleneckCSP.
Record t : Type := {
  cv1 : Conv.t;
  cv2 : Conv2d;
  cv3 : Conv2d;
  cv4 : Conv.t;
  bn : BatchNorm2d;
  act : activation;
  m : list Bottleneck.t
}.

Definition init (c1 c2 n : Z) (shortcut : bool) (g : Z) (e : float) : result t :=
  c_ ← mul_int_float c2 e ≫= int_of_float;
  cv1 ← Conv.init c1 c_ (Int 1) (Int 1) None 1 true;
  cv2 ← nn_Conv2d c1 c_ (Int 1) (Int 1) (Int 0) 1 false;
  cv3 ← nn_Conv2d c_ c_ (Int 1) (Int 1) (Int 0) 1 false;
  cv4 ← Conv.init (2 * c_) c2 (Int 1) (Int 1) None 1 true;
  let bn := nn_BatchNorm2d (2 * c_) in
  let act := LeakyReLU float_0_1 true in
  m ← mapM (fun _ => Bottleneck.init c_ c_ shortcut g float_1_0) (seqZ 0 n);
  Ok {| cv1 := cv1; cv2 := cv2; cv3 := cv3; cv4 := cv4; bn := bn; act := act;
        m := m |}.

(** The argument of [self.bn] in [forward]: [torch.cat((y1, y2), dim=1)]. *)
Definition merged {T : Type} `{NNOps T} (self : t) (x : T) : result T :=
  y1 ← Conv.forward (cv1 self) x;
  y1 ← sequential Bottleneck.forward (m self) y1;
  y1 ← conv2d (cv3 self) y1;
  y2 ← conv2d (cv2 self) x;
  cat [y1; y2] 1.

Definition forward {T : Type} `{NNOps T} (self : t) (x : T) : result T :=
  y ← merged self x;
  y ← batch_norm (bn self) y;
  Conv.forward (cv4 self) (apply_act (act self) y).
End BottleneckCSP.

(** [SPP] (lines 108-124). *)
Module SPP.
Record t : Type := { cv1 : Conv.t; cv2 : Conv.t; m : list MaxPool2d }.

Definition init (c1 c2 : Z) (k : list Z) : result t :=
  let c_ := c1 / 2 in
  cv1 ← Conv.init c1 c_ (Int 1) (Int 1) None 1 true;
  cv2 ← Conv.init (c_ * (Z.of_nat (length k) + 1)) c2 (Int 1) (Int 1) None 1 true;
  Ok {| cv1 := cv1; cv2 := cv2;
        m := (fun x => nn_MaxPool2d x 1 (x / 2)) <$> k |}.

(** The argument of [self.cv2] in [forward]. *)
Definition pooled {T : Type} `{NNOps T} (self : t) (x : T) : result T :=
  x ← Conv.forward (cv1 self) x;
  ys ← mapM (fun m => max_pool2d m x) (m self);
  cat ([x] ++ ys) 1.

Definition forward {T : Type} `{NNOps T} (self : t) (x : T) : result T :=
  z ← pooled self x;
  Conv.forward (cv2 self) z.
End SPP.

(** [Focus] (lines 126-141). *)
Module Focus.
Record t : Type := { conv : Conv.t }.

Definition init (c1 c2 : Z) (k s : int_or_seq) (p : option int_or_seq) (g : Z)
  (act : bool) : result t :=
  conv ← Conv.init (c1 * 4) c2 k s p g act;
  Ok {| conv := conv |}.

(** The argument of [self.conv] in [forward]:
    [torch.cat([x[..., ::2, ::2], x[..., 1::2, ::2], x[..., ::2, 1::2],
    x[..., 1::2, 1::2]], 1)]. *)
Definition gather4 {T : Type} `{TensorOps T} (x : T) : result T :=
  a ← strided x 0 2 0 2;
  b ← strided x 1 2 0 2;
  c ← strided x 0 2 1 2;
  d ← strided x 1 2 1 2;
  cat [a; b; c; d] 1.

Definition forward {T : Type} `{NNOps T} (self : t) (x : T) : result T :=
  z ← gather4 x;
  Conv.forward (conv self) z.
End Focus.

(** [Flatten] (lines 169-177). *)
Module Flatten.
Definition forward {T : Type} `{TensorOps T} (x : T) : result T :=
  n ← from_option Ok (Raise IndexError) (size x !! 0%nat);
  view x [n; -1].
End Flatten.

(** [Classify] (lines 179-195).  Its input is a tensor or a list of tensors. *)
Inductive tensor_or_list (T : Type) : Type :=
| One (x : T)
| Many (xs : list T).
Global Arguments One {T} x.
Global Arguments Many {T} xs.

Module Classify.
Record t : Type := { aap : Z; conv : Conv2d }.

Definition init (c1 c2 : Z) (k s : int_or_seq) (p : option int_or_seq) (g : Z)
  : result t :=
  conv ← nn_Conv2d c1 c2 k s (autopad k p) g false;
  Ok {| aap := 1; conv := conv |}.

(** [torch.cat([self.aap(y) for y in (x if isinstance(x, list) else [x])], 1)]. *)
Definition pooled {T : Type} `{NNOps T} (self : t) (x : tensor_or_list T) : result T :=
  let xs := match x with Many xs => xs | One x => [x] end in
  ys ← mapM (adaptive_avg_pool2d (aap self)) xs;
  cat ys 1.

Definition forward {T : Type} `{NNOps T} (self : t) (x : tensor_or_list T) : result T :=
  z ← pooled self x;
  y ← conv2d (conv self) z;
  Flatten.forward y.
End Classify.

(** [ChannelAttention] (lines 211-227). *)
Module ChannelAttention.
Record t : Type := {
  avg_pool : Z;
  max_pool : Z;
  fc : Conv2d * activation * Conv2d
}.

Definition init (in_planes ratio : Z) : result t :=
  hidden ← in_planes // ratio;
  fc1 ← nn_Conv2d in_planes hidden (Int 1) (Int 1) (Int 0) 1 false;
  hidden' ← in_planes // ratio;
  fc2 ← nn_Conv2d hidden' in_planes (Int 1) (Int 1) (Int 0) 1 false;
  Ok {| avg_pool := 1; max_pool := 1; fc := (fc1, ReLU, fc2) |}.

Definition fc_forward {T : Type} `{NNOps T} (self : t) (x : T) : result T :=
  let '(fc1, a, fc2) := fc self in
  y ← conv2d fc1 x;
  conv2d fc2 (apply_act a y).

Definition forward {T : Type} `{NNOps T} (self : t) (x : T) : result T :=
  p ← adaptive_avg_pool2d (avg_pool self) x;
  avg_out ← fc_forward self p;
  p ← adaptive_max_pool2d (max_pool self) x;
  max_out ← fc_forward self p;
  out ← tensor_add avg_out max_out;
  Ok (sigmoid out).
End ChannelAttention.

(** [SAM] (lines 240-259). *)
Module SAM.
Record t : Type := { width : Z; height : Z; wam : Conv2d; ham : Conv2d }.

Definition init (in_channels width height : Z) : result t :=
  wam ← nn_Conv2d width in_channels (Int 1) (Int 1) (Int 0) 1 true;
  ham ← nn_Conv2d height in_channels (Int 1) (Int 1) (Int 0) 1 true;
  Ok {| width := width; height := height; wam := wam; ham := ham |}.

Definition forward {T : Type} `{NNOps T} (self : t) (x : T) : result T :=
  xh ← transpose x (-2) (-3);
  xw ← transpose x (-1) (-3);
  yh ← conv2d (ham self) xh;
  yw ← conv2d (wam self) xw;
  y ← matmul yw yh;
  Ok (sigmoid y).
End SAM.

(** [DAM] (lines 261-272). *)
Module DAM.
Record t : Type := {
  width : Z;
  height : Z;
  cam : ChannelAttention.t;
  sam : SAM.t
}.

Definition init (in_planes width height : Z) : result t :=
  cam ← ChannelAttention.init in_planes 16;
  sam ← SAM.init in_planes width height;
  Ok {| width := width; height := height; cam := cam; sam := sam |}.

Definition forward {T : Type} `{NNOps T} (self : t) (x : T) : result T :=
  g ← ChannelAttention.forward (cam self) x;
  x ← tensor_mul g x;
  g ← SAM.forward (sam self) x;
  tensor_mul g x.
End DAM.

(** [BDAM] (lines 291-303). *)
Module BDAM.
Record t : Type := { width : Z; height : Z; window_size : Z; dam : DAM.t }.

Definition init (in_planes width height : Z) : result t :=
  let window_size := min (width / 4) (height / 4) in
  dam ← DAM.init in_planes window_size window_size;
  Ok {| width := width; height := height; window_size := window_size;
        dam := dam |}.

Definition forward {T : Type} `{NNOps T} (self : t) (x : T) : result T :=
  x ← window_partition x (window_size self);
  x ← DAM.forward (dam self) x;
  window_reverse x (window_size self) (height self) (width self).
End BDAM.

(** ** The remaining layers of common.py *)

(** [DWConv] (lines 25-38): a [Conv] whose group count is [math.gcd(c1, c2)]. *)
Definition DWConv (c1 c2 : Z) (k s : int_or_seq) (act : bool) : result Conv.t :=
  Conv.init c1 c2 k s None (Z.gcd c1 c2) act.

(** [Concat] (lines 143-154). *)
Module Concat.
Record t : Type := { d : Z }.

Definition init (dimension : Z) : t := {| d := dimension |}.

Definition forward {T : Type} `{TensorOps T} (self : t) (x : list T) : result T :=
  cat x (d self).
End Concat.

(** Reductions along one axis: [torch.mean(x, dim, keepdim)] and the values
    of [torch.max(x, dim, keepdim)]. *)
Class ReduceOps (T : Type) : Type := {
  mean_dim : T -> Z -> bool -> result T;
  max_dim : T -> Z -> bool -> result T
}.

Module MetaReduce.

(** The reduced axis is kept with extent 1 or dropped. *)
Definition reduce_shape (s : list Z) (dim : Z) (keepdim : bool) : result (list Z) :=
  d ← wrap_dim (length s) dim;
  Ok (if keepdim then <[d := 1]> s else delete d s).

(** A maximum needs at least one element along the reduced axis. *)
Definition max_shape (s : list Z) (dim : Z) (keepdim : bool) : result (list Z) :=
  d ← wrap_dim (length s) dim;
  _ ← check (0 <? s !!! d) IndexError;
  reduce_shape s dim keepdim.

End MetaReduce.

Global Instance meta_reduce : ReduceOps meta := {|
  mean_dim x dim keepdim := Meta <$> MetaReduce.reduce_shape (meta_shape x) dim keepdim;
  max_dim x dim keepdim := Meta <$> MetaReduce.max_shape (meta_shape x) dim keepdim
|}.

(** [SpatialAttention] (lines 197-209). *)
Module SpatialAttention.
Record t : Type := { conv1 : Conv2d }.

Definition init (kernel_size : Z) : result t :=
  conv1 ← nn_Conv2d 2 1 (Int kernel_size) (Int 1) (Int (kernel_size / 2)) 1 false;
  Ok {| conv1 := conv1 |}.

Definition forward {T : Type} `{NNOps T} `{!ReduceOps T} (self : t) (x : T)
  : result T :=
  avg_out ← mean_dim x 1 true;
  max_out ← max_dim x 1 true;
  out ← cat [avg_out; max_out] 1;
  out ← conv2d (conv1 self) out;
  Ok (sigmoid out).
End SpatialAttention.

(** [CBAM] (lines 229-238). *)
Module CBAM.
Record t : Type := {
  sptial_attn : SpatialAttention.t;
  channel_attn : ChannelAttention.t
}.

Definition init (in_planes : Z) : result t :=
  sptial_attn ← SpatialAttention.init 7;
  channel_attn ← ChannelAttention.init in_planes 16;
  Ok {| sptial_attn := sptial_attn; channel_attn := channel_attn |}.

Definition forward {T : Type} `{NNOps T} `{!ReduceOps T} (self : t) (x : T)
  : result T :=
  g ← ChannelAttention.forward (channel_attn self) x;
  x ← tensor_mul g x;
  g ← SpatialAttention.forward (sptial_attn self) x;
  tensor_mul g x.
End CBAM.

(** ** Definitions used to state the properties *)

(** The transformation a Bottleneck applies before the optional shortcut,
    in the words of the specification: [cv2(cv1(x))]. *)
Definition transformed {T : Type} `{NNOps T} (b : Bottleneck.t) (x : T) : result T :=
  Conv.forward (Bottleneck.cv1 b) x ≫= Conv.forward (Bottleneck.cv2 b).

(** The specification's formula for the CSP block:
    [cv4(leakyReLU(BN(concat(cv3(bottlenecks(cv1(x))), cv2(x)))))]. *)
Definition csp_formula {T : Type}
  (cv1 bottlenecks cv2 cv3 bn leaky cv4 : T -> result T)
  (concat : T -> T -> result T) (x : T) : result T :=
  a ← cv1 x; a ← bottlenecks a; a ← cv3 a;
  b ← cv2 x;
  c ← concat a b; c ← bn c; c ← leaky c;
  cv4 c.

(** The stack of blocks in the words of the specification: the blocks applied
    in sequence, the first block to the input and each next block to the
    output of the one before. *)
Fixpoint in_sequence {M T : Type} (fwd : M -> T -> result T) (ms : list M) (x : T)
  : result T :=
  match ms with
  | [] => Ok x
  | m :: ms' => y ← fwd m x; in_sequence fwd ms' y
  end.

(** Total channel count of a list of (channels, height, width) triples. *)
Definition channels_of (dims : list (Z * Z * Z)) : Z :=
  foldr Z.add 0 ((fun d => d.1.1) <$> dims).

(** ** The layers on concrete inputs *)

Example floordiv_7_2 : 7 // 2 = Ok 3.
Proof. reflexivity. Qed.

Example floordiv_neg : (-7) // 2 = Ok (-4).
Proof. reflexivity. Qed.

Example floordiv_zero : 7 // 0 = Raise ZeroDivisionError.
Proof. reflexivity. Qed.

Example int_trunc : int (3 # 2) = 1 /\ int (- (3 # 2)) = -1.
Proof. split; reflexivity. Qed.

Example round_half_even : round (3 # 2) = 2 /\ round (5 # 2) = 2 /\ round (7 # 4) = 2.
Proof. repeat split; reflexivity. Qed.

Example float_literals :
  float_1_0 = S754_finite false 4503599627370496 (-52) /\
  (float_value float_0_5 == 1 # 2)%Q /\ (float_value float_0_25 == 1 # 4)%Q /\
  valid_binary 53 1024 float_0_7 = true /\
  (float_value float_0_7 < 7 # 10)%Q.
Proof. repeat split; reflexivity. Qed.

(** [int(10 * 0.7)] is 7: the product is rounded to the float 7.0 before it
    is truncated, although the float 0.7 lies below 7/10. *)
Example int_10_times_0_7 :
  mul_int_float 10 float_0_7 ≫= int_of_float = Ok 7 /\
  int (inject_Z 10 * float_value float_0_7) = 6.
Proof. split; reflexivity. Qed.

Example int_7_times_0_25 : mul_int_float 7 float_0_25 ≫= int_of_float = Ok 1.
Proof. reflexivity. Qed.

Example int_3_times_third : mul_int_float 3 (float_lit 1 3) ≫= int_of_float = Ok 1.
Proof. reflexivity. Qed.

Example view_infer : view_shape [2; 3; 4] [-1; 4] = Ok [6; 4].
Proof. reflexivity. Qed.

Example view_infer_empty : view_shape [0; 3] [0; -1] = Raise RuntimeError.
Proof. reflexivity. Qed.

Example view_infer_empty_ok : view_shape [0; 3] [-1; 3] = Ok [0; 3].
Proof. reflexivity. Qed.

Example permute_0231 : gather [0; 2; 3; 1]%nat [10; 20; 30; 40] = [10; 30; 40; 20].
Proof. reflexivity. Qed.

Example scatter_0231 : scatter [0; 2; 3; 1]%nat [10; 30; 40; 20] = [10; 20; 30; 40].
Proof. reflexivity. Qed.

Example transpose_neg : transpose_dims [1; 2; 3; 4] (-1) (-3) = Ok [0; 3; 2; 1]%nat.
Proof. reflexivity. Qed.

Example cat_ch : cat_shape [[2; 3; 4; 4]; [2; 5; 4; 4]] 1 = Ok [2; 8; 4; 4].
Proof. reflexivity. Qed.

Example strided_odd : strided_shape [1; 1; 5; 4] 1 2 0 2 = Ok [1; 1; 2; 2].
Proof. reflexivity. Qed.

Example partition_2x4 :
  window_partition (iota [1; 1; 2; 4]) 2
  = Ok (Tensor.mk_tensor [2; 1; 2; 2] [0; 1; 4; 5; 2; 3; 6; 7]).
Proof. reflexivity. Qed.

Example reverse_partition_2x4 :
  window_partition (iota [1; 1; 2; 4]) 2 ≫= (fun w => window_reverse w 2 2 4)
  = Ok (iota [1; 1; 2; 4]).
Proof. reflexivity. Qed.

Example partition_2ch :
  window_partition (iota [1; 2; 2; 2]) 1
  = Ok (Tensor.mk_tensor [4; 2; 1; 1] [0; 4; 1; 5; 2; 6; 3; 7]).
Proof. reflexivity. Qed.

Example partition_meta :
  window_partition (Meta [4; 256; 64; 64]) 16 = Ok (Meta [64; 256; 16; 16]).
Proof. reflexivity. Qed.

Example bdam_main :
  BDAM.init 256 64 64 ≫= (fun m => BDAM.forward m (Meta [4; 256; 64; 64]))
  = Ok (Meta [4; 256; 64; 64]).
Proof. reflexivity. Qed.

Example bdam_small_input :
  BDAM.init 256 64 64 ≫= (fun m => BDAM.forward m (Meta [4; 256; 32; 32]))
  = Ok (Meta [1; 256; 64; 64]).
Proof. reflexivity. Qed.

Example conv_640 :
  Conv.init 3 16 (Int 3) (Int 2) None 1 true
    ≫= (fun m => Conv.forward m (Meta [1; 3; 640; 640]))
  = Ok (Meta [1; 16; 320; 320]).
Proof. reflexivity. Qed.

Example csp_64 :
  BottleneckCSP.init 64 64 3 true 1 float_0_5
    ≫= (fun m => BottleneckCSP.forward m (Meta [2; 64; 32; 32]))
  = Ok (Meta [2; 64; 32; 32]).
Proof. reflexivity. Qed.

Example spp_default :
  SPP.init 512 512 [5; 9; 13] ≫= (fun m => SPP.pooled m (Meta [1; 512; 20; 20]))
  = Ok (Meta [1; 1024; 20; 20]).
Proof. reflexivity. Qed.

Example focus_640 :
  Focus.init 3 64 (Int 3) (Int 1) None 1 true
    ≫= (fun m => Focus.forward m (Meta [1; 3; 640; 640]))
  = Ok (Meta [1; 64; 320; 320]).
Proof. reflexivity. Qed.

Example classify_list :
  Classify.init 96 10 (Int 1) (Int 1) None 1
    ≫= (fun m => Classify.forward m (Many [Meta [2; 32; 20; 20]; Meta [2; 64; 10; 10]]))
  = Ok (Meta [2; 10]).
Proof. reflexivity. Qed.

Example sam_shapes :
  transpose (Meta [1; 2; 3; 4]) (-2) (-3) = Ok (Meta [1; 3; 2; 4]) /\
  transpose (Meta [1; 2; 3; 4]) (-1) (-3) = Ok (Meta [1; 4; 3; 2]).
Proof. split; reflexivity. Qed.

(** * Properties *)

(** ** Index arithmetic *)

Lemma numel_nonneg (s : list Z) : Forall (fun d => 0 <= d) s -> 0 <= numel s.
Proof.
  induction 1 as [|d s Hd _ IH]; simpl; [lia|].
  apply Z.mul_nonneg_nonneg; assumption.
Qed.

Lemma in_range_nonneg (s idx : list Z) :
  in_range s idx -> Forall (fun d => 0 <= d) s.
Proof.
  induction 1 as [|i d idx s Hi _ IH]; constructor; [lia|assumption].
Qed.

Lemma ravel_bounds (s idx : list Z) :
  in_range s idx -> 0 <= ravel s idx < numel s.
Proof.
  induction 1 as [|i d idx s Hi Hr IH]; simpl; [lia|].
  pose proof (numel_nonneg s (in_range_nonneg _ _ Hr)). nia.
Qed.

Lemma unravel_ravel (s idx : list Z) :
  in_range s idx -> unravel s (ravel s idx) = idx.
Proof.
  induction 1 as [|i d idx s Hi Hr IH]; simpl; [reflexivity|].
  pose proof (ravel_bounds _ _ Hr) as Hb.
  rewrite <- (Z.div_unique (i * numel s + ravel s idx) (numel s) i (ravel s idx))
    by (auto || lia).
  rewrite <- (Z.mod_unique (i * numel s + ravel s idx) (numel s) i (ravel s idx))
    by (auto || lia).
  rewrite IH. reflexivity.
Qed.

Lemma unravel_in_range (s : list Z) :
  Forall (fun d => 0 <= d) s ->
  forall k, 0 <= k < numel s -> in_range s (unravel s k).
Proof.
  induction 1 as [|d s Hd Hs IH]; intros k Hk; simpl in *; [constructor|].
  pose proof (numel_nonneg s Hs) as Hn.
  assert (0 < numel s) as Hpos by nia.
  constructor.
  - split; [apply Z.div_pos; lia|].
    apply Z.div_lt_upper_bound; [assumption|]. lia.
  - apply IH. apply Z.mod_pos_bound. assumption.
Qed.

Lemma ravel_unravel (s : list Z) :
  Forall (fun d => 0 <= d) s ->
  forall k, 0 <= k < numel s -> ravel s (unravel s k) = k.
Proof.
  induction 1 as [|d s Hd Hs IH]; intros k Hk; simpl in *; [lia|].
  pose proof (numel_nonneg s Hs) as Hn.
  assert (0 < numel s) as Hpos by nia.
  rewrite IH by (apply Z.mod_pos_bound; assumption).
  pose proof (Z.div_mod k (numel s)). lia.
Qed.

Lemma numel_app (a b : list Z) : numel (a ++ b) = numel a * numel b.
Proof. induction a as [|x a IH]; simpl; [lia|]. rewrite IH. ring. Qed.

(** ** [view] on sizes that are known to be non-negative *)

Lemma filter_keep_nonneg (l : list Z) :
  Forall (fun d => 0 <= d) l -> filter (fun d => d ≠ -1) l = l.
Proof.
  induction 1 as [|d l Hd _ IH]; [reflexivity|].
  rewrite filter_cons_True by lia. rewrite IH. reflexivity.
Qed.

Lemma filter_drop_nonneg (l : list Z) :
  Forall (fun d => 0 <= d) l -> filter (fun d => d = -1) l = [].
Proof.
  induction 1 as [|d l Hd _ IH]; [reflexivity|].
  rewrite filter_cons_False by lia. exact IH.
Qed.

Lemma forallb_nonneg (l : list Z) :
  Forall (fun d => 0 <= d) l -> forallb (fun d => -1 <=? d) l = true.
Proof.
  induction 1 as [|d l Hd _ IH]; [reflexivity|]. simpl.
  rewrite IH. replace (-1 <=? d) with true by (symmetry; apply Z.leb_le; lia).
  reflexivity.
Qed.

Lemma map_infer_nonneg (v : Z) (l : list Z) :
  Forall (fun d => 0 <= d) l -> map (fun d => if d =? -1 then v else d) l = l.
Proof.
  induction 1 as [|d l Hd _ IH]; [reflexivity|]. simpl.
  replace (d =? -1) with false by (symmetry; apply Z.eqb_neq; lia).
  rewrite IH. reflexivity.
Qed.

Lemma view_shape_exact (s dims : list Z) :
  Forall (fun d => 0 <= d) dims -> numel s = numel dims ->
  view_shape s dims = Ok dims.
Proof.
  intros Hd Hn. unfold view_shape.
  rewrite forallb_nonneg by assumption. simpl.
  rewrite filter_drop_nonneg, filter_keep_nonneg by assumption. simpl.
  rewrite Hn, Z.eqb_refl. reflexivity.
Qed.

Lemma view_shape_infer (s pre post : list Z) :
  Forall (fun d => 0 <= d) pre -> Forall (fun d => 0 <= d) post ->
  0 < numel pre * numel post ->
  numel s mod (numel pre * numel post) = 0 ->
  view_shape s (pre ++ -1 :: post)
  = Ok (pre ++ numel s / (numel pre * numel post) :: post).
Proof.
  intros Hpre Hpost Hpos Hmod. unfold view_shape.
  rewrite forallb_app, !forallb_nonneg by assumption. simpl.
  rewrite forallb_nonneg by assumption. simpl.
  rewrite !list.filter_app, !filter_drop_nonneg, !filter_keep_nonneg by assumption.
  rewrite filter_cons_True by reflexivity.
  rewrite filter_cons_False by (intros Hc; apply Hc; reflexivity).
  rewrite filter_drop_nonneg, filter_keep_nonneg by assumption.
  simpl. rewrite numel_app.
  replace (0 <? numel pre * numel post) with true by (symmetry; apply Z.ltb_lt; lia).
  rewrite Hmod. simpl.
  rewrite map_app. simpl. rewrite !map_infer_nonneg by assumption.
  reflexivity.
Qed.

(** ** Tensors are determined by their shape and their elements *)

Section TensorFacts.
Context {A : Type} {inh : Inhabited A}.
Implicit Types t : Tensor.tensor A.

Lemma get_tabulate (s : list Z) (f : list Z -> A) (idx : list Z) :
  in_range s idx -> Tensor.get (Tensor.tabulate s f) idx = f idx.
Proof.
  intros Hr. pose proof (ravel_bounds _ _ Hr) as Hb.
  unfold Tensor.get, Tensor.tabulate. simpl.
  rewrite list_lookup_total_alt, list_lookup_fmap, lookup_seqZ_lt by lia.
  rewrite Z2Nat.id by lia. simpl.
  rewrite Z.add_0_l, unravel_ravel by assumption. reflexivity.
Qed.

Lemma wf_tabulate (s : list Z) (f : list Z -> A) :
  Forall (fun d => 0 <= d) s -> Tensor.wf (Tensor.tabulate s f).
Proof.
  intros Hs. split; [assumption|]. simpl.
  rewrite length_fmap, length_seqZ.
  pose proof (numel_nonneg s Hs). lia.
Qed.

Lemma tensor_ext t1 t2 :
  Tensor.wf t1 -> Tensor.wf t2 -> Tensor.shape t1 = Tensor.shape t2 ->
  (forall idx, in_range (Tensor.shape t1) idx -> Tensor.get t1 idx = Tensor.get t2 idx) ->
  t1 = t2.
Proof.
  destruct t1 as [s d1], t2 as [s2 d2]. unfold Tensor.wf, Tensor.get. simpl.
  intros [Hs Hl1] [_ Hl2] <- Hget. f_equal.
  apply (list_eq_same_length _ _ (Z.to_nat (numel s))); [lia|lia|].
  intros i x y Hi Hx Hy.
  apply list_lookup_total_correct in Hx, Hy. subst x y.
  assert (0 <= Z.of_nat i < numel s) as Hk by lia.
  specialize (Hget _ (unravel_in_range s Hs _ Hk)).
  rewrite ravel_unravel, Nat2Z.id in Hget by assumption.
  exact Hget.
Qed.

Lemma get_permute_by t (ds : list nat) (idx : list Z) :
  in_range (gather ds (Tensor.shape t)) idx ->
  Tensor.get (Tensor.permute_by t ds) idx = Tensor.get t (scatter ds idx).
Proof. intros Hr. unfold Tensor.permute_by. rewrite get_tabulate; auto. Qed.

(** A view reads the same storage: equal offsets give equal elements. *)
Lemma get_reshaped t (s : list Z) (idx idx' : list Z) :
  ravel s idx = ravel (Tensor.shape t) idx' ->
  Tensor.get (Tensor.mk_tensor s (Tensor.data t)) idx = Tensor.get t idx'.
Proof. intros Hr. unfold Tensor.get. simpl. rewrite Hr. reflexivity. Qed.

End TensorFacts.

(** ** The shape of a tensor is what the meta implementation computes *)

Section ToMeta.
Context {A : Type} {inh : Inhabited A}.

Lemma permute_to_meta (t : Tensor.tensor A) (dims : list Z) :
  to_meta <$> permute t dims = permute (to_meta t) dims.
Proof.
  cbn [permute tensor_ops meta_ops]. unfold Tensor.permute, to_meta. cbn [meta_shape].
  destruct (permute_dims (Tensor.shape t) dims); reflexivity.
Qed.

Lemma view_to_meta (t : Tensor.tensor A) (dims : list Z) :
  to_meta <$> view t dims = view (to_meta t) dims.
Proof.
  cbn [view tensor_ops meta_ops]. unfold Tensor.view, to_meta. cbn [meta_shape].
  destruct (view_shape (Tensor.shape t) dims); reflexivity.
Qed.

Lemma window_partition_to_meta (x : Tensor.tensor A) (ws : Z) :
  to_meta <$> window_partition x ws = window_partition (to_meta x) ws.
Proof.
  unfold window_partition.
  rewrite <- permute_to_meta.
  destruct (permute x [0; 2; 3; 1]) as [x1|]; [|reflexivity].
  cbn [fmap result_fmap mbind result_bind].
  change (size (to_meta x1)) with (size x1).
  destruct (size x1) as [|B [|H [|W [|C [|? ?]]]]]; try reflexivity.
  destruct (H // ws) as [hq|]; [|reflexivity].
  destruct (W // ws) as [wq|]; [|reflexivity].
  cbn [mbind result_bind].
  rewrite <- view_to_meta.
  destruct (view x1 [B; hq; ws; wq; ws; C]) as [x2|]; [|reflexivity].
  cbn [fmap result_fmap mbind result_bind].
  rewrite <- permute_to_meta.
  destruct (permute x2 [0; 1; 3; 2; 4; 5]) as [x3|]; [|reflexivity].
  cbn [fmap result_fmap mbind result_bind].
  change (contiguous (to_meta x3)) with (to_meta (contiguous x3)).
  rewrite <- view_to_meta.
  destruct (view (contiguous x3) [-1; ws; ws; C]) as [x4|]; [|reflexivity].
  cbn [fmap result_fmap mbind result_bind].
  apply permute_to_meta.
Qed.

Lemma window_reverse_to_meta (w : Tensor.tensor A) (ws H W : Z) :
  to_meta <$> window_reverse w ws H W = window_reverse (to_meta w) ws H W.
Proof.
  unfold window_reverse.
  rewrite <- permute_to_meta.
  destruct (permute w [0; 2; 3; 1]) as [x1|]; [|reflexivity].
  cbn [fmap result_fmap mbind result_bind].
  change (size (to_meta x1)) with (size x1).
  destruct (from_option Ok (Raise IndexError) (size x1 !! 0%nat)) as [n0|]; [|reflexivity].
  cbn [mbind result_bind].
  destruct (truediv (inject_Z (H * W)) (inject_Z ws)) as [a|]; [|reflexivity].
  cbn [mbind result_bind].
  destruct (truediv a (inject_Z ws)) as [b|]; [|reflexivity].
  cbn [mbind result_bind].
  destruct (truediv (inject_Z n0) b) as [q|]; [|reflexivity].
  cbn [mbind result_bind].
  destruct (H // ws) as [hq|]; [|reflexivity].
  destruct (W // ws) as [wq|]; [|reflexivity].
  cbn [mbind result_bind].
  rewrite <- view_to_meta.
  destruct (view x1 [int q; hq; wq; ws; ws; -1]) as [x2|]; [|reflexivity].
  cbn [fmap result_fmap mbind result_bind].
  rewrite <- permute_to_meta.
  destruct (permute x2 [0; 1; 3; 2; 4; 5]) as [x3|]; [|reflexivity].
  cbn [fmap result_fmap mbind result_bind].
  change (contiguous (to_meta x3)) with (to_meta (contiguous x3)).
  rewrite <- view_to_meta.
  destruct (view (contiguous x3) [int q; H; W; -1]) as [x4|]; [|reflexivity].
  cbn [fmap result_fmap mbind result_bind].
  apply permute_to_meta.
Qed.

End ToMeta.

(** ** Window partition followed by window reverse *)

Lemma truediv_ok (a b : Q) : ~ (b == 0)%Q -> truediv a b = Ok (a / b)%Q.
Proof.
  intros Hb. unfold truediv.
  destruct (Qeq_bool b 0) eqn:E; [|reflexivity].
  apply Qeq_bool_eq in E. contradiction.
Qed.

Lemma int_of_integer (q : Q) (z : Z) : (q == inject_Z z)%Q -> int q = z.
Proof.
  intros Hq. unfold int. destruct (Qle_bool 0 q).
  - rewrite Hq. apply Qfloor_Z.
  - rewrite Hq. apply Qceiling_Z.
Qed.

Lemma inject_Z_nonzero (z : Z) : z ≠ 0 -> ~ (inject_Z z == 0)%Q.
Proof. intros Hz Hq. apply Hz. unfold Qeq in Hq. simpl in Hq. lia. Qed.

(** The batch count [window_reverse] recovers. *)
Lemma window_count (N nH nW ws : Z) :
  0 < nH -> 0 < nW -> 0 < ws ->
  exists a b q : Q,
    truediv (inject_Z (nH * ws * (nW * ws))) (inject_Z ws) = Ok a /\
    truediv a (inject_Z ws) = Ok b /\
    truediv (inject_Z (N * nH * nW)) b = Ok q /\
    int q = N.
Proof.
  intros HnH HnW Hws.
  assert (~ (inject_Z ws == 0)%Q) as Hw by (apply inject_Z_nonzero; lia).
  assert (~ (inject_Z nH == 0)%Q) as Hh by (apply inject_Z_nonzero; lia).
  assert (~ (inject_Z nW == 0)%Q) as Hv by (apply inject_Z_nonzero; lia).
  assert (inject_Z (nH * ws * (nW * ws)) / inject_Z ws / inject_Z ws
          == inject_Z nH * inject_Z nW)%Q as Hb.
  { rewrite !inject_Z_mult. field. assumption. }
  do 3 eexists. repeat split.
  - apply truediv_ok. assumption.
  - apply truediv_ok. assumption.
  - apply truediv_ok. rewrite Hb. intros Hz.
    apply Qmult_integral in Hz. tauto.
  - apply int_of_integer. rewrite Hb, !inject_Z_mult. field. tauto.
Qed.

Lemma view_shape_infer_eq (s pre post : list Z) (v : Z) :
  Forall (fun d => 0 <= d) pre -> Forall (fun d => 0 <= d) post ->
  0 < numel pre * numel post ->
  numel s = v * (numel pre * numel post) ->
  view_shape s (pre ++ -1 :: post) = Ok (pre ++ v :: post).
Proof.
  intros Hpre Hpost Hpos Hv.
  rewrite view_shape_infer by (auto; rewrite Hv; apply Z.mod_mul; lia).
  rewrite Hv, Z.div_mul by lia. reflexivity.
Qed.

Section WindowRoundTrip.
Context {A : Type} {inh : Inhabited A}.

Lemma floordiv_mul (a b : Z) : b ≠ 0 -> (a * b) // b = Ok a.
Proof.
  intros Hb. unfold floordiv.
  destruct (Z.eqb_spec b 0); [contradiction|]. rewrite Z.div_mul by assumption. reflexivity.
Qed.

Lemma permute_ok (t : Tensor.tensor A) dims ds :
  permute_dims (Tensor.shape t) dims = Ok ds ->
  Tensor.permute t dims = Ok (Tensor.permute_by t ds).
Proof. intros Hd. unfold Tensor.permute. rewrite Hd. reflexivity. Qed.

Lemma view_ok (t : Tensor.tensor A) dims s :
  view_shape (Tensor.shape t) dims = Ok s ->
  Tensor.view t dims = Ok (Tensor.mk_tensor s (Tensor.data t)).
Proof. intros Hd. unfold Tensor.view. rewrite Hd. reflexivity. Qed.

Lemma window_partition_tensor (x : Tensor.tensor A) (N C nH nW ws : Z) :
  Tensor.shape x = [N; C; nH * ws; nW * ws] ->
  0 <= N -> 0 < C -> 0 <= nH -> 0 <= nW -> 0 < ws ->
  window_partition x ws
  = Ok (Tensor.permute_by
          (Tensor.mk_tensor [N * nH * nW; ws; ws; C]
             (Tensor.data
                (Tensor.permute_by
                   (Tensor.mk_tensor [N; nH; ws; nW; ws; C]
                      (Tensor.data (Tensor.permute_by x [0; 2; 3; 1]%nat)))
                   [0; 1; 3; 2; 4; 5]%nat)))
          [0; 3; 1; 2]%nat).
Proof.
  intros Hs HN HC HnH HnW Hws.
  unfold window_partition.
  cbn [permute view contiguous size tensor_ops].
  rewrite (permute_ok x _ [0; 2; 3; 1]%nat) by (rewrite Hs; reflexivity).
  cbn [mbind result_bind].
  replace (Tensor.shape (Tensor.permute_by x [0; 2; 3; 1]%nat)) with [N; nH * ws; nW * ws; C]
    by (cbn [Tensor.shape Tensor.permute_by Tensor.tabulate]; rewrite Hs; reflexivity).
  rewrite !floordiv_mul by lia. cbn [mbind result_bind].
  rewrite (view_ok _ _ [N; nH; ws; nW; ws; C]).
  2:{ apply view_shape_exact; [repeat constructor; lia|].
      cbn [Tensor.shape Tensor.permute_by Tensor.tabulate]. rewrite Hs.
      cbn [gather map numel foldr]. simpl. ring. }
  cbn [mbind result_bind].
  rewrite (permute_ok _ _ [0; 1; 3; 2; 4; 5]%nat) by reflexivity.
  cbn [mbind result_bind]. unfold Tensor.contiguous.
  rewrite (view_ok _ _ [N * nH * nW; ws; ws; C]).
  2:{ cbn [Tensor.shape Tensor.permute_by Tensor.tabulate].
      apply (view_shape_infer_eq _ [] [ws; ws; C]);
        [constructor|repeat constructor; lia|simpl; nia|simpl; ring]. }
  cbn [mbind result_bind].
  rewrite (permute_ok _ _ [0; 3; 1; 2]%nat) by reflexivity.
  reflexivity.
Qed.

Lemma window_reverse_tensor (w : Tensor.tensor A) (N C nH nW ws : Z) :
  Tensor.shape w = [N * nH * nW; C; ws; ws] ->
  0 < N -> 0 < C -> 0 < nH -> 0 < nW -> 0 < ws ->
  window_reverse w ws (nH * ws) (nW * ws)
  = Ok (Tensor.permute_by
          (Tensor.mk_tensor [N; nH * ws; nW * ws; C]
             (Tensor.data
                (Tensor.permute_by
                   (Tensor.mk_tensor [N; nH; nW; ws; ws; C]
                      (Tensor.data (Tensor.permute_by w [0; 2; 3; 1]%nat)))
                   [0; 1; 3; 2; 4; 5]%nat)))
          [0; 3; 1; 2]%nat).
Proof.
  intros Hs HN HC HnH HnW Hws.
  destruct (window_count N nH nW ws HnH HnW Hws) as (a & b & q & Ha & Hb & Hq & Hint).
  unfold window_reverse.
  cbn [permute view contiguous size tensor_ops].
  rewrite (permute_ok w _ [0; 2; 3; 1]%nat) by (rewrite Hs; reflexivity).
  cbn [mbind result_bind].
  replace (Tensor.shape (Tensor.permute_by w [0; 2; 3; 1]%nat)) with [N * nH * nW; ws; ws; C]
    by (cbn [Tensor.shape Tensor.permute_by Tensor.tabulate]; rewrite Hs; reflexivity).
  cbn [lookup list_lookup from_option mbind result_bind].
  rewrite Ha. cbn [mbind result_bind].
  rewrite Hb. cbn [mbind result_bind].
  rewrite Hq. cbn [mbind result_bind].
  rewrite Hint, !floordiv_mul by lia. cbn [mbind result_bind].
  rewrite (view_ok _ _ [N; nH; nW; ws; ws; C]).
  2:{ cbn [Tensor.shape Tensor.permute_by Tensor.tabulate]. rewrite Hs.
      apply (view_shape_infer_eq _ [N; nH; nW; ws; ws] []);
        [repeat constructor; lia|constructor|simpl; nia|simpl; ring]. }
  cbn [mbind result_bind].
  rewrite (permute_ok _ _ [0; 1; 3; 2; 4; 5]%nat) by reflexivity.
  cbn [mbind result_bind]. unfold Tensor.contiguous.
  rewrite (view_ok _ _ [N; nH * ws; nW * ws; C]).
  2:{ cbn [Tensor.shape Tensor.permute_by Tensor.tabulate].
      apply (view_shape_infer_eq _ [N; nH * ws; nW * ws] []);
        [repeat constructor; nia|constructor|simpl; nia|simpl; ring]. }
  cbn [mbind result_bind].
  rewrite (permute_ok _ _ [0; 3; 1; 2]%nat) by reflexivity.
  reflexivity.
Qed.

Lemma split_index (h n ws : Z) :
  0 < ws -> 0 <= h < n * ws ->
  exists hb hi, h = hb * ws + hi /\ 0 <= hb < n /\ 0 <= hi < ws.
Proof.
  intros Hws Hh. exists (h / ws), (h mod ws).
  pose proof (Z.div_mod h ws). pose proof (Z.mod_pos_bound h ws Hws).
  split; [lia|]. split; [|lia].
  split; [apply Z.div_pos; lia|].
  apply Z.div_lt_upper_bound; lia.
Qed.

Lemma merge_index (n hb wb N nH nW : Z) :
  0 <= n < N -> 0 <= hb < nH -> 0 <= wb < nW ->
  0 <= (n * nH + hb) * nW + wb < N * nH * nW.
Proof.
  intros Hn Hh Hw.
  assert (0 <= n * nH + hb < N * nH) by nia.
  nia.
Qed.

Ltac in_range_tac := unfold in_range; simpl; repeat constructor; try lia; try nia.

(** C1 (amended): on a non-empty tensor of shape (N,C,H,W), with a window
    size of at least 1 that divides H and W, window_reverse after
    window_partition returns the tensor itself, shape and elements. *)
Theorem window_roundtrip (x : Tensor.tensor A) (N C H W ws : Z) :
  Tensor.wf x -> Tensor.shape x = [N; C; H; W] ->
  0 < N -> 0 < C -> 0 < H -> 0 < W ->
  1 <= ws -> (ws | H) -> (ws | W) ->
  window_partition x ws ≫= (fun w => window_reverse w ws H W) = Ok x.
Proof.
  intros Hwf Hs HN HC HH HW Hws [nH ->] [nW ->].
  assert (0 < nH) as HnH by nia. assert (0 < nW) as HnW by nia.
  rewrite (window_partition_tensor x N C nH nW ws) by (auto; lia).
  cbn [mbind result_bind].
  rewrite (window_reverse_tensor _ N C nH nW ws) by (auto; lia).
  f_equal. apply tensor_ext.
  - apply wf_tabulate. simpl. repeat constructor; nia.
  - assumption.
  - rewrite Hs. reflexivity.
  - intros idx Hr. cbn [Tensor.shape Tensor.permute_by Tensor.tabulate gather map] in Hr.
    simpl in Hr.
    unfold in_range in Hr.
    apply Forall2_cons_inv_r in Hr as (n & idx1 & Hn & Hr & ->).
    apply Forall2_cons_inv_r in Hr as (c & idx2 & Hc & Hr & ->).
    apply Forall2_cons_inv_r in Hr as (h & idx3 & Hh & Hr & ->).
    apply Forall2_cons_inv_r in Hr as (w & idx4 & Hw & Hr & ->).
    apply Forall2_nil_inv_r in Hr as ->.
    destruct (split_index h nH ws) as (hb & hi & -> & Hhb & Hhi); [lia|lia|].
    destruct (split_index w nW ws) as (wb & wi & -> & Hwb & Hwi); [lia|lia|].
    pose proof (merge_index n hb wb N nH nW Hn Hhb Hwb) as Hm.
    rewrite get_permute_by by in_range_tac.
    change (scatter _ _) with [n; hb * ws + hi; wb * ws + wi; c].
    rewrite (get_reshaped _ _ _ [n; hb; hi; wb; wi; c]) by (simpl; ring).
    rewrite get_permute_by by in_range_tac.
    change (scatter _ _) with [n; hb; wb; hi; wi; c].
    rewrite (get_reshaped _ _ _ [(n * nH + hb) * nW + wb; hi; wi; c]) by (simpl; ring).
    rewrite get_permute_by by in_range_tac.
    change (scatter _ _) with [(n * nH + hb) * nW + wb; c; hi; wi].
    rewrite get_permute_by by in_range_tac.
    change (scatter _ _) with [(n * nH + hb) * nW + wb; hi; wi; c].
    rewrite (get_reshaped _ _ _ [n; hb; wb; hi; wi; c]) by (simpl; ring).
    rewrite get_permute_by by in_range_tac.
    change (scatter _ _) with [n; hb; hi; wb; wi; c].
    rewrite (get_reshaped _ _ _ [n; hb * ws + hi; wb * ws + wi; c])
      by (simpl; rewrite Hs; simpl; ring).
    rewrite get_permute_by by (rewrite Hs; in_range_tac).
    reflexivity.
Qed.
End WindowRoundTrip.

Lemma window_roundtrip_witness :
  window_partition (iota [1; 1; 2; 4]) 2 ≫= (fun w => window_reverse w 2 2 4)
  = Ok (iota [1; 1; 2; 4]).
Proof.
  apply (window_roundtrip (iota [1; 1; 2; 4]) 1 1 2 4 2).
  - split; [repeat constructor; lia|reflexivity].
  - reflexivity.
  - lia.
  - lia.
  - lia.
  - lia.
  - lia.
  - exists 1. reflexivity.
  - exists 2. reflexivity.
Defined.

(** C1 as stated fails on an empty tensor: with H = W = 0 the window size 1
    divides both, the partition is the empty batch of windows, and
    [window_reverse] divides by [H * W / window_size / window_size = 0.0]. *)
Lemma window_roundtrip_empty :
  Tensor.wf (Tensor.mk_tensor [1; 1; 0; 0] ([] : list Z)) /\
  1 <= 1 /\ (1 | 0) /\ (1 | 0) /\
  window_partition (Tensor.mk_tensor [1; 1; 0; 0] ([] : list Z)) 1
  = Ok (Tensor.mk_tensor [0; 1; 1; 1] []) /\
  window_reverse (Tensor.mk_tensor [0; 1; 1; 1] ([] : list Z)) 1 0 0
  = Raise ZeroDivisionError /\
  window_partition (Tensor.mk_tensor [1; 1; 0; 0] ([] : list Z)) 1
    ≫= (fun w => window_reverse w 1 0 0)
  ≠ Ok (Tensor.mk_tensor [1; 1; 0; 0] []).
Proof.
  split; [split; [repeat constructor; lia|reflexivity]|].
  split; [lia|].
  split; [exists 0; reflexivity|].
  split; [exists 0; reflexivity|].
  split; [reflexivity|].
  split; [reflexivity|].
  discriminate.
Qed.

(** ** Focus: the four sub-grids *)

Lemma slice_len_even (h a : Z) :
  0 <= h -> a = 0 \/ a = 1 -> slice_len (2 * h) a 2 = h.
Proof.
  intros Hh Ha. unfold slice_len, slice_start.
  destruct Ha as [-> | ->]; simpl.
  - rewrite Z.min_l by lia. symmetry. apply (Z.div_unique _ _ _ 1); lia.
  - destruct (Z.eq_dec h 0) as [-> | Hne]; [reflexivity|].
    rewrite Z.min_l by lia. symmetry. apply (Z.div_unique _ _ _ 0); lia.
Qed.

Lemma slice_start_even (h a : Z) :
  0 < h -> a = 0 \/ a = 1 -> slice_start (2 * h) a = a.
Proof.
  intros Hh [-> | ->]; unfold slice_start; simpl; lia.
Qed.

Lemma agree_except_refl (d : nat) (s : list Z) : agree_except d s s = true.
Proof. unfold agree_except. apply bool_decide_eq_true_2. reflexivity. Qed.

Lemma list4_eq (a b c d a' b' c' d' : Z) :
  a = a' -> b = b' -> c = c' -> d = d' -> [a; b; c; d] = [a'; b'; c'; d'].
Proof. congruence. Qed.

Section FocusGather.
Context {A : Type} {inh : Inhabited A}.

Lemma strided_ok (t : Tensor.tensor A) (N C h2 w2 a b : Z) :
  Tensor.shape t = [N; C; 2 * h2; 2 * w2] -> 0 <= h2 -> 0 <= w2 ->
  a = 0 \/ a = 1 -> b = 0 \/ b = 1 ->
  Tensor.strided t a 2 b 2
  = Ok (Tensor.tabulate [N; C; h2; w2]
          (fun idx => Tensor.get t (Tensor.strided_index [N; C; 2 * h2; 2 * w2] a 2 b 2 idx))).
Proof.
  intros Hs Hh Hw Ha Hb. unfold Tensor.strided, strided_shape. rewrite Hs.
  cbn [mbind result_bind check Z.ltb Z.compare andb reverse rev_append app].
  rewrite !slice_len_even by assumption. reflexivity.
Qed.

(** The tensor [Focus.forward] hands to its convolution: channel block [q] of
    the result is the sub-grid of [x] at the [q]-th of the offsets
    (0,0), (1,0), (0,1), (1,1), rows first. *)
Lemma focus_gather4_tensor (x : Tensor.tensor A) (N C h2 w2 : Z) :
  Tensor.wf x -> Tensor.shape x = [N; C; 2 * h2; 2 * w2] ->
  exists y,
    Focus.gather4 x = Ok y /\ Tensor.wf y /\
    Tensor.shape y = [N; 4 * C; h2; w2] /\
    forall (q : nat) (dr dc n c i j : Z),
      [(0, 0); (1, 0); (0, 1); (1, 1)] !! q = Some (dr, dc) ->
      0 <= n < N -> 0 <= c < C -> 0 <= i < h2 -> 0 <= j < w2 ->
      Tensor.get y [n; Z.of_nat q * C + c; i; j]
      = Tensor.get x [n; c; 2 * i + dr; 2 * j + dc].
Proof.
  intros [Hnn _] Hs. rewrite Hs in Hnn.
  rewrite !list.Forall_cons in Hnn. destruct Hnn as (HN & HC & Hh & Hw & _).
  assert (0 <= h2) as Hh2 by lia. assert (0 <= w2) as Hw2 by lia.
  unfold Focus.gather4. cbn [strided cat tensor_ops].
  rewrite !(strided_ok x N C h2 w2) by auto.
  cbn [mbind result_bind]. unfold Tensor.cat.
  cbn [fmap list_fmap Tensor.shape Tensor.tabulate cat_shape length].
  change (wrap_dim 4 1) with (Ok 1%nat). cbn [mbind result_bind forallb].
  rewrite !agree_except_refl. cbn [andb check mbind result_bind].
  cbn [map lookup_total list_lookup_total foldr list_insert length].
  change (wrap_dim _ 1) with (Ok 1%nat). cbn [mbind result_bind].
  replace (C + (C + (C + (C + 0)))) with (4 * C) by ring.
  eexists. split; [reflexivity|].
  split; [apply wf_tabulate; repeat constructor; lia|].
  split; [reflexivity|].
  intros q dr dc n c i j Hq Hn Hc Hi Hj.
  assert (0 < h2 /\ 0 < w2) as [Hhp Hwp] by lia.
  rewrite get_tabulate
    by (unfold in_range; repeat constructor;
        destruct q as [|[|[|[|?]]]]; simpl in Hq; try discriminate; lia).
  destruct q as [|[|[|[|?]]]]; simpl in Hq; try discriminate;
    injection Hq as <- <-;
    cbn [Z.of_nat Pos.of_succ_nat Pos.succ];
    cbn [Tensor.cat_get Tensor.shape Tensor.tabulate insert list_insert
         lookup_total list_lookup_total];
    repeat match goal with
    | |- context [?a <? ?b] => destruct (Z.ltb_spec a b); try lia
    end;
    (rewrite get_tabulate by (unfold in_range; repeat constructor; lia));
    unfold Tensor.strided_index;
    cbn [length Nat.sub take app lookup_total list_lookup_total];
    rewrite !slice_start_even by auto;
    apply (f_equal (Tensor.get x)), list4_eq; lia.
Qed.
End FocusGather.

(** ** Evaluating the shape contracts on symbolic sizes *)

(** Decide the integer comparisons of the goal by linear arithmetic. *)
Ltac zbool :=
  repeat match goal with
  | |- context [?a <? ?b] =>
      first [ replace (a <? b) with true by (symmetry; apply Z.ltb_lt; lia)
            | replace (a <? b) with false by (symmetry; apply Z.ltb_ge; lia) ]
  | |- context [?a <=? ?b] =>
      first [ replace (a <=? b) with true by (symmetry; apply Z.leb_le; lia)
            | replace (a <=? b) with false by (symmetry; apply Z.leb_gt; lia) ]
  | |- context [?a =? ?b] =>
      first [ replace (a =? b) with true by (symmetry; apply Z.eqb_eq; lia)
            | replace (a =? b) with false by (symmetry; apply Z.eqb_neq; lia) ]
  end.

Lemma check_inv (c : bool) (e : exn) (u : unit) : check c e = Ok u -> c = true.
Proof. destruct c; [reflexivity|discriminate]. Qed.

Lemma bind_inv {A B : Type} (m : result A) (f : A -> result B) (b : B) :
  m ≫= f = Ok b -> exists a, m = Ok a /\ f a = Ok b.
Proof. destruct m as [a|e]; [eauto|discriminate]. Qed.

Tactic Notation "bind_inv" hyp(H) "as" ident(a) ident(Ha) :=
  apply bind_inv in H as (a & Ha & H).

Lemma nn_Conv2d_inv (ci co : Z) (k s p : int_or_seq) (g : Z) (b : bool) (c : Conv2d) :
  nn_Conv2d ci co k s p g b = Ok c ->
  c = {| in_channels := ci; out_channels := co; kernel_size := pair_of k;
         stride := pair_of s; padding := pair_of p; groups := g; bias := b |} /\
  0 < g /\ (g | ci) /\ (g | co) /\ 0 <= ci /\ 0 <= co.
Proof.
  unfold nn_Conv2d. intros H.
  bind_inv H as u1 Hg. apply check_inv, Z.ltb_lt in Hg.
  bind_inv H as u2 Hgi. apply check_inv, Z.eqb_eq in Hgi.
  bind_inv H as u3 Hgo. apply check_inv, Z.eqb_eq in Hgo.
  bind_inv H as u4 Hnn. apply check_inv in Hnn.
  apply andb_prop in Hnn as [Hnn _]. apply andb_prop in Hnn as [Hci Hco].
  apply Z.leb_le in Hci, Hco.
  injection H as <-.
  repeat split; try assumption; apply Z.mod_divide; lia.
Qed.

Lemma Conv_init_inv (c1 c2 : Z) (k s : int_or_seq) (p : option int_or_seq) (g : Z)
  (a : bool) (m : Conv.t) :
  Conv.init c1 c2 k s p g a = Ok m ->
  m = {| Conv.conv := {| in_channels := c1; out_channels := c2;
                         kernel_size := pair_of k; stride := pair_of s;
                         padding := pair_of (autopad k p); groups := g;
                         bias := false |};
         Conv.bn := nn_BatchNorm2d c2;
         Conv.act := if a then Hardswish else Identity |} /\
  0 < g /\ (g | c1) /\ (g | c2) /\ 0 <= c1 /\ 0 <= c2.
Proof.
  unfold Conv.init. intros H. bind_inv H as c Hc.
  apply nn_Conv2d_inv in Hc as (-> & Hrest). injection H as <-.
  split; [reflexivity|assumption].
Qed.

Lemma conv2d_meta (c : Conv2d) (n ch h w kh kw sh sw ph pw : Z) :
  kernel_size c = [kh; kw] -> stride c = [sh; sw] -> padding c = [ph; pw] ->
  ch = in_channels c -> groups c <= out_channels c ->
  0 < kh -> 0 < kw -> 0 < sh -> 0 < sw -> 0 <= ph -> 0 <= pw ->
  kh <= h + 2 * ph -> kw <= w + 2 * pw ->
  conv2d c (Meta [n; ch; h; w])
  = Ok (Meta [n; out_channels c; MetaNN.out_size h ph kh sh; MetaNN.out_size w pw kw sw]).
Proof.
  intros Hk Hs Hp Hch Hg. intros.
  cbn [conv2d meta_nn]. unfold MetaNN.lift1, MetaNN.conv2d_shape.
  cbn [meta_shape]. rewrite Hk, Hs, Hp.
  zbool. reflexivity.
Qed.

Lemma out_size_same (n k : Z) : Z.odd k = true ->
  MetaNN.out_size n (k / 2) k 1 = n.
Proof.
  intros Hodd. unfold MetaNN.out_size.
  rewrite Z.div_1_r.
  pose proof (Z.div_mod k 2). rewrite Zmod_odd, Hodd in H. lia.
Qed.

Lemma Conv_forward_meta (c1 c2 : Z) (k s : int_or_seq) (p : option int_or_seq) (g : Z)
  (a : bool) (m : Conv.t) (kh kw sh sw ph pw n h w : Z) :
  Conv.init c1 c2 k s p g a = Ok m ->
  pair_of k = [kh; kw] -> pair_of s = [sh; sw] -> pair_of (autopad k p) = [ph; pw] ->
  0 < kh -> 0 < kw -> 0 < sh -> 0 < sw -> 0 <= ph -> 0 <= pw -> 0 < c2 ->
  kh <= h + 2 * ph -> kw <= w + 2 * pw ->
  Conv.forward m (Meta [n; c1; h; w])
  = Ok (Meta [n; c2; MetaNN.out_size h ph kh sh; MetaNN.out_size w pw kw sw]).
Proof.
  intros Hm Hk Hs Hp. intros.
  apply Conv_init_inv in Hm as (-> & Hg & Hg1 & Hg2 & Hc1 & Hc2).
  unfold Conv.forward. cbn [Conv.conv Conv.bn Conv.act].
  rewrite (conv2d_meta _ n c1 h w kh kw sh sw ph pw); cbn [kernel_size stride padding
    in_channels out_channels groups]; try assumption; try reflexivity.
  2:{ apply Z.divide_pos_le; assumption. }
  cbn [mbind result_bind batch_norm meta_nn]. unfold MetaNN.lift1, MetaNN.batch_norm_shape.
  cbn [meta_shape nn_BatchNorm2d num_features]. rewrite Z.eqb_refl.
  cbn [check mbind result_bind fmap result_fmap].
  destruct a; reflexivity.
Qed.

(** C8: without an explicit padding, [Conv] pads each axis by half the kernel
    size (integer division), for a scalar and for a per-axis kernel size
    alike, and its output extent along an axis of the input is
    floor((in + 2 * padding - kernel) / stride) + 1; so Conv(3, 16, 3, 2)
    maps an input of shape (1,3,640,640) to shape (1,16,320,320). *)
Theorem conv_autopad_shape (c1 c2 : Z) (k s : int_or_seq) (g : Z) (a : bool)
  (m : Conv.t) (kh kw sh sw n h w : Z) :
  Conv.init c1 c2 k s None g a = Ok m ->
  pair_of k = [kh; kw] -> pair_of s = [sh; sw] ->
  0 < kh -> 0 < kw -> 0 < sh -> 0 < sw -> 0 < c2 -> 0 < h -> 0 < w ->
  (forall k0 : Z, autopad (Int k0) None = Int (k0 / 2)) /\
  (forall ks : list Z, autopad (Seq ks) None = Seq ((fun x => x / 2) <$> ks)) /\
  padding (Conv.conv m) = [kh / 2; kw / 2] /\
  Conv.forward m (Meta [n; c1; h; w])
  = Ok (Meta [n; c2; (h + 2 * (kh / 2) - kh) / sh + 1;
              (w + 2 * (kw / 2) - kw) / sw + 1]) /\
  Conv.init 3 16 (Int 3) (Int 2) None 1 true
    ≫= (fun m' => Conv.forward m' (Meta [1; 3; 640; 640]))
  = Ok (Meta [1; 16; 320; 320]).
Proof.
  intros Hm Hk Hs Hkh Hkw Hsh Hsw Hc2 Hh Hw.
  assert (pair_of (autopad k None) = [kh / 2; kw / 2]) as Hp.
  { destruct k as [k0|ks]; simpl in *.
    - injection Hk as <- <-. reflexivity.
    - subst ks. reflexivity. }
  split; [reflexivity|]. split; [reflexivity|].
  split.
  - apply Conv_init_inv in Hm as (-> & _). exact Hp.
  - split; [|reflexivity].
    pose proof (Z.div_mod kh 2). pose proof (Z.mod_pos_bound kh 2).
    pose proof (Z.div_mod kw 2). pose proof (Z.mod_pos_bound kw 2).
    apply (Conv_forward_meta c1 c2 k s None g a m kh kw sh sw (kh / 2) (kw / 2));
      try assumption; try lia.
Qed.

Lemma conv_autopad_shape_witness :
  exists m, Conv.init 3 16 (Int 3) (Int 2) None 1 true = Ok m /\
    padding (Conv.conv m) = [1; 1] /\
    Conv.forward m (Meta [1; 3; 640; 640]) = Ok (Meta [1; 16; 320; 320]).
Proof.
  eexists. split; [reflexivity|].
  pose proof (conv_autopad_shape 3 16 (Int 3) (Int 2) 1 true _ 3 3 2 2 1 640 640
                eq_refl eq_refl eq_refl) as H.
  destruct H as (_ & _ & Hp & Hf & _); [lia..|].
  split; [exact Hp|exact Hf].
Defined.

(** ** SPP *)

Lemma mapM_const {X Y : Type} (f : X -> result Y) (l : list X) (y : Y) :
  Forall (fun x => f x = Ok y) l -> mapM f l = Ok (replicate (length l) y).
Proof.
  induction 1 as [|x l Hx _ IH]; [reflexivity|].
  cbn [mapM length replicate]. rewrite Hx, IH. reflexivity.
Qed.

Lemma max_pool_same (k n c h w : Z) :
  0 < k -> Z.odd k = true -> 0 < h -> 0 < w ->
  max_pool2d (nn_MaxPool2d k 1 (k / 2)) (Meta [n; c; h; w]) = Ok (Meta [n; c; h; w]).
Proof.
  intros Hk Hodd Hh Hw.
  pose proof (Z.div_mod k 2). pose proof (Z.mod_pos_bound k 2).
  cbn [max_pool2d meta_nn]. unfold MetaNN.lift1, MetaNN.max_pool2d_shape.
  cbn [meta_shape nn_MaxPool2d pool_kernel_size pool_stride pool_padding].
  zbool. cbn [andb check mbind result_bind fmap result_fmap].
  rewrite !out_size_same by assumption. reflexivity.
Qed.

Lemma cat_shape_copies (n : nat) (N c h w : Z) :
  cat_shape (replicate (S n) [N; c; h; w]) 1 = Ok [N; c * Z.of_nat (S n); h; w].
Proof.
  unfold cat_shape. cbn [replicate length]. change (wrap_dim 4 1) with (Ok 1%nat).
  cbn [mbind result_bind].
  assert (forallb (agree_except 1 [N; c; h; w]) (replicate n [N; c; h; w]) = true) as ->.
  { induction n as [|n IH]; [reflexivity|]. cbn [replicate forallb].
    rewrite agree_except_refl, IH. reflexivity. }
  cbn [check mbind result_bind].
  assert (forall j : nat,
    foldr Z.add 0 (map (fun s' : list Z => s' !!! 1%nat) (replicate j [N; c; h; w]))
    = c * Z.of_nat j) as Hsum.
  { induction j as [|j IH]; [simpl; lia|].
    cbn [replicate map foldr]. rewrite IH. cbn [lookup_total list_lookup_total]. lia. }
  change ([N; c; h; w] :: replicate n [N; c; h; w]) with (replicate (S n) [N; c; h; w]).
  rewrite Hsum. reflexivity.
Qed.

(** C9: SPP first halves the channel count with a 1x1 Conv; the tensor handed
    to the final projection has hidden * (number of pooling sizes + 1)
    channels, and the spatial size of the output is that of the input. *)
Theorem spp_shape (c1 c2 : Z) (k : list Z) (m : SPP.t) (N H W : Z) :
  SPP.init c1 c2 k = Ok m ->
  Forall (fun x => 0 < x /\ Z.odd x = true) k ->
  2 <= c1 -> 0 < c2 -> 0 < H -> 0 < W ->
  kernel_size (Conv.conv (SPP.cv1 m)) = [1; 1] /\
  in_channels (Conv.conv (SPP.cv1 m)) = c1 /\
  out_channels (Conv.conv (SPP.cv1 m)) = c1 / 2 /\
  in_channels (Conv.conv (SPP.cv2 m)) = c1 / 2 * (Z.of_nat (length k) + 1) /\
  SPP.pooled m (Meta [N; c1; H; W])
  = Ok (Meta [N; c1 / 2 * (Z.of_nat (length k) + 1); H; W]) /\
  SPP.forward m (Meta [N; c1; H; W]) = Ok (Meta [N; c2; H; W]).
Proof.
  intros Hm Hk Hc1 Hc2 HH HW.
  assert (0 < c1 / 2) as Hc by (apply Z.div_str_pos; lia).
  unfold SPP.init in Hm.
  bind_inv Hm as cv1 Hcv1. bind_inv Hm as cv2 Hcv2. injection Hm as <-.
  destruct (Conv_init_inv _ _ _ _ _ _ _ _ Hcv1) as (E1 & _).
  destruct (Conv_init_inv _ _ _ _ _ _ _ _ Hcv2) as (E2 & _).
  cbn [SPP.cv1 SPP.cv2 SPP.m].
  split; [rewrite E1; reflexivity|]. split; [rewrite E1; reflexivity|].
  split; [rewrite E1; reflexivity|]. split; [rewrite E2; reflexivity|].
  clear E1 E2.
  assert (SPP.pooled
            {| SPP.cv1 := cv1; SPP.cv2 := cv2;
               SPP.m := (fun x => nn_MaxPool2d x 1 (x / 2)) <$> k |}
            (Meta [N; c1; H; W])
          = Ok (Meta [N; c1 / 2 * (Z.of_nat (length k) + 1); H; W])) as Hpooled.
  { unfold SPP.pooled. cbn [SPP.cv1 SPP.m].
    rewrite (Conv_forward_meta c1 (c1 / 2) (Int 1) (Int 1) None 1 true _ 1 1 1 1 0 0 N H W Hcv1)
      by (reflexivity || lia).
    cbn [mbind result_bind]. unfold MetaNN.out_size. rewrite !Z.div_1_r.
    replace (H + 2 * 0 - 1 + 1) with H by lia. replace (W + 2 * 0 - 1 + 1) with W by lia.
    rewrite (mapM_const _ _ (Meta [N; c1 / 2; H; W])).
    2:{ apply Forall_fmap. apply (list.Forall_impl _ _ _ Hk).
        intros x [Hx Hodd]. apply max_pool_same; assumption. }
    cbn [mbind result_bind cat meta_ops]. rewrite length_fmap.
    change ([Meta [N; c1 / 2; H; W]] ++ replicate (length k) (Meta [N; c1 / 2; H; W]))
      with (replicate (S (length k)) (Meta [N; c1 / 2; H; W])).
    rewrite fmap_replicate. cbn [meta_shape]. rewrite cat_shape_copies.
    cbn [fmap result_fmap].
    replace (Z.of_nat (S (length k))) with (Z.of_nat (length k) + 1) by lia.
    reflexivity. }
  split; [exact Hpooled|].
  unfold SPP.forward. rewrite Hpooled. cbn [mbind result_bind SPP.cv2].
  rewrite (Conv_forward_meta _ c2 (Int 1) (Int 1) None 1 true _ 1 1 1 1 0 0 N H W Hcv2)
      by (reflexivity || lia).
  unfold MetaNN.out_size. rewrite !Z.div_1_r.
  replace (H + 2 * 0 - 1 + 1) with H by lia. replace (W + 2 * 0 - 1 + 1) with W by lia.
  reflexivity.
Qed.

Lemma spp_shape_witness :
  exists m, SPP.init 512 256 [5; 9; 13] = Ok m /\
    out_channels (Conv.conv (SPP.cv1 m)) = 256 /\
    SPP.pooled m (Meta [1; 512; 20; 20]) = Ok (Meta [1; 256 * 4; 20; 20]) /\
    SPP.forward m (Meta [1; 512; 20; 20]) = Ok (Meta [1; 256; 20; 20]).
Proof.
  eexists. split; [reflexivity|].
  pose proof (spp_shape 512 256 [5; 9; 13] _ 1 20 20 eq_refl) as H.
  destruct H as (_ & _ & Hc & _ & Hp & Hf);
    [repeat constructor; lia|lia..|].
  split; [exact Hc|]. split; [exact Hp|exact Hf].
Defined.

(** ** Classify *)

Lemma cat_shape_pooled (N : Z) (cs : list Z) :
  cs ≠ [] ->
  cat_shape ((fun c => [N; c; 1; 1]) <$> cs) 1 = Ok [N; foldr Z.add 0 cs; 1; 1].
Proof.
  destruct cs as [|c cs]; [contradiction|]. intros _.
  unfold cat_shape. cbn [fmap list_fmap length]. change (wrap_dim 4 1) with (Ok 1%nat).
  cbn [mbind result_bind].
  assert (forallb (agree_except 1 [N; c; 1; 1]) ((fun c => [N; c; 1; 1]) <$> cs) = true) as ->.
  { induction cs as [|c' cs IH]; [reflexivity|]. cbn [fmap list_fmap forallb].
    rewrite IH. unfold agree_except. rewrite bool_decide_eq_true_2; reflexivity. }
  cbn [check mbind result_bind].
  assert (forall l : list Z,
    foldr Z.add 0 (map (fun s' : list Z => s' !!! 1%nat) ((fun c => [N; c; 1; 1]) <$> l))
    = foldr Z.add 0 l) as Hsum.
  { induction l as [|x l IH]; [reflexivity|]. cbn [fmap list_fmap map foldr].
    rewrite IH. reflexivity. }
  change ([N; c; 1; 1] :: ((fun c => [N; c; 1; 1]) <$> cs))
    with ((fun c => [N; c; 1; 1]) <$> (c :: cs)).
  rewrite Hsum. reflexivity.
Qed.

Lemma mapM_fmap_ok {X Y : Type} (f : X -> result Y) (g : X -> Y) (l : list X) :
  Forall (fun x => f x = Ok (g x)) l -> mapM f l = Ok (g <$> l).
Proof.
  induction 1 as [|x l Hx _ IH]; [reflexivity|].
  cbn [mapM fmap list_fmap]. rewrite Hx, IH. reflexivity.
Qed.

(** C10 (amended): [Classify.forward] takes one tensor or a list of tensors;
    each is average-pooled to (N, Ci, 1, 1), the pooled tensors are
    concatenated along the channel axis in the order of the list (one tensor
    being handled as the list of that tensor), and the bias-free convolution
    followed by the flattening gives shape (N, c2) when the kernel size is
    an odd scalar (the default is 1) and the padding is the automatic
    one. *)
Theorem classify_shape (c1 c2 k s g : Z) (m : Classify.t) (N : Z)
  (dims : list (Z * Z * Z)) :
  Classify.init c1 c2 (Int k) (Int s) None g = Ok m ->
  0 < k -> Z.odd k = true -> 0 < s -> 0 < c2 -> 0 < N ->
  dims ≠ [] ->
  Forall (fun d => 0 < d.1.1 /\ 0 < d.1.2 /\ 0 < d.2) dims ->
  c1 = channels_of dims ->
  bias (Classify.conv m) = false /\
  mapM (adaptive_avg_pool2d (Classify.aap m))
    ((fun d => Meta [N; d.1.1; d.1.2; d.2]) <$> dims)
  = Ok ((fun d => Meta [N; d.1.1; 1; 1]) <$> dims) /\
  Classify.pooled m (Many ((fun d => Meta [N; d.1.1; d.1.2; d.2]) <$> dims))
  = Ok (Meta [N; c1; 1; 1]) /\
  Classify.forward m (Many ((fun d => Meta [N; d.1.1; d.1.2; d.2]) <$> dims))
  = Ok (Meta [N; c2]) /\
  (forall (T : Type) (tops : TensorOps T) (nops : NNOps T) (x : T),
     Classify.forward m (One x) = Classify.forward m (Many [x])) /\
  (forall (T : Type) (tops : TensorOps T) (nops : NNOps T) (xs ys : list T) (z y : T),
     mapM (adaptive_avg_pool2d 1) xs = Ok ys ->
     cat ys 1 = Ok z ->
     conv2d (Classify.conv m) z = Ok y ->
     Classify.forward m (Many xs) = Flatten.forward y).
Proof.
  intros Hm Hk Hodd Hs Hc2 HN Hne Hd Hc1.
  unfold Classify.init in Hm. bind_inv Hm as conv Hconv. injection Hm as <-.
  destruct (nn_Conv2d_inv _ _ _ _ _ _ _ _ Hconv) as (E & Hg & Hg1 & Hg2 & _).
  cbn [Classify.conv Classify.aap].
  split; [rewrite E; reflexivity|].
  assert (mapM (adaptive_avg_pool2d 1) ((fun d => Meta [N; d.1.1; d.1.2; d.2]) <$> dims)
          = Ok ((fun d => Meta [N; d.1.1; 1; 1]) <$> dims)) as Hpool.
  { rewrite (mapM_fmap_ok _ (fun x => Meta [meta_shape x !!! 0%nat; meta_shape x !!! 1%nat; 1; 1])).
    - rewrite <- list_fmap_compose. reflexivity.
    - apply Forall_fmap. apply (list.Forall_impl _ _ _ Hd).
      intros [[c h] w] (Hc & Hh & Hw). cbn [fst snd] in *.
      cbn [compose adaptive_avg_pool2d meta_nn].
      unfold MetaNN.lift1, MetaNN.adaptive_avg_pool2d_shape.
      cbn [meta_shape fst snd]. reflexivity. }
  split; [exact Hpool|].
  assert (Classify.pooled
            {| Classify.aap := 1; Classify.conv := conv |}
            (Many ((fun d => Meta [N; d.1.1; d.1.2; d.2]) <$> dims))
          = Ok (Meta [N; c1; 1; 1])) as Hpooled.
  { unfold Classify.pooled. cbn [Classify.aap]. rewrite Hpool.
    cbn [mbind result_bind cat meta_ops].
    rewrite <- list_fmap_compose.
    rewrite (list_fmap_compose (fun d : Z * Z * Z => d.1.1) (fun c => [N; c; 1; 1])).
    rewrite cat_shape_pooled by (destruct dims; [contradiction|discriminate]).
    rewrite Hc1. reflexivity. }
  split; [exact Hpooled|].
  split; [|split; [reflexivity|]].
  2:{ intros T tops nops xs ys z y Hp Hz Hy.
      unfold Classify.forward, Classify.pooled. cbn [Classify.aap Classify.conv].
      rewrite Hp. cbn [mbind result_bind]. rewrite Hz. cbn [mbind result_bind].
      rewrite Hy. reflexivity. }
  unfold Classify.forward. rewrite Hpooled. cbn [mbind result_bind Classify.conv].
  pose proof (Z.div_mod k 2) as Hdm. rewrite Zmod_odd, Hodd in Hdm.
  rewrite (conv2d_meta _ N c1 1 1 k k s s (k / 2) (k / 2));
    rewrite ?E;
    cbn [kernel_size stride padding in_channels out_channels groups pair_of autopad];
    try reflexivity; try lia.
  2:{ apply Z.divide_pos_le; assumption. }
  cbn [mbind result_bind]. unfold MetaNN.out_size.
  replace (1 + 2 * (k / 2) - k) with 0 by lia.
  rewrite Z.div_0_l by lia. cbn [Z.add].
  unfold Flatten.forward. cbn [size meta_ops meta_shape lookup list_lookup from_option
                              mbind result_bind view].
  rewrite (view_shape_infer_eq _ [N] [] c2);
    [reflexivity|repeat constructor; lia|constructor|simpl; lia|simpl; ring].
Qed.

Lemma classify_shape_witness :
  exists m, Classify.init 96 10 (Int 1) (Int 1) None 1 = Ok m /\
    Classify.forward m (Many [Meta [2; 32; 20; 20]; Meta [2; 64; 10; 10]])
    = Ok (Meta [2; 10]).
Proof.
  eexists. split; [reflexivity|].
  pose proof (classify_shape 96 10 1 1 1 _ 2 [(32, 20, 20); (64, 10, 10)] eq_refl) as H.
  destruct H as (_ & _ & _ & Hf & _);
    [lia|reflexivity|lia|lia|lia|discriminate|repeat constructor; simpl; lia|reflexivity|].
  exact Hf.
Defined.

(** C10 as stated fails: with the kernel size 2 (and the automatic padding 1)
    the convolution turns the pooled 1 x 1 tensor into a 2 x 2 one, and the
    flattened output has shape (N, 4 * c2), not (N, c2); with the kernel size
    1 and an explicit padding of 1 it has shape (N, 9 * c2). *)
Lemma classify_even_kernel :
  exists m m', Classify.init 96 10 (Int 2) (Int 1) None 1 = Ok m /\
    Classify.forward m (One (Meta [2; 96; 7; 5])) = Ok (Meta [2; 4 * 10]) /\
    Classify.forward m (Many [Meta [2; 32; 20; 20]; Meta [2; 64; 10; 10]])
    = Ok (Meta [2; 4 * 10]) /\
    Meta [2; 4 * 10] ≠ Meta [2; 10] /\
    Classify.init 96 10 (Int 1) (Int 1) (Some (Int 1)) 1 = Ok m' /\
    Classify.forward m' (One (Meta [2; 96; 7; 5])) = Ok (Meta [2; 9 * 10]).
Proof.
  do 2 eexists. split; [reflexivity|]. split; [reflexivity|]. split; [reflexivity|].
  split; [discriminate|]. split; reflexivity.
Qed.

(** ** SAM *)

Lemma conv1x1_meta (ci co : Z) (b : bool) (c : Conv2d) (n h w : Z) :
  nn_Conv2d ci co (Int 1) (Int 1) (Int 0) 1 b = Ok c ->
  0 < co -> 0 < h -> 0 < w ->
  conv2d c (Meta [n; ci; h; w]) = Ok (Meta [n; co; h; w]).
Proof.
  intros Hc Hco Hh Hw.
  apply nn_Conv2d_inv in Hc as (-> & _).
  rewrite (conv2d_meta _ n ci h w 1 1 1 1 0 0);
    cbn [kernel_size stride padding in_channels out_channels groups pair_of];
    try reflexivity; try lia.
  unfold MetaNN.out_size. rewrite !Z.div_1_r.
  replace (h + 2 * 0 - 1 + 1) with h by lia. replace (w + 2 * 0 - 1 + 1) with w by lia.
  reflexivity.
Qed.

Lemma broadcast_rev_same (s : list Z) : MetaNN.broadcast_rev s s = Ok s.
Proof.
  induction s as [|x s IH]; [reflexivity|].
  cbn [MetaNN.broadcast_rev]. rewrite IH. cbn [mbind result_bind].
  rewrite Z.eqb_refl. reflexivity.
Qed.

Lemma broadcast_same (s : list Z) : MetaNN.broadcast s s = Ok s.
Proof.
  unfold MetaNN.broadcast. rewrite broadcast_rev_same. cbn [fmap result_fmap].
  rewrite reverse_involutive. reflexivity.
Qed.

Lemma matmul_meta (n c a b d : Z) :
  matmul (Meta [n; c; a; b]) (Meta [n; c; b; d]) = Ok (Meta [n; c; a; d]).
Proof.
  cbn [matmul meta_nn]. unfold MetaNN.lift2, MetaNN.matmul_shape.
  cbn [meta_shape reverse rev_append]. rewrite Z.eqb_refl.
  cbn [check mbind result_bind]. rewrite broadcast_rev_same. reflexivity.
Qed.

Lemma SAM_forward_meta (in_ch width height : Z) (m : SAM.t) (N C : Z) :
  SAM.init in_ch width height = Ok m ->
  0 < in_ch -> 0 < width -> 0 < height -> 0 < C ->
  conv2d (SAM.ham m) (Meta [N; height; C; width]) = Ok (Meta [N; in_ch; C; width]) /\
  conv2d (SAM.wam m) (Meta [N; width; height; C]) = Ok (Meta [N; in_ch; height; C]) /\
  SAM.forward m (Meta [N; C; height; width]) = Ok (Meta [N; in_ch; height; width]).
Proof.
  intros Hm Hin Hw Hh HC.
  unfold SAM.init in Hm. bind_inv Hm as wam Hwam. bind_inv Hm as ham Hham.
  injection Hm as <-. cbn [SAM.ham SAM.wam].
  assert (conv2d ham (Meta [N; height; C; width]) = Ok (Meta [N; in_ch; C; width])) as Hyh
    by (apply (conv1x1_meta _ _ true); assumption).
  assert (conv2d wam (Meta [N; width; height; C]) = Ok (Meta [N; in_ch; height; C])) as Hyw
    by (apply (conv1x1_meta _ _ true); assumption).
  split; [exact Hyh|]. split; [exact Hyw|].
  unfold SAM.forward. cbn [SAM.ham SAM.wam].
  change (transpose (Meta [N; C; height; width]) (-2) (-3))
    with (Ok (Meta [N; height; C; width])).
  change (transpose (Meta [N; C; height; width]) (-1) (-3))
    with (Ok (Meta [N; width; height; C])).
  cbn [mbind result_bind]. rewrite Hyh. cbn [mbind result_bind].
  rewrite Hyw. cbn [mbind result_bind]. rewrite matmul_meta. reflexivity.
Qed.

(** C3 (amended): on an input of shape (N,C,H,W), with H and W the height
    and width SAM was built for, the two transposed views have shapes
    (N,H,C,W) and (N,W,H,C), the two 1x1 projections give (N,in_channels,C,W)
    and (N,in_channels,H,C), and their matrix product has shape
    (N,in_channels,H,W); for every implementation of the tensor primitives,
    forward returns the sigmoid of the matrix product of the width
    projection with the height projection. *)
Theorem sam_shapes_thm (in_ch width height : Z) (m : SAM.t) (N C : Z) :
  SAM.init in_ch width height = Ok m ->
  0 < in_ch -> 0 < width -> 0 < height -> 0 < C ->
  transpose (Meta [N; C; height; width]) (-2) (-3) = Ok (Meta [N; height; C; width]) /\
  transpose (Meta [N; C; height; width]) (-1) (-3) = Ok (Meta [N; width; height; C]) /\
  conv2d (SAM.ham m) (Meta [N; height; C; width]) = Ok (Meta [N; in_ch; C; width]) /\
  conv2d (SAM.wam m) (Meta [N; width; height; C]) = Ok (Meta [N; in_ch; height; C]) /\
  matmul (Meta [N; in_ch; height; C]) (Meta [N; in_ch; C; width])
  = Ok (Meta [N; in_ch; height; width]) /\
  SAM.forward m (Meta [N; C; height; width])
  = Ok (sigmoid (Meta [N; in_ch; height; width])) /\
  (forall (T : Type) (tops : TensorOps T) (nops : NNOps T) (x xh xw yh yw y : T),
     transpose x (-2) (-3) = Ok xh -> transpose x (-1) (-3) = Ok xw ->
     conv2d (SAM.ham m) xh = Ok yh -> conv2d (SAM.wam m) xw = Ok yw ->
     matmul yw yh = Ok y ->
     SAM.forward m x = Ok (sigmoid y)).
Proof.
  intros Hm Hin Hw Hh HC.
  destruct (SAM_forward_meta in_ch width height m N C Hm Hin Hw Hh HC) as (Hyh & Hyw & Hf).
  split; [reflexivity|]. split; [reflexivity|].
  split; [exact Hyh|]. split; [exact Hyw|].
  split; [apply matmul_meta|]. split; [exact Hf|].
  intros T tops nops x xh xw yh yw y Hxh Hxw Hyh' Hyw' Hy.
  unfold SAM.forward. rewrite Hxh. cbn [mbind result_bind].
  rewrite Hxw. cbn [mbind result_bind]. rewrite Hyh'. cbn [mbind result_bind].
  rewrite Hyw'. cbn [mbind result_bind]. rewrite Hy. reflexivity.
Qed.

Lemma sam_shapes_thm_witness :
  exists m, SAM.init 256 16 16 = Ok m /\
    SAM.forward m (Meta [64; 256; 16; 16]) = Ok (Meta [64; 256; 16; 16]).
Proof.
  eexists. split; [reflexivity|].
  pose proof (sam_shapes_thm 256 16 16 _ 64 256 eq_refl) as H.
  destruct H as (_ & _ & _ & _ & _ & Hf & _); [lia..|].
  exact Hf.
Defined.

(** C3 as stated fails: exchanging the channel and width axes of a tensor of
    shape (1,2,3,4) gives shape (1,4,3,2), not (N,W,C,H) = (1,4,2,3), and the
    width projection then gives (1,in_channels,3,2), not (N,in_channels,C,H)
    = (1,in_channels,2,3). *)
Lemma sam_width_view_shape :
  transpose (Meta [1; 2; 3; 4]) (-1) (-3) = Ok (Meta [1; 4; 3; 2]) /\
  Meta [1; 4; 3; 2] ≠ Meta [1; 4; 2; 3] /\
  exists m, SAM.init 5 4 3 = Ok m /\
    conv2d (SAM.wam m) (Meta [1; 4; 3; 2]) = Ok (Meta [1; 5; 3; 2]) /\
    Meta [1; 5; 3; 2] ≠ Meta [1; 5; 2; 3].
Proof.
  split; [reflexivity|]. split; [discriminate|].
  eexists. split; [reflexivity|]. split; [reflexivity|discriminate].
Qed.

(** ** BDAM *)

Lemma window_partition_meta (N C nH nW ws : Z) :
  0 <= N -> 0 < C -> 0 <= nH -> 0 <= nW -> 0 < ws ->
  window_partition (Meta [N; C; nH * ws; nW * ws]) ws = Ok (Meta [N * nH * nW; C; ws; ws]).
Proof.
  intros HN HC HnH HnW Hws. unfold window_partition.
  change (permute (Meta [N; C; nH * ws; nW * ws]) [0; 2; 3; 1])
    with (Ok (Meta [N; nH * ws; nW * ws; C])).
  cbn [mbind result_bind size meta_ops meta_shape].
  rewrite !floordiv_mul by lia. cbn [mbind result_bind view contiguous meta_ops meta_shape].
  rewrite view_shape_exact by (repeat constructor; lia || (simpl; ring)).
  cbn [fmap result_fmap mbind result_bind].
  change (permute (Meta [N; nH; ws; nW; ws; C]) [0; 1; 3; 2; 4; 5])
    with (Ok (Meta [N; nH; nW; ws; ws; C])).
  cbn [mbind result_bind meta_shape].
  rewrite (view_shape_infer_eq _ [] [ws; ws; C] (N * nH * nW));
    [|constructor|repeat constructor; lia|simpl; nia|simpl; ring].
  reflexivity.
Qed.

Lemma window_reverse_meta (N C nH nW ws : Z) :
  0 < N -> 0 < C -> 0 < nH -> 0 < nW -> 0 < ws ->
  window_reverse (Meta [N * nH * nW; C; ws; ws]) ws (nH * ws) (nW * ws)
  = Ok (Meta [N; C; nH * ws; nW * ws]).
Proof.
  intros HN HC HnH HnW Hws.
  destruct (window_count N nH nW ws HnH HnW Hws) as (a & b & q & Ha & Hb & Hq & Hint).
  unfold window_reverse.
  change (permute (Meta [N * nH * nW; C; ws; ws]) [0; 2; 3; 1])
    with (Ok (Meta [N * nH * nW; ws; ws; C])).
  cbn [mbind result_bind size meta_ops meta_shape lookup list_lookup from_option].
  rewrite Ha. cbn [mbind result_bind].
  rewrite Hb. cbn [mbind result_bind].
  rewrite Hq. cbn [mbind result_bind].
  rewrite Hint, !floordiv_mul by lia.
  cbn [mbind result_bind view contiguous meta_ops meta_shape].
  rewrite (view_shape_infer_eq _ [N; nH; nW; ws; ws] [] C);
    [|repeat constructor; lia|constructor|simpl; nia|simpl; ring].
  cbn [fmap result_fmap mbind result_bind app].
  change (permute (Meta [N; nH; nW; ws; ws; C]) [0; 1; 3; 2; 4; 5])
    with (Ok (Meta [N; nH; ws; nW; ws; C])).
  cbn [mbind result_bind meta_shape].
  rewrite (view_shape_infer_eq _ [N; nH * ws; nW * ws] [] C);
    [|repeat constructor; nia|constructor|simpl; nia|simpl; ring].
  reflexivity.
Qed.

Lemma broadcast_gate (n c h w : Z) :
  MetaNN.broadcast [n; c; 1; 1] [n; c; h; w] = Ok [n; c; h; w].
Proof.
  unfold MetaNN.broadcast. cbn [reverse rev_append MetaNN.broadcast_rev].
  rewrite ?Z.eqb_refl. cbn [mbind result_bind]. rewrite ?Z.eqb_refl.
  cbn [mbind result_bind].
  destruct (1 =? h) eqn:Eh; destruct (1 =? w) eqn:Ew;
    try apply Z.eqb_eq in Eh as <-; try apply Z.eqb_eq in Ew as <-;
    cbn [mbind result_bind fmap result_fmap reverse rev_append Z.eqb Pos.eqb];
    reflexivity.
Qed.

Lemma ChannelAttention_forward_meta (in_planes : Z) (m : ChannelAttention.t) (n h w : Z) :
  ChannelAttention.init in_planes 16 = Ok m ->
  16 <= in_planes -> 0 < h -> 0 < w ->
  ChannelAttention.forward m (Meta [n; in_planes; h; w]) = Ok (Meta [n; in_planes; 1; 1]).
Proof.
  intros Hm Hc Hh Hw.
  assert (0 < in_planes / 16) as Hhid by (apply Z.div_str_pos; lia).
  unfold ChannelAttention.init in Hm. cbn [floordiv Z.eqb mbind result_bind] in Hm.
  bind_inv Hm as fc1 Hfc1. bind_inv Hm as fc2 Hfc2. injection Hm as <-.
  assert (ChannelAttention.fc_forward
            {| ChannelAttention.avg_pool := 1; ChannelAttention.max_pool := 1;
               ChannelAttention.fc := (fc1, ReLU, fc2) |}
            (Meta [n; in_planes; 1; 1]) = Ok (Meta [n; in_planes; 1; 1])) as Hfc.
  { unfold ChannelAttention.fc_forward. cbn [ChannelAttention.fc].
    rewrite (conv1x1_meta _ _ _ _ _ _ _ Hfc1) by lia.
    cbn [mbind result_bind apply_act relu meta_nn].
    apply (conv1x1_meta _ _ _ _ _ _ _ Hfc2); lia. }
  unfold ChannelAttention.forward.
  cbn [ChannelAttention.avg_pool ChannelAttention.max_pool adaptive_avg_pool2d
       adaptive_max_pool2d meta_nn].
  unfold MetaNN.lift1, MetaNN.adaptive_avg_pool2d_shape, MetaNN.adaptive_pool2d_shape.
  cbn [meta_shape Z.eqb Pos.eqb reverse rev_append app].
  zbool. cbn [andb check mbind result_bind fmap result_fmap].
  rewrite Hfc. cbn [mbind result_bind tensor_add meta_nn]. unfold MetaNN.lift2.
  cbn [meta_shape]. rewrite broadcast_same. reflexivity.
Qed.

Lemma DAM_forward_meta (in_planes ws : Z) (m : DAM.t) (n : Z) :
  DAM.init in_planes ws ws = Ok m ->
  16 <= in_planes -> 0 < ws ->
  DAM.forward m (Meta [n; in_planes; ws; ws]) = Ok (Meta [n; in_planes; ws; ws]).
Proof.
  intros Hm Hc Hws. unfold DAM.init in Hm.
  bind_inv Hm as cam Hcam. bind_inv Hm as sam Hsam. injection Hm as <-.
  unfold DAM.forward. cbn [DAM.cam DAM.sam].
  rewrite (ChannelAttention_forward_meta _ _ _ _ _ Hcam) by lia.
  cbn [mbind result_bind tensor_mul meta_nn]. unfold MetaNN.lift2. cbn [meta_shape].
  rewrite broadcast_gate. cbn [fmap result_fmap mbind result_bind].
  destruct (SAM_forward_meta _ _ _ _ n in_planes Hsam) as (_ & _ & ->); try lia.
  cbn [mbind result_bind meta_shape]. rewrite broadcast_same. reflexivity.
Qed.

(** C2 (amended): BDAM's window size is min(width // 4, height // 4); on a
    non-empty input of shape (N, in_planes, height, width) - the extent BDAM
    was built for - with in_planes >= 16 and a window size of at least 1 that
    divides height and width, the output has the shape of the input.  In
    particular BDAM(256, 64, 64) has window size 16 and maps an input of
    shape (4,256,64,64) to an output of shape (4,256,64,64). *)
Theorem bdam_shape (in_planes width height : Z) (m : BDAM.t) (N : Z) :
  BDAM.init in_planes width height = Ok m ->
  16 <= in_planes -> 0 < N ->
  1 <= BDAM.window_size m ->
  (BDAM.window_size m | height) -> (BDAM.window_size m | width) ->
  BDAM.window_size m = min (width / 4) (height / 4) /\
  BDAM.forward m (Meta [N; in_planes; height; width])
  = Ok (Meta [N; in_planes; height; width]) /\
  BDAM.window_size <$> BDAM.init 256 64 64 = Ok 16 /\
  BDAM.init 256 64 64 ≫= (fun m' => BDAM.forward m' (Meta [4; 256; 64; 64]))
  = Ok (Meta [4; 256; 64; 64]).
Proof.
  intros Hm Hc HN Hws Hdh Hdw. unfold BDAM.init in Hm.
  bind_inv Hm as dam Hdam. injection Hm as <-.
  cbn [BDAM.window_size] in *. split; [reflexivity|].
  split; [|split; reflexivity].
  remember (min (width / 4) (height / 4)) as ws eqn:Ews.
  destruct Hdh as [nH Hh]. destruct Hdw as [nW Hw].
  unfold BDAM.forward. cbn [BDAM.window_size BDAM.dam BDAM.height BDAM.width].
  rewrite Hh, Hw.
  assert (0 < height /\ 0 < width) as [Hhp Hwp].
  { pose proof (Z.div_mod height 4). pose proof (Z.mod_pos_bound height 4).
    pose proof (Z.div_mod width 4). pose proof (Z.mod_pos_bound width 4).
    unfold min in Ews. destruct (height / 4 <? width / 4) eqn:E;
      [apply Z.ltb_lt in E|apply Z.ltb_ge in E]; lia. }
  assert (0 < nH) as HnH by nia. assert (0 < nW) as HnW by nia.
  rewrite window_partition_meta by lia. cbn [mbind result_bind].
  rewrite (DAM_forward_meta _ _ _ _ Hdam) by lia. cbn [mbind result_bind].
  apply window_reverse_meta; lia.
Qed.

Lemma bdam_shape_witness :
  exists m, BDAM.init 256 64 64 = Ok m /\
    BDAM.window_size m = 16 /\
    BDAM.forward m (Meta [4; 256; 64; 64]) = Ok (Meta [4; 256; 64; 64]).
Proof.
  eexists. split; [reflexivity|].
  pose proof (bdam_shape 256 64 64 _ 4 eq_refl) as H.
  destruct H as (Hw & Hf & _);
    [lia|lia|vm_compute; discriminate|exists 4; reflexivity|exists 4; reflexivity|].
  split; [exact Hw|exact Hf].
Defined.

(** C2 as stated fails: BDAM built for 64 x 64 has window size 16, which
    divides 32, yet on an input of shape (4,256,32,32) the output has shape
    (1,256,64,64): [window_reverse] is given the height and width of the
    constructor, not those of the input. *)
Lemma bdam_other_extent :
  exists m, BDAM.init 256 64 64 = Ok m /\
    BDAM.window_size m = 16 /\ (16 | 32) /\
    BDAM.forward m (Meta [4; 256; 32; 32]) = Ok (Meta [1; 256; 64; 64]) /\
    Meta [1; 256; 64; 64] ≠ Meta [4; 256; 32; 32].
Proof.
  eexists. split; [reflexivity|]. split; [reflexivity|].
  split; [exists 2; reflexivity|]. split; [reflexivity|discriminate].
Qed.

(** ** binary64: multiplying an int by 1.0 *)

Lemma digits2_pos_lower (m : positive) : 2 ^ (Z.pos (digits2_pos m) - 1) <= Z.pos m.
Proof.
  induction m as [p IH | p IH |]; cbn [digits2_pos].
  - rewrite Pos2Z.inj_succ. replace (Z.succ (Z.pos (digits2_pos p)) - 1)
      with (Z.succ (Z.pos (digits2_pos p) - 1)) by lia.
    rewrite Z.pow_succ_r by lia. lia.
  - rewrite Pos2Z.inj_succ. replace (Z.succ (Z.pos (digits2_pos p)) - 1)
      with (Z.succ (Z.pos (digits2_pos p) - 1)) by lia.
    rewrite Z.pow_succ_r by lia. lia.
  - simpl. lia.
Qed.

Lemma digits2_pos_small (m : positive) : Z.pos m < 2 ^ 53 -> Z.pos (digits2_pos m) <= 53.
Proof.
  intros Hm. pose proof (digits2_pos_lower m) as Hl.
  destruct (Z_le_gt_dec (Z.pos (digits2_pos m)) 53) as [|Hgt]; [assumption|].
  exfalso.
  assert (2 ^ 53 <= 2 ^ (Z.pos (digits2_pos m) - 1)) by (apply Z.pow_le_mono_r; lia).
  lia.
Qed.

Lemma digits2_pos_shift (m k : positive) :
  digits2_pos (Pos.iter xO m k) = (digits2_pos m + k)%positive.
Proof.
  induction k as [|k IH] using Pos.peano_ind.
  - cbn. lia.
  - rewrite Pos.iter_succ. cbn [digits2_pos]. rewrite IH. lia.
Qed.

(** A mantissa of 53 digits is not rounded. *)
Lemma binary_round_aux_exact (s : bool) (m : positive) (e : Z) :
  Z.pos (digits2_pos m) = 53 -> -1074 <= e <= 971 ->
  binary_round_aux 53 1024 s (Z.pos m) e loc_Exact = S754_finite s m e.
Proof.
  intros Hd He. unfold binary_round_aux, shr_fexp.
  cbn [Zdigits2]. rewrite Hd.
  assert (fexp 53 1024 (53 + e) - e = 0) as ->.
  { unfold fexp, emin. lia. }
  cbn [shr shr_record_of_loc shr_m loc_of_shr_record round_nearest_even Zdigits2].
  rewrite Hd.
  assert (fexp 53 1024 (53 + e) - e = 0) as ->.
  { unfold fexp, emin. lia. }
  cbn [shr shr_m].
  replace (e <=? 1024 - 53) with true by (symmetry; apply Z.leb_le; lia).
  reflexivity.
Qed.

Lemma float_of_pos (m : positive) :
  Z.pos m < 2 ^ 53 ->
  exists (mz : positive) (k : Z),
    binary_normalize 53 1024 (Z.pos m) 0 false = S754_finite false mz (- k) /\
    0 <= k <= 52 /\ Z.pos (digits2_pos mz) = 53 /\ Z.pos mz = Z.pos m * 2 ^ k.
Proof.
  intros Hm. pose proof (digits2_pos_small m Hm) as Hd.
  cbn [binary_normalize]. unfold binary_round, shl_align.
  assert (fexp 53 1024 (Z.pos (digits2_pos m) + 0) = Z.pos (digits2_pos m) - 53) as ->.
  { unfold fexp, emin. lia. }
  destruct (Z.pos (digits2_pos m) - 53 - 0) as [|p|p] eqn:E; try lia.
  - exists m, 0. rewrite binary_round_aux_exact by lia.
    split; [reflexivity|]. split; [lia|]. split; [lia|]. lia.
  - exists (Pos.iter xO m p), (Z.pos p).
    assert (Z.pos (digits2_pos (Pos.iter xO m p)) = 53) as Hd'.
    { rewrite digits2_pos_shift. lia. }
    rewrite binary_round_aux_exact by (try assumption; lia).
    split; [f_equal; lia|]. split; [lia|]. split; [assumption|].
    change (Pos.iter xO m p) with (shift_pos p m).
    rewrite shift_pos_correct, Z.pow_pos_fold. lia.
Qed.

Lemma mul_one (s : bool) (m : positive) (e : Z) :
  Z.pos (digits2_pos m) = 53 -> -1074 <= e <= 971 ->
  SFmul 53 1024 (S754_finite s m e) float_1_0 = S754_finite s m e.
Proof.
  intros Hd He. cbn [SFmul float_1_0]. unfold binary_round_aux, shr_fexp.
  assert ((m * 4503599627370496)%positive = Pos.iter xO m 52) as ->
    by (rewrite Pos.mul_comm; reflexivity).
  cbn [Zdigits2]. rewrite digits2_pos_shift, Pos2Z.inj_add, Hd.
  assert (fexp 53 1024 (53 + 52 + (e + -52)) - (e + -52) = 52) as ->.
  { unfold fexp, emin. lia. }
  cbn [shr].
  assert (SpecFloat.iter_pos shr_1 52 (shr_record_of_loc (Z.pos (Pos.iter xO m 52)) loc_Exact)
          = {| shr_m := Z.pos m; shr_r := false; shr_s := false |}) as ->
    by reflexivity.
  cbn [shr_m loc_of_shr_record round_nearest_even Zdigits2].
  rewrite Hd.
  assert (fexp 53 1024 (53 + (e + -52 + 52)) - (e + -52 + 52) = 0) as ->.
  { unfold fexp, emin. lia. }
  cbn [shr shr_record_of_loc shr_m].
  replace (e + -52 + 52 <=? 1024 - 53) with true
    by (symmetry; apply Z.leb_le; lia).
  rewrite xorb_false_r. f_equal. lia.
Qed.

Lemma float_value_pos (m mz : positive) (k : Z) :
  0 <= k -> Z.pos mz = Z.pos m * 2 ^ k ->
  (float_value (S754_finite false mz (- k)) == inject_Z (Z.pos m))%Q.
Proof.
  intros Hk Hmz. cbn [float_value]. rewrite Hmz, inject_Z_mult.
  rewrite Zpower_Qpower by assumption. rewrite Qpower_opp.
  change (inject_Z 2) with 2%Q.
  assert (~ (2 ^ k == 0)%Q) as Ht by (apply Qpower_not_0; discriminate).
  set (t := (2 ^ k)%Q) in *. field. exact Ht.
Qed.

(** [int(c * 1.0) = c] for an int below 2^53. *)
Lemma int_times_one (c : Z) :
  0 <= c < 2 ^ 53 -> mul_int_float c float_1_0 ≫= int_of_float = Ok c.
Proof.
  intros Hc. unfold mul_int_float, float_of_int.
  destruct c as [|m|m]; [reflexivity| |lia].
  destruct (float_of_pos m) as (mz & k & -> & Hk & Hd & Hmz); [lia|].
  cbn [mbind result_bind]. rewrite mul_one by (try assumption; lia).
  cbn [int_of_float]. f_equal. apply int_of_integer.
  apply float_value_pos; [lia|assumption].
Qed.

(** ** Bottleneck and BottleneckCSP *)

Lemma Bottleneck_init_inv (c1 c2 : Z) (shortcut : bool) (g : Z) (e : float)
  (b : Bottleneck.t) :
  Bottleneck.init c1 c2 shortcut g e = Ok b ->
  exists c_ : Z,
    mul_int_float c2 e ≫= int_of_float = Ok c_ /\
    Conv.init c1 c_ (Int 1) (Int 1) None 1 true = Ok (Bottleneck.cv1 b) /\
    Conv.init c_ c2 (Int 3) (Int 1) None g true = Ok (Bottleneck.cv2 b) /\
    Bottleneck.add b = shortcut && (c1 =? c2).
Proof.
  unfold Bottleneck.init. intros Hb. bind_inv Hb as c_ Hc.
  bind_inv Hb as cv1 Hcv1. bind_inv Hb as cv2 Hcv2. injection Hb as <-.
  exists c_. repeat split; assumption.
Qed.

(** The hidden width a Bottleneck was built with is [int(c2 * e)]. *)
Lemma Bottleneck_hidden_width (c1 c2 : Z) (shortcut : bool) (g : Z) (e : float)
  (b : Bottleneck.t) :
  Bottleneck.init c1 c2 shortcut g e = Ok b ->
  mul_int_float c2 e ≫= int_of_float = Ok (out_channels (Conv.conv (Bottleneck.cv1 b))).
Proof.
  intros Hb. apply Bottleneck_init_inv in Hb as (c_ & Hc & Hcv1 & _).
  apply Conv_init_inv in Hcv1 as (-> & _). exact Hc.
Qed.

Lemma Bottleneck_hidden_one (c : Z) (shortcut : bool) (g : Z) (b : Bottleneck.t) :
  Bottleneck.init c c shortcut g float_1_0 = Ok b -> 0 <= c < 2 ^ 53 ->
  out_channels (Conv.conv (Bottleneck.cv1 b)) = c.
Proof.
  intros Hb Hc. apply Bottleneck_hidden_width in Hb.
  rewrite int_times_one in Hb by assumption. injection Hb as <-. reflexivity.
Qed.

Lemma mapM_inv {X Y : Type} (f : X -> result Y) (l : list X) (l' : list Y) :
  mapM f l = Ok l' -> Forall2 (fun x y => f x = Ok y) l l'.
Proof.
  revert l'. induction l as [|x l IH]; intros l' Hl; cbn [mapM] in Hl.
  - injection Hl as <-. constructor.
  - bind_inv Hl as y Hy. bind_inv Hl as k Hk. injection Hl as <-.
    constructor; [assumption|]. apply IH. assumption.
Qed.

(** [nn.Sequential] applies its modules in sequence, the first one first. *)
Lemma sequential_from {M T : Type} (fwd : M -> T -> result T) (ms : list M)
  (acc : result T) :
  foldl (fun acc m => acc ≫= fwd m) acc ms = acc ≫= in_sequence fwd ms.
Proof.
  revert acc. induction ms as [|m ms IH]; intros acc; cbn [foldl in_sequence].
  - destruct acc; reflexivity.
  - rewrite IH. destruct acc; reflexivity.
Qed.

Lemma sequential_in_sequence {M T : Type} (fwd : M -> T -> result T) (ms : list M)
  (x : T) :
  sequential fwd ms x = in_sequence fwd ms x.
Proof. unfold sequential. rewrite sequential_from. reflexivity. Qed.

Lemma sequential_fixed {M T : Type} (fwd : M -> T -> result T) (ms : list M) (x : T) :
  Forall (fun m => fwd m x = Ok x) ms -> sequential fwd ms x = Ok x.
Proof.
  unfold sequential. induction 1 as [|m ms Hm _ IH]; [reflexivity|].
  cbn [foldl mbind result_bind]. rewrite Hm. exact IH.
Qed.

Section DataFlow.
Context {T : Type} {tops : TensorOps T} {nops : NNOps T}.

(** C5: a Bottleneck built with the shortcut enabled and equal channel counts
    computes [x + cv2(cv1(x))]; built with different channel counts it
    computes [cv2(cv1(x))] whatever the shortcut flag, and asking for the
    shortcut then changes nothing in the construction: it neither fails nor
    differs from the construction without shortcut. *)
Theorem bottleneck_shortcut (c1 c2 : Z) (shortcut : bool) (g : Z) (e : float)
  (b : Bottleneck.t) :
  Bottleneck.init c1 c2 shortcut g e = Ok b ->
  (shortcut = true -> c1 = c2 ->
     forall x : T, Bottleneck.forward b x = transformed b x ≫= tensor_add x) /\
  (c1 ≠ c2 ->
     (forall x : T, Bottleneck.forward b x = transformed b x) /\
     Bottleneck.init c1 c2 true g e = Ok b /\
     Bottleneck.init c1 c2 false g e = Ok b).
Proof.
  intros Hb. pose proof (Bottleneck_init_inv _ _ _ _ _ _ Hb) as (c_ & _ & _ & _ & Hadd).
  split.
  - intros -> ->. rewrite Z.eqb_refl in Hadd. intros x.
    unfold Bottleneck.forward, transformed. rewrite Hadd.
    destruct (Conv.forward (Bottleneck.cv1 b) x) as [y|err]; [|reflexivity].
    cbn [mbind result_bind].
    destruct (Conv.forward (Bottleneck.cv2 b) y); reflexivity.
  - intros Hne. apply Z.eqb_neq in Hne.
    rewrite Hne, andb_false_r in Hadd. split.
    + intros x. unfold Bottleneck.forward, transformed. rewrite Hadd. reflexivity.
    + revert Hb. unfold Bottleneck.init. rewrite Hne, !andb_false_r. auto.
Qed.

End DataFlow.

Lemma bottleneck_shortcut_witness :
  exists b, Bottleneck.init 64 128 true 1 float_0_5 = Ok b /\
    Bottleneck.init 64 128 false 1 float_0_5 = Ok b /\
    Bottleneck.forward b (Meta [1; 64; 32; 32]) = transformed b (Meta [1; 64; 32; 32]) /\
    transformed b (Meta [1; 64; 32; 32]) = Ok (Meta [1; 128; 32; 32]).
Proof.
  eexists. split; [reflexivity|].
  pose proof (bottleneck_shortcut (T := meta) 64 128 true 1 float_0_5 _ eq_refl) as [_ H].
  destruct H as (Hf & _ & Hi); [discriminate|].
  split; [exact Hi|]. split; [apply Hf|reflexivity].
Defined.

Lemma BottleneckCSP_init_inv (c1 c2 n : Z) (shortcut : bool) (g : Z) (e : float)
  (m : BottleneckCSP.t) :
  BottleneckCSP.init c1 c2 n shortcut g e = Ok m ->
  exists c_ : Z,
    mul_int_float c2 e ≫= int_of_float = Ok c_ /\
    Conv.init c1 c_ (Int 1) (Int 1) None 1 true = Ok (BottleneckCSP.cv1 m) /\
    nn_Conv2d c1 c_ (Int 1) (Int 1) (Int 0) 1 false = Ok (BottleneckCSP.cv2 m) /\
    nn_Conv2d c_ c_ (Int 1) (Int 1) (Int 0) 1 false = Ok (BottleneckCSP.cv3 m) /\
    Conv.init (2 * c_) c2 (Int 1) (Int 1) None 1 true = Ok (BottleneckCSP.cv4 m) /\
    BottleneckCSP.bn m = nn_BatchNorm2d (2 * c_) /\
    BottleneckCSP.act m = LeakyReLU float_0_1 true /\
    length (BottleneckCSP.m m) = Z.to_nat n /\
    Forall (fun b => Bottleneck.init c_ c_ shortcut g float_1_0 = Ok b) (BottleneckCSP.m m).
Proof.
  unfold BottleneckCSP.init. intros Hm. cbv zeta in Hm.
  bind_inv Hm as c_ Hc.
  bind_inv Hm as cv1 Hcv1. bind_inv Hm as cv2 Hcv2. bind_inv Hm as cv3 Hcv3.
  bind_inv Hm as cv4 Hcv4. bind_inv Hm as bs Hbs. injection Hm as <-.
  cbn [BottleneckCSP.cv1 BottleneckCSP.cv2 BottleneckCSP.cv3 BottleneckCSP.cv4
       BottleneckCSP.bn BottleneckCSP.act BottleneckCSP.m].
  apply mapM_inv in Hbs. exists c_.
  repeat split; try assumption.
  - rewrite <- (list.Forall2_length _ _ _ Hbs). apply length_seqZ.
  - clear -Hbs. induction Hbs; constructor; assumption.
Qed.

(** The hidden width a BottleneckCSP was built with is [int(c2 * e)]. *)
Lemma BottleneckCSP_hidden_width (c1 c2 n : Z) (shortcut : bool) (g : Z) (e : float)
  (m : BottleneckCSP.t) :
  BottleneckCSP.init c1 c2 n shortcut g e = Ok m ->
  let c_ := out_channels (Conv.conv (BottleneckCSP.cv1 m)) in
  mul_int_float c2 e ≫= int_of_float = Ok c_ /\ 0 <= c_ /\
  Conv.init c1 c_ (Int 1) (Int 1) None 1 true = Ok (BottleneckCSP.cv1 m) /\
  nn_Conv2d c1 c_ (Int 1) (Int 1) (Int 0) 1 false = Ok (BottleneckCSP.cv2 m) /\
  nn_Conv2d c_ c_ (Int 1) (Int 1) (Int 0) 1 false = Ok (BottleneckCSP.cv3 m) /\
  Conv.init (2 * c_) c2 (Int 1) (Int 1) None 1 true = Ok (BottleneckCSP.cv4 m) /\
  BottleneckCSP.bn m = nn_BatchNorm2d (2 * c_) /\
  BottleneckCSP.act m = LeakyReLU float_0_1 true /\
  length (BottleneckCSP.m m) = Z.to_nat n /\
  Forall (fun b => Bottleneck.init c_ c_ shortcut g float_1_0 = Ok b) (BottleneckCSP.m m).
Proof.
  intros Hm c_.
  destruct (BottleneckCSP_init_inv _ _ _ _ _ _ _ Hm)
    as (c0 & Hc & Hcv1 & Hcv2 & Hcv3 & Hcv4 & Hbn & Hact & Hlen & Hbs).
  assert (c_ = c0 /\ 0 <= c0) as [-> Hnn].
  { unfold c_. destruct (Conv_init_inv _ _ _ _ _ _ _ _ Hcv1) as (-> & _ & _ & _ & _ & Hnn).
    split; [reflexivity|exact Hnn]. }
  repeat split; assumption.
Qed.

Section CSPDataFlow.
Context {T : Type} {tops : TensorOps T} {nops : NNOps T}.

(** C4: BottleneckCSP computes
    cv4(leakyReLU(BN(concat(cv3(bottlenecks(cv1(x))), cv2(x))))), where
    bottlenecks applies the n Bottlenecks of the stack in sequence, the
    first one to cv1(x): cv2 and cv3 are bare bias-free 1x1 convolutions,
    every Bottleneck of the stack is built with expansion 1.0, the
    concatenation puts the Bottleneck path first, and the leaky ReLU has
    negative slope 0.1.  The common width c_ of the two paths is the hidden
    channel count int(c2 * e) the block was built with. *)
Theorem csp_dataflow (c1 c2 n : Z) (shortcut : bool) (g : Z) (e : float)
  (m : BottleneckCSP.t) :
  BottleneckCSP.init c1 c2 n shortcut g e = Ok m ->
  0 <= n ->
  let c_ := out_channels (Conv.conv (BottleneckCSP.cv1 m)) in
  (forall x : T,
     BottleneckCSP.forward m x
     = csp_formula
         (Conv.forward (BottleneckCSP.cv1 m))
         (in_sequence Bottleneck.forward (BottleneckCSP.m m))
         (conv2d (BottleneckCSP.cv2 m))
         (conv2d (BottleneckCSP.cv3 m))
         (batch_norm (BottleneckCSP.bn m))
         (fun y => Ok (leaky_relu float_0_1 y))
         (Conv.forward (BottleneckCSP.cv4 m))
         (fun a b => cat [a; b] 1) x) /\
  mul_int_float c2 e ≫= int_of_float = Ok c_ /\
  BottleneckCSP.cv2 m
  = {| in_channels := c1; out_channels := c_; kernel_size := [1; 1];
       stride := [1; 1]; padding := [0; 0]; groups := 1; bias := false |} /\
  BottleneckCSP.cv3 m
  = {| in_channels := c_; out_channels := c_; kernel_size := [1; 1];
       stride := [1; 1]; padding := [0; 0]; groups := 1; bias := false |} /\
  Z.of_nat (length (BottleneckCSP.m m)) = n /\
  Forall (fun b => Bottleneck.init c_ c_ shortcut g float_1_0 = Ok b)
    (BottleneckCSP.m m) /\
  (c_ < 2 ^ 53 ->
   Forall (fun b => out_channels (Conv.conv (Bottleneck.cv1 b)) = c_)
     (BottleneckCSP.m m)).
Proof.
  intros Hm Hn c_.
  destruct (BottleneckCSP_hidden_width _ _ _ _ _ _ _ Hm)
    as (Hc & Hnn & Hcv1 & Hcv2 & Hcv3 & Hcv4 & Hbn & Hact & Hlen & Hbs).
  fold c_ in Hc, Hnn, Hcv1, Hcv2, Hcv3, Hcv4, Hbn, Hbs.
  split; [|split; [|split; [|split; [|split; [|split]]]]].
  - intros x. unfold BottleneckCSP.forward, BottleneckCSP.merged, csp_formula.
    rewrite Hact. cbn [apply_act].
    destruct (Conv.forward (BottleneckCSP.cv1 m) x) as [y1|]; [|reflexivity].
    cbn [mbind result_bind]. rewrite sequential_in_sequence.
    destruct (in_sequence Bottleneck.forward (BottleneckCSP.m m) y1) as [y1'|];
      [|reflexivity].
    cbn [mbind result_bind].
    destruct (conv2d (BottleneckCSP.cv3 m) y1') as [y1''|]; [|reflexivity].
    cbn [mbind result_bind].
    destruct (conv2d (BottleneckCSP.cv2 m) x) as [y2|]; [|reflexivity].
    cbn [mbind result_bind].
    destruct (cat [y1''; y2] 1) as [y|]; [|reflexivity].
    cbn [mbind result_bind].
    destruct (batch_norm (BottleneckCSP.bn m) y); reflexivity.
  - exact Hc.
  - apply nn_Conv2d_inv in Hcv2 as (-> & _). reflexivity.
  - apply nn_Conv2d_inv in Hcv3 as (-> & _). reflexivity.
  - rewrite Hlen. lia.
  - exact Hbs.
  - intros Hlt. apply (list.Forall_impl _ _ _ Hbs). intros b Hb.
    apply (Bottleneck_hidden_one _ _ _ _ Hb). lia.
Qed.

End CSPDataFlow.

Lemma csp_dataflow_witness :
  exists m, BottleneckCSP.init 64 64 3 true 1 float_0_5 = Ok m /\
    length (BottleneckCSP.m m) = 3%nat /\
    out_channels (BottleneckCSP.cv2 m) = 32 /\
    BottleneckCSP.forward m (Meta [2; 64; 32; 32]) = Ok (Meta [2; 64; 32; 32]).
Proof.
  eexists. split; [reflexivity|].
  pose proof (csp_dataflow (T := meta) 64 64 3 true 1 float_0_5 _ eq_refl) as H.
  destruct H as (Hf & _ & Hcv2 & _ & Hlen & _); [lia|].
  split; [reflexivity|]. split; [rewrite Hcv2; reflexivity|].
  rewrite Hf. reflexivity.
Defined.

Lemma Bottleneck_forward_meta (c1 c2 : Z) (shortcut : bool) (g : Z) (e : float)
  (b : Bottleneck.t) (N H W : Z) :
  Bottleneck.init c1 c2 shortcut g e = Ok b ->
  0 < out_channels (Conv.conv (Bottleneck.cv1 b)) -> 0 < c2 -> 0 < H -> 0 < W ->
  Bottleneck.forward b (Meta [N; c1; H; W]) = Ok (Meta [N; c2; H; W]).
Proof.
  intros Hb Hc_ Hc2 HH HW.
  destruct (Bottleneck_init_inv _ _ _ _ _ _ Hb) as (c_ & _ & Hcv1 & Hcv2 & Hadd).
  assert (out_channels (Conv.conv (Bottleneck.cv1 b)) = c_) as Ehid
    by (destruct (Conv_init_inv _ _ _ _ _ _ _ _ Hcv1) as (-> & _); reflexivity).
  rewrite Ehid in Hc_.
  assert (transformed b (Meta [N; c1; H; W]) = Ok (Meta [N; c2; H; W])) as Ht.
  { unfold transformed.
    rewrite (Conv_forward_meta _ _ _ _ _ _ _ _ 1 1 1 1 0 0 N H W Hcv1)
      by (reflexivity || lia).
    cbn [mbind result_bind]. unfold MetaNN.out_size. rewrite !Z.div_1_r.
    replace (H + 2 * 0 - 1 + 1) with H by lia. replace (W + 2 * 0 - 1 + 1) with W by lia.
    rewrite (Conv_forward_meta _ _ _ _ _ _ _ _ 3 3 1 1 1 1 N H W Hcv2)
      by (reflexivity || lia).
    unfold MetaNN.out_size. rewrite !Z.div_1_r.
    replace (H + 2 * 1 - 3 + 1) with H by lia. replace (W + 2 * 1 - 3 + 1) with W by lia.
    reflexivity. }
  unfold Bottleneck.forward. unfold transformed in Ht.
  destruct (Bottleneck.add b) eqn:Ea.
  - rewrite ?Ea in Hadd. symmetry in Hadd. apply andb_prop in Hadd as [_ Heq].
    apply Z.eqb_eq in Heq. subst c2.
    destruct (Conv.forward (Bottleneck.cv1 b) (Meta [N; c1; H; W])) as [y|]; [|discriminate].
    cbn [mbind result_bind] in *. rewrite Ht. cbn [mbind result_bind tensor_add meta_nn].
    unfold MetaNN.lift2. cbn [meta_shape]. rewrite broadcast_same. reflexivity.
  - exact Ht.
Qed.

Lemma BottleneckCSP_merged_meta (c1 c2 n : Z) (shortcut : bool) (g : Z) (e : float)
  (m : BottleneckCSP.t) (N H W : Z) :
  BottleneckCSP.init c1 c2 n shortcut g e = Ok m ->
  0 < out_channels (Conv.conv (BottleneckCSP.cv1 m)) < 2 ^ 53 -> 0 < H -> 0 < W ->
  BottleneckCSP.merged m (Meta [N; c1; H; W])
  = Ok (Meta [N; 2 * out_channels (Conv.conv (BottleneckCSP.cv1 m)); H; W]).
Proof.
  intros Hm Hpos HH HW.
  destruct (BottleneckCSP_hidden_width _ _ _ _ _ _ _ Hm)
    as (Hc & Hnn & Hcv1 & Hcv2 & Hcv3 & Hcv4 & Hbn & Hact & Hlen & Hbs).
  set (c_ := out_channels (Conv.conv (BottleneckCSP.cv1 m))) in *.
  unfold BottleneckCSP.merged.
  rewrite (Conv_forward_meta _ _ _ _ _ _ _ _ 1 1 1 1 0 0 N H W Hcv1)
    by (reflexivity || lia).
  cbn [mbind result_bind]. unfold MetaNN.out_size. rewrite !Z.div_1_r.
  replace (H + 2 * 0 - 1 + 1) with H by lia. replace (W + 2 * 0 - 1 + 1) with W by lia.
  rewrite sequential_fixed.
  2:{ apply (list.Forall_impl _ _ _ Hbs). intros b' Hb'.
      apply (Bottleneck_forward_meta _ _ _ _ _ _ _ _ _ Hb'); try lia.
      rewrite (Bottleneck_hidden_one _ _ _ _ Hb') by lia. lia. }
  cbn [mbind result_bind].
  rewrite (conv1x1_meta _ _ _ _ _ _ _ Hcv3) by lia. cbn [mbind result_bind].
  rewrite (conv1x1_meta _ _ _ _ _ _ _ Hcv2) by lia.
  cbn [mbind result_bind cat meta_ops fmap list_fmap meta_shape].
  change [[N; c_; H; W]; [N; c_; H; W]] with (replicate 2 [N; c_; H; W]).
  rewrite (cat_shape_copies 1 N c_ H W). cbn [fmap result_fmap].
  replace (c_ * Z.of_nat 2) with (2 * c_) by lia. reflexivity.
Qed.

Lemma int_of_float_value (p : float) (c : Z) :
  int_of_float p = Ok c -> c = int (float_value p).
Proof.
  destruct p as [s|s| |s m e]; cbn [int_of_float]; intros H;
    try discriminate H; injection H as <-; reflexivity.
Qed.

(** C6 (amended): the hidden channel count of Bottleneck and of BottleneckCSP
    is int(c2 * e): the binary64 product of c2 and e truncated toward zero,
    not rounded to the nearest integer (it is the floor of the product when
    the product is not negative), and the tensor BottleneckCSP hands to its
    batch normalisation and final projection has twice that many
    channels. *)
Theorem hidden_channels (c1 c2 n : Z) (shortcut : bool) (g : Z) (e : float)
  (b : Bottleneck.t) (m : BottleneckCSP.t) :
  Bottleneck.init c1 c2 shortcut g e = Ok b ->
  BottleneckCSP.init c1 c2 n shortcut g e = Ok m ->
  exists (p : float) (c_ : Z),
    mul_int_float c2 e = Ok p /\
    int_of_float p = Ok c_ /\
    c_ = int (float_value p) /\
    out_channels (Conv.conv (Bottleneck.cv1 b)) = c_ /\
    out_channels (Conv.conv (BottleneckCSP.cv1 m)) = c_ /\
    out_channels (BottleneckCSP.cv2 m) = c_ /\
    out_channels (BottleneckCSP.cv3 m) = c_ /\
    num_features (BottleneckCSP.bn m) = 2 * c_ /\
    in_channels (Conv.conv (BottleneckCSP.cv4 m)) = 2 * c_ /\
    (forall N H W : Z, 0 < c_ < 2 ^ 53 -> 0 < H -> 0 < W ->
       BottleneckCSP.merged m (Meta [N; c1; H; W]) = Ok (Meta [N; 2 * c_; H; W])) /\
    ((0 <= float_value p)%Q ->
       c_ = Qfloor (float_value p) /\
       (inject_Z c_ <= float_value p < inject_Z c_ + 1)%Q).
Proof.
  intros Hb Hm.
  pose proof (Bottleneck_hidden_width _ _ _ _ _ _ Hb) as Hbw.
  destruct (BottleneckCSP_hidden_width _ _ _ _ _ _ _ Hm)
    as (Hc & Hnn & Hcv1 & Hcv2 & Hcv3 & Hcv4 & Hbn & Hact & Hlen & Hbs).
  pose proof (fun N H W => BottleneckCSP_merged_meta _ _ _ _ _ _ _ N H W Hm) as Hmerged.
  set (c_ := out_channels (Conv.conv (BottleneckCSP.cv1 m))) in *.
  rewrite Hc in Hbw. injection Hbw as Hbw.
  destruct (mul_int_float c2 e) as [p|] eqn:Hp; [|discriminate Hc].
  cbn [mbind result_bind] in Hc.
  pose proof (int_of_float_value _ _ Hc) as Hint.
  exists p, c_.
  split; [reflexivity|]. split; [exact Hc|]. split; [exact Hint|].
  split; [symmetry; exact Hbw|]. split; [reflexivity|].
  split; [destruct (nn_Conv2d_inv _ _ _ _ _ _ _ _ Hcv2) as (-> & _); reflexivity|].
  split; [destruct (nn_Conv2d_inv _ _ _ _ _ _ _ _ Hcv3) as (-> & _); reflexivity|].
  split; [rewrite Hbn; reflexivity|].
  split; [destruct (Conv_init_inv _ _ _ _ _ _ _ _ Hcv4) as (-> & _); reflexivity|].
  split.
  - intros N H W Hpos HH HW. apply Hmerged; assumption.
  - intros Hv.
    assert (c_ = Qfloor (float_value p)) as Hfloor.
    { rewrite Hint. unfold int. apply Qle_bool_iff in Hv. rewrite Hv. reflexivity. }
    split; [exact Hfloor|].
    rewrite Hfloor. split; [apply Qfloor_le|].
    pose proof (Qlt_floor (float_value p)) as Hlt.
    rewrite inject_Z_plus in Hlt. exact Hlt.
Qed.

Lemma hidden_channels_witness :
  exists b m, Bottleneck.init 64 10 true 1 float_0_7 = Ok b /\
    BottleneckCSP.init 64 10 1 true 1 float_0_7 = Ok m /\
    out_channels (Conv.conv (Bottleneck.cv1 b)) = 7 /\
    out_channels (Conv.conv (BottleneckCSP.cv1 m)) = 7 /\
    BottleneckCSP.merged m (Meta [1; 64; 8; 8]) = Ok (Meta [1; 2 * 7; 8; 8]).
Proof.
  do 2 eexists. split; [reflexivity|]. split; [reflexivity|].
  pose proof (hidden_channels 64 10 1 true 1 float_0_7 _ _ eq_refl eq_refl) as H.
  destruct H as (p & c_ & _ & _ & _ & Hb & Hc & _ & _ & _ & _ & Hm & _).
  assert (c_ = 7) as -> by (rewrite <- Hc; reflexivity).
  split; [exact Hb|]. split; [exact Hc|].
  apply (Hm 1 8 8); [split; [lia|reflexivity]|lia|lia].
Defined.

(** C6 as stated fails: with c2 = 7 and e = 0.25 the product is the float
    1.75, which rounds to 2, while the hidden channel count of Bottleneck
    and of BottleneckCSP is int(1.75) = 1. *)
Lemma hidden_channels_not_round :
  exists p, mul_int_float 7 float_0_25 = Ok p /\
    (float_value p == 7 # 4)%Q /\ round (float_value p) = 2 /\
    exists b m, Bottleneck.init 64 7 true 1 float_0_25 = Ok b /\
      BottleneckCSP.init 64 7 1 true 1 float_0_25 = Ok m /\
      out_channels (Conv.conv (Bottleneck.cv1 b)) = 1 /\
      out_channels (Conv.conv (BottleneckCSP.cv1 m)) = 1 /\
      in_channels (Conv.conv (BottleneckCSP.cv4 m)) = 2.
Proof.
  eexists. split; [reflexivity|]. split; [reflexivity|]. split; [reflexivity|].
  do 2 eexists.
  split; [reflexivity|]. split; [reflexivity|]. repeat split; reflexivity.
Qed.

(** ** Focus *)

Lemma focus_gather4_meta (N C h2 w2 : Z) :
  0 <= h2 -> 0 <= w2 ->
  Focus.gather4 (Meta [N; C; 2 * h2; 2 * w2]) = Ok (Meta [N; 4 * C; h2; w2]).
Proof.
  intros Hh Hw. unfold Focus.gather4. cbn [strided meta_ops meta_shape].
  unfold strided_shape.
  cbn [mbind result_bind check Z.ltb Z.compare andb reverse rev_append app
       fmap result_fmap].
  rewrite !slice_len_even by auto. cbn [mbind result_bind cat meta_ops].
  cbn [fmap list_fmap meta_shape].
  change [[N; C; h2; w2]; [N; C; h2; w2]; [N; C; h2; w2]; [N; C; h2; w2]]
    with (replicate 4 [N; C; h2; w2]).
  rewrite cat_shape_copies. cbn [fmap result_fmap].
  replace (C * Z.of_nat 4) with (4 * C) by lia. reflexivity.
Qed.

Section FocusShape.
Context {A : Type} {inh : Inhabited A}.

(** C7 (amended): on an input of shape (N,C,H,W) with H and W even, Focus
    concatenates along the channel axis the four stride-2 sub-grids at
    (row,col) offsets (0,0), (1,0), (0,1), (1,1), in that order, which gives
    shape (N,4C,H/2,W/2); its Conv then maps that tensor to c2 channels, so
    the output of Focus has shape (N, c2, H', W') with H' and W' given by the
    convolution's output-size formula on H/2 and W/2. *)
Theorem focus_shape (x : Tensor.tensor A) (c1 c2 k s g : Z) (a : bool)
  (m : Focus.t) (N h2 w2 : Z) :
  Focus.init c1 c2 (Int k) (Int s) None g a = Ok m ->
  Tensor.wf x -> Tensor.shape x = [N; c1; 2 * h2; 2 * w2] ->
  0 < k -> 0 < s -> 0 < c2 -> 0 < h2 -> 0 < w2 ->
  (exists y,
     Focus.gather4 x = Ok y /\ Tensor.wf y /\
     Tensor.shape y = [N; 4 * c1; h2; w2] /\
     forall (q : nat) (dr dc n c i j : Z),
       [(0, 0); (1, 0); (0, 1); (1, 1)] !! q = Some (dr, dc) ->
       0 <= n < N -> 0 <= c < c1 -> 0 <= i < h2 -> 0 <= j < w2 ->
       Tensor.get y [n; Z.of_nat q * c1 + c; i; j]
       = Tensor.get x [n; c; 2 * i + dr; 2 * j + dc]) /\
  Focus.gather4 (Meta [N; c1; 2 * h2; 2 * w2]) = Ok (Meta [N; 4 * c1; h2; w2]) /\
  Focus.forward m (Meta [N; c1; 2 * h2; 2 * w2])
  = Ok (Meta [N; c2; (h2 + 2 * (k / 2) - k) / s + 1; (w2 + 2 * (k / 2) - k) / s + 1]) /\
  (k = 1 -> s = 1 ->
   Focus.forward m (Meta [N; c1; 2 * h2; 2 * w2]) = Ok (Meta [N; c2; h2; w2])).
Proof.
  intros Hm Hwf Hs Hk Hsp Hc2 Hh Hw.
  split; [apply focus_gather4_tensor; assumption|].
  split; [apply focus_gather4_meta; lia|].
  assert (Focus.forward m (Meta [N; c1; 2 * h2; 2 * w2])
          = Ok (Meta [N; c2; (h2 + 2 * (k / 2) - k) / s + 1;
                      (w2 + 2 * (k / 2) - k) / s + 1])) as Hf.
  2:{ split; [exact Hf|]. intros -> ->. rewrite Hf. rewrite !Z.div_1_r.
      change (1 / 2) with 0.
      replace (h2 + 2 * 0 - 1 + 1) with h2 by lia.
      replace (w2 + 2 * 0 - 1 + 1) with w2 by lia. reflexivity. }
  unfold Focus.init in Hm. bind_inv Hm as conv Hconv. injection Hm as <-.
  unfold Focus.forward. rewrite focus_gather4_meta by lia.
  cbn [mbind result_bind Focus.conv].
  pose proof (Z.div_mod k 2). pose proof (Z.mod_pos_bound k 2).
  replace (4 * c1) with (c1 * 4) by lia.
  apply (Conv_forward_meta _ _ _ _ _ _ _ _ k k s s (k / 2) (k / 2) N h2 w2 Hconv);
    try reflexivity; lia.
Qed.

End FocusShape.

Lemma focus_shape_witness :
  exists m, Focus.init 1 32 (Int 3) (Int 1) None 1 true = Ok m /\
    Focus.gather4 (iota [1; 1; 2; 4])
    = Ok (Tensor.mk_tensor [1; 4; 1; 2] [0; 2; 4; 6; 1; 3; 5; 7]) /\
    Focus.forward m (Meta [1; 1; 2; 4]) = Ok (Meta [1; 32; 1; 2]).
Proof.
  eexists. split; [reflexivity|]. split; [reflexivity|].
  pose proof (focus_shape (iota [1; 1; 2; 4]) 1 32 3 1 1 true _ 1 1 2 eq_refl) as H.
  destruct H as (_ & _ & Hf & _);
    [split; [repeat constructor; lia|reflexivity]|reflexivity|lia..|].
  exact Hf.
Defined.

(** C7 as stated fails: the Focus layer at the head of YOLOv5s,
    Focus(3, 32, 3), maps an input of shape (1,3,640,640) to shape
    (1,32,320,320); (N,4C,H/2,W/2) = (1,12,320,320) is the shape of the
    tensor handed to its convolution, not of its output. *)
Lemma focus_output_channels :
  exists m, Focus.init 3 32 (Int 3) (Int 1) None 1 true = Ok m /\
    Focus.gather4 (Meta [1; 3; 640; 640]) = Ok (Meta [1; 12; 320; 320]) /\
    Focus.forward m (Meta [1; 3; 640; 640]) = Ok (Meta [1; 32; 320; 320]) /\
    Meta [1; 32; 320; 320] ≠ Meta [1; 4 * 3; 640 / 2; 640 / 2].
Proof.
  eexists. split; [reflexivity|]. split; [reflexivity|].
  split; [reflexivity|discriminate].
Qed.

(** * Further properties of the code *)

(** ** Window partition and reverse, taken separately *)

Lemma view_shape_mismatch (s dims : list Z) :
  Forall (fun d => 0 <= d) dims -> numel s ≠ numel dims ->
  view_shape s dims = Raise RuntimeError.
Proof.
  intros Hd Hn. unfold view_shape.
  rewrite forallb_nonneg by assumption. simpl.
  rewrite filter_drop_nonneg, filter_keep_nonneg by assumption. simpl.
  apply Z.eqb_neq in Hn. rewrite Hn. reflexivity.
Qed.

Lemma floordiv_ok (a b : Z) : b ≠ 0 -> a // b = Ok (a / b).
Proof.
  intros Hb. unfold floordiv. destruct (Z.eqb_spec b 0); [contradiction|reflexivity].
Qed.

Ltac idx_tac := unfold in_range; simpl; repeat constructor; try lia; try nia.

Section WindowFacts.
Context {A : Type} {inh : Inhabited A}.

(** X1: the windows of a tensor.  On an input of shape (N,C,H,W) with C >= 1
    and a window size ws >= 1 dividing H and W, window_partition returns a
    tensor of shape (N*(H/ws)*(W/ws), C, ws, ws) whose window number
    (n*(H/ws) + hb)*(W/ws) + wb is the tile of image n at tile row hb and
    tile column wb: its element (c, i, j) is x[n, c, hb*ws + i, wb*ws + j]. *)
Theorem window_partition_tiles (x : Tensor.tensor A) (N C H W ws : Z) :
  Tensor.wf x -> Tensor.shape x = [N; C; H; W] ->
  0 < C -> 1 <= ws -> (ws | H) -> (ws | W) ->
  exists w,
    window_partition x ws = Ok w /\ Tensor.wf w /\
    Tensor.shape w = [N * (H / ws) * (W / ws); C; ws; ws] /\
    forall n hb wb c i j : Z,
      0 <= n < N -> 0 <= hb < H / ws -> 0 <= wb < W / ws ->
      0 <= c < C -> 0 <= i < ws -> 0 <= j < ws ->
      Tensor.get w [(n * (H / ws) + hb) * (W / ws) + wb; c; i; j]
      = Tensor.get x [n; c; hb * ws + i; wb * ws + j].
Proof.
  intros Hwf Hs HC Hws [nH ->] [nW ->].
  rewrite !Z.div_mul by lia.
  destruct Hwf as [Hnn Hlen]. rewrite Hs in Hnn.
  rewrite !list.Forall_cons in Hnn. destruct Hnn as (HN & _ & HH & HW & _).
  assert (0 <= nH) as HnH by nia. assert (0 <= nW) as HnW by nia.
  rewrite (window_partition_tensor x N C nH nW ws) by (auto; lia).
  eexists. split; [reflexivity|].
  split; [apply wf_tabulate; simpl; repeat constructor; nia|].
  split; [reflexivity|].
  intros n hb wb c i j Hn Hhb Hwb Hc Hi Hj.
  pose proof (merge_index n hb wb N nH nW Hn Hhb Hwb) as Hm.
  rewrite get_permute_by by idx_tac.
  change (scatter _ _) with [(n * nH + hb) * nW + wb; i; j; c].
  rewrite (get_reshaped _ _ _ [n; hb; wb; i; j; c]) by (simpl; ring).
  rewrite get_permute_by by idx_tac.
  change (scatter _ _) with [n; hb; i; wb; j; c].
  rewrite (get_reshaped _ _ _ [n; hb * ws + i; wb * ws + j; c])
    by (simpl; rewrite Hs; simpl; ring).
  rewrite get_permute_by by (rewrite Hs; idx_tac).
  reflexivity.
Qed.

End WindowFacts.

Lemma window_partition_tiles_witness :
  exists w, window_partition (iota [1; 1; 2; 4]) 2 = Ok w /\
    Tensor.shape w = [2; 1; 2; 2] /\
    Tensor.get w [1; 0; 1; 0] = Tensor.get (iota [1; 1; 2; 4]) [0; 0; 1; 2].
Proof.
  destruct (window_partition_tiles (iota [1; 1; 2; 4]) 1 1 2 4 2)
    as (w & Hw & _ & Hs & Hg);
    [split; [repeat constructor; lia|reflexivity]|reflexivity|lia|lia
    |exists 1; reflexivity|exists 2; reflexivity|].
  exists w. split; [exact Hw|]. split; [exact Hs|].
  apply (Hg 0 0 1 0 1 0); try lia; vm_compute; (split; [discriminate|reflexivity]).
Defined.

Lemma split_window_index (b N nH nW : Z) :
  0 < nH -> 0 < nW -> 0 <= b < N * nH * nW ->
  exists n hb wb,
    b = (n * nH + hb) * nW + wb /\ 0 <= n < N /\ 0 <= hb < nH /\ 0 <= wb < nW.
Proof.
  intros HnH HnW Hb.
  destruct (split_index b (N * nH) nW) as (q & wb & -> & Hq & Hwb); [lia|lia|].
  destruct (split_index q N nH) as (n & hb & -> & Hn & Hhb); [lia|lia|].
  exists n, hb, wb. auto.
Qed.

Section WindowReverseFacts.
Context {A : Type} {inh : Inhabited A}.

(** X2: the round trip in the other direction.  For a non-empty batch of
    N*nH*nW windows of shape (C, ws, ws), window_reverse to the extent
    (nH*ws, nW*ws) followed by window_partition with the same window size
    returns the batch of windows itself, shape and elements. *)
Theorem window_reverse_partition (w : Tensor.tensor A) (N C nH nW ws : Z) :
  Tensor.wf w -> Tensor.shape w = [N * nH * nW; C; ws; ws] ->
  0 < N -> 0 < C -> 0 < nH -> 0 < nW -> 0 < ws ->
  window_reverse w ws (nH * ws) (nW * ws) ≫= (fun x => window_partition x ws) = Ok w.
Proof.
  intros Hwf Hs HN HC HnH HnW Hws.
  rewrite (window_reverse_tensor w N C nH nW ws) by (auto; lia).
  cbn [mbind result_bind].
  rewrite (window_partition_tensor _ N C nH nW ws) by (auto; lia).
  f_equal. apply tensor_ext.
  - apply wf_tabulate. simpl. repeat constructor; nia.
  - assumption.
  - rewrite Hs. reflexivity.
  - intros idx Hr. cbn [Tensor.shape Tensor.permute_by Tensor.tabulate gather map] in Hr.
    simpl in Hr.
    unfold in_range in Hr.
    apply Forall2_cons_inv_r in Hr as (b & idx1 & Hb & Hr & ->).
    apply Forall2_cons_inv_r in Hr as (c & idx2 & Hc & Hr & ->).
    apply Forall2_cons_inv_r in Hr as (i & idx3 & Hi & Hr & ->).
    apply Forall2_cons_inv_r in Hr as (j & idx4 & Hj & Hr & ->).
    apply Forall2_nil_inv_r in Hr as ->.
    destruct (split_window_index b N nH nW HnH HnW Hb)
      as (n & hb & wb & -> & Hn & Hhb & Hwb).
    rewrite get_permute_by by idx_tac.
    change (scatter _ _) with [(n * nH + hb) * nW + wb; i; j; c].
    rewrite (get_reshaped _ _ _ [n; hb; wb; i; j; c]) by (simpl; ring).
    rewrite get_permute_by by idx_tac.
    change (scatter _ _) with [n; hb; i; wb; j; c].
    rewrite (get_reshaped _ _ _ [n; hb * ws + i; wb * ws + j; c]) by (simpl; ring).
    rewrite get_permute_by by idx_tac.
    change (scatter _ _) with [n; c; hb * ws + i; wb * ws + j].
    rewrite get_permute_by by idx_tac.
    change (scatter _ _) with [n; hb * ws + i; wb * ws + j; c].
    rewrite (get_reshaped _ _ _ [n; hb; i; wb; j; c]) by (simpl; ring).
    rewrite get_permute_by by idx_tac.
    change (scatter _ _) with [n; hb; wb; i; j; c].
    rewrite (get_reshaped _ _ _ [(n * nH + hb) * nW + wb; i; j; c])
      by (simpl; rewrite Hs; simpl; ring).
    rewrite get_permute_by by (rewrite Hs; idx_tac).
    reflexivity.
Qed.

End WindowReverseFacts.

Lemma window_reverse_partition_witness :
  window_reverse (iota [2; 1; 2; 2]) 2 (1 * 2) (2 * 2)
    ≫= (fun x => window_partition x 2)
  = Ok (iota [2; 1; 2; 2]).
Proof.
  apply (window_reverse_partition (iota [2; 1; 2; 2]) 1 1 1 2 2).
  - split; [repeat constructor; lia|reflexivity].
  - reflexivity.
  - lia.
  - lia.
  - lia.
  - lia.
  - lia.
Defined.

Section WindowErrors.
Context {A : Type} {inh : Inhabited A}.

(** X3: a window size of 0 is a division by zero.  On every 4-axis tensor,
    window_partition with window_size = 0 raises ZeroDivisionError (at
    H // window_size), and so does window_reverse, for every H and W (at
    H * W / window_size). *)
Theorem window_size_zero (x : Tensor.tensor A) (N C H W H' W' : Z) :
  Tensor.shape x = [N; C; H; W] ->
  window_partition x 0 = Raise ZeroDivisionError /\
  window_reverse x 0 H' W' = Raise ZeroDivisionError.
Proof.
  intros Hs. split.
  - unfold window_partition. cbn [permute view contiguous size tensor_ops].
    rewrite (permute_ok x _ [0; 2; 3; 1]%nat) by (rewrite Hs; reflexivity).
    cbn [mbind result_bind].
    replace (Tensor.shape (Tensor.permute_by x [0; 2; 3; 1]%nat)) with [N; H; W; C]
      by (cbn [Tensor.shape Tensor.permute_by Tensor.tabulate]; rewrite Hs; reflexivity).
    reflexivity.
  - unfold window_reverse. cbn [permute view contiguous size tensor_ops].
    rewrite (permute_ok x _ [0; 2; 3; 1]%nat) by (rewrite Hs; reflexivity).
    cbn [mbind result_bind].
    replace (Tensor.shape (Tensor.permute_by x [0; 2; 3; 1]%nat)) with [N; H; W; C]
      by (cbn [Tensor.shape Tensor.permute_by Tensor.tabulate]; rewrite Hs; reflexivity).
    reflexivity.
Qed.

(** X4: a window size that does not divide the extent.  On a non-empty
    tensor of shape (N,C,H,W), a window size ws >= 1 that fails to divide H
    or fails to divide W makes window_partition raise RuntimeError (the view
    to (N, H // ws, ws, W // ws, ws, C) has fewer elements than x): nothing
    is cropped or padded. *)
Theorem window_partition_indivisible (x : Tensor.tensor A) (N C H W ws : Z) :
  Tensor.shape x = [N; C; H; W] ->
  0 < N -> 0 < C -> 0 < H -> 0 < W -> 1 <= ws ->
  ~ (ws | H) \/ ~ (ws | W) ->
  window_partition x ws = Raise RuntimeError.
Proof.
  intros Hs HN HC HH HW Hws Hdiv.
  unfold window_partition. cbn [permute view contiguous size tensor_ops].
  rewrite (permute_ok x _ [0; 2; 3; 1]%nat) by (rewrite Hs; reflexivity).
  cbn [mbind result_bind].
  replace (Tensor.shape (Tensor.permute_by x [0; 2; 3; 1]%nat)) with [N; H; W; C]
    by (cbn [Tensor.shape Tensor.permute_by Tensor.tabulate]; rewrite Hs; reflexivity).
  rewrite !floordiv_ok by lia. cbn [mbind result_bind].
  unfold Tensor.view.
  replace (Tensor.shape (Tensor.permute_by x [0; 2; 3; 1]%nat)) with [N; H; W; C]
    by (cbn [Tensor.shape Tensor.permute_by Tensor.tabulate]; rewrite Hs; reflexivity).
  pose proof (Z.div_pos H ws ltac:(lia) ltac:(lia)) as Hq.
  pose proof (Z.div_pos W ws ltac:(lia) ltac:(lia)) as Wq.
  pose proof (Z.mul_div_le H ws ltac:(lia)) as Hle.
  pose proof (Z.mul_div_le W ws ltac:(lia)) as Wle.
  rewrite view_shape_mismatch; [reflexivity|repeat constructor; lia|].
  assert (ws * (H / ws) < H \/ ws * (W / ws) < W) as Hlt.
  { destruct Hdiv as [Hd | Hd]; [left | right].
    - destruct (Z.eq_dec (ws * (H / ws)) H) as [E|]; [|lia].
      exfalso. apply Hd. exists (H / ws). lia.
    - destruct (Z.eq_dec (ws * (W / ws)) W) as [E|]; [|lia].
      exfalso. apply Hd. exists (W / ws). lia. }
  set (a := H / ws) in *. set (b := W / ws) in *.
  cbn [numel foldr].
  assert (ws * a * (ws * b) < H * W) as Hab by nia.
  assert (N * (ws * a * (ws * b)) * C < N * (H * W) * C) as Hall.
  { apply Z.mul_lt_mono_pos_r; [lia|]. apply Z.mul_lt_mono_pos_l; lia. }
  intros E. ring_simplify in E. ring_simplify in Hall. lia.
Qed.

End WindowErrors.

Lemma window_partition_indivisible_witness :
  window_partition (iota [1; 1; 3; 4]) 2 = Raise RuntimeError.
Proof.
  apply (window_partition_indivisible (iota [1; 1; 3; 4]) 1 1 3 4 2);
    [reflexivity|lia|lia|lia|lia|lia|].
  left. intros [k Hk]. lia.
Defined.

Lemma window_size_zero_witness :
  window_partition (iota [1; 1; 2; 2]) 0 = Raise ZeroDivisionError /\
  window_reverse (iota [1; 1; 2; 2]) 0 2 2 = Raise ZeroDivisionError.
Proof. apply (window_size_zero (iota [1; 1; 2; 2]) 1 1 2 2 2 2). reflexivity. Defined.

(** ** BDAM on an extent below four *)

(** X5: a BDAM built for a width or a height below 4 cannot be applied.  For
    0 <= width, height with one of them below 4, the window size
    min(width // 4, height // 4) is 0, and forward raises ZeroDivisionError
    on every 4-axis input (at H // window_size in window_partition). *)
Theorem bdam_small_extent (in_planes width height : Z) (m : BDAM.t) :
  BDAM.init in_planes width height = Ok m ->
  0 <= width -> 0 <= height -> width < 4 \/ height < 4 ->
  BDAM.window_size m = 0 /\
  forall N C H W : Z,
    BDAM.forward m (Meta [N; C; H; W]) = Raise ZeroDivisionError.
Proof.
  intros Hm Hw Hh Hsmall. unfold BDAM.init in Hm.
  bind_inv Hm as dam Hdam. injection Hm as <-.
  cbn [BDAM.window_size].
  assert (min (width / 4) (height / 4) = 0) as ->.
  { pose proof (Z.div_pos width 4 Hw ltac:(lia)).
    pose proof (Z.div_pos height 4 Hh ltac:(lia)).
    unfold min.
    destruct (height / 4 <? width / 4) eqn:E;
      [apply Z.ltb_lt in E|apply Z.ltb_ge in E];
      destruct Hsmall as [Hs | Hs].
    - rewrite (Z.div_small width 4) in E by lia. lia.
    - apply Z.div_small. lia.
    - apply Z.div_small. lia.
    - rewrite (Z.div_small height 4) in E by lia. lia. }
  split; [reflexivity|]. intros N C H W.
  unfold BDAM.forward. cbn [BDAM.window_size]. reflexivity.
Qed.

Lemma bdam_small_extent_witness :
  exists m, BDAM.init 16 3 64 = Ok m /\
    BDAM.window_size m = 0 /\
    BDAM.forward m (Meta [1; 16; 64; 3]) = Raise ZeroDivisionError.
Proof.
  eexists. split; [reflexivity|].
  pose proof (bdam_small_extent 16 3 64 _ eq_refl) as H.
  destruct H as (Hw & Hf); [lia|lia|left; lia|].
  split; [exact Hw|apply Hf].
Defined.

(** ** Depthwise convolution *)

Lemma nn_Conv2d_ok (ci co : Z) (k s p : int_or_seq) (g : Z) (b : bool) :
  0 < g -> (g | ci) -> (g | co) -> 0 <= ci -> 0 <= co ->
  Forall (fun x => 0 <= x) (pair_of k) ->
  nn_Conv2d ci co k s p g b
  = Ok {| in_channels := ci; out_channels := co; kernel_size := pair_of k;
          stride := pair_of s; padding := pair_of p; groups := g; bias := b |}.
Proof.
  intros Hg Hgi Hgo Hci Hco Hk. unfold nn_Conv2d.
  apply Z.mod_divide in Hgi, Hgo; try lia.
  rewrite Hgi, Hgo. zbool.
  replace (forallb (Z.leb 0) (pair_of k)) with true.
  - reflexivity.
  - symmetry. apply forallb_forall. intros x Hx.
    rewrite Forall_forall in Hk. apply Z.leb_le, Hk, Hx.
Qed.

(** X6: DWConv always finds a valid group count.  For positive channel
    counts c1 and c2 (and a positive kernel size and stride), DWConv builds
    a Conv whose group count is gcd(c1, c2), which divides both channel
    counts, so the construction never fails on the group count; for
    c1 = c2 the group count is c1, one group per channel.  Applied to an
    input of shape (N,c1,H,W) it returns shape (N,c2,H',W') with the extents
    of a Conv with the automatic padding. *)
Theorem dwconv_groups (c1 c2 k s : Z) (act : bool) (n h w : Z) :
  0 < c1 -> 0 < c2 -> 0 < k -> 0 < s -> 0 < h -> 0 < w ->
  exists m,
    DWConv c1 c2 (Int k) (Int s) act = Ok m /\
    groups (Conv.conv m) = Z.gcd c1 c2 /\
    (groups (Conv.conv m) | c1) /\ (groups (Conv.conv m) | c2) /\
    (c1 = c2 -> groups (Conv.conv m) = c1) /\
    padding (Conv.conv m) = [k / 2; k / 2] /\
    Conv.forward m (Meta [n; c1; h; w])
    = Ok (Meta [n; c2; (h + 2 * (k / 2) - k) / s + 1; (w + 2 * (k / 2) - k) / s + 1]).
Proof.
  intros Hc1 Hc2 Hk Hs Hh Hw.
  pose proof (Z.gcd_nonneg c1 c2) as Hg0.
  assert (Z.gcd c1 c2 ≠ 0) as Hg1.
  { intros E. apply Z.gcd_eq_0_l in E. lia. }
  pose proof (Z.gcd_divide_l c1 c2) as Hd1.
  pose proof (Z.gcd_divide_r c1 c2) as Hd2.
  assert (DWConv c1 c2 (Int k) (Int s) act
          = Ok {| Conv.conv := {| in_channels := c1; out_channels := c2;
                                  kernel_size := [k; k]; stride := [s; s];
                                  padding := [k / 2; k / 2]; groups := Z.gcd c1 c2;
                                  bias := false |};
                  Conv.bn := nn_BatchNorm2d c2;
                  Conv.act := if act then Hardswish else Identity |}) as Hm.
  { unfold DWConv, Conv.init.
    rewrite nn_Conv2d_ok by (try lia; try assumption; repeat constructor; lia).
    reflexivity. }
  eexists. split; [exact Hm|]. cbn [Conv.conv groups padding].
  split; [reflexivity|]. split; [assumption|]. split; [assumption|].
  split.
  - intros <-. rewrite Z.gcd_diag. lia.
  - split; [reflexivity|].
    pose proof (Z.div_pos k 2 ltac:(lia) ltac:(lia)).
    assert (k <= 2 * (k / 2) + 1).
    { pose proof (Z.div_mod k 2). pose proof (Z.mod_pos_bound k 2). lia. }
    apply (Conv_forward_meta c1 c2 (Int k) (Int s) None (Z.gcd c1 c2) act _
             k k s s (k / 2) (k / 2) n h w Hm); try reflexivity; lia.
Qed.

Lemma dwconv_groups_witness :
  exists m, DWConv 32 32 (Int 3) (Int 1) true = Ok m /\
    groups (Conv.conv m) = 32 /\
    Conv.forward m (Meta [1; 32; 20; 20]) = Ok (Meta [1; 32; 20; 20]).
Proof.
  destruct (dwconv_groups 32 32 3 1 true 1 20 20) as (m & Hm & _ & _ & _ & Hg & _ & Hf);
    [lia..|].
  exists m. split; [exact Hm|]. split; [apply Hg; reflexivity|exact Hf].
Defined.

(** ** Conv: the automatic padding, and the fused forward pass *)

Lemma ceil_div_exact (h s : Z) : 0 < s -> 0 < h -> (s | h) -> (h - 1) / s + 1 = h / s.
Proof.
  intros Hs Hh [q ->]. rewrite Z.div_mul by lia.
  assert (0 < q) by nia.
  assert ((q * s - 1) / s = q - 1) as ->
    by (symmetry; apply (Z.div_unique _ _ _ (s - 1)); lia).
  lia.
Qed.

(** X7: what the automatic padding achieves.  For a Conv built without an
    explicit padding, with a scalar kernel size k >= 1 and stride s >= 1, on
    an input of shape (N,c1,H,W): when k is odd the output extents are
    ceil(H/s) and ceil(W/s), written (H-1)//s + 1, which is H//s when s
    divides H (the out_size = in_size/strides of the docstring); when k is
    even they are H//s + 1 and W//s + 1, one more than that even when s
    divides H. *)
Theorem conv_same_padding (c1 c2 k s g : Z) (a : bool) (m : Conv.t) (n h w : Z) :
  Conv.init c1 c2 (Int k) (Int s) None g a = Ok m ->
  0 < k -> 0 < s -> 0 < c2 -> 0 < h -> 0 < w ->
  (Z.odd k = true ->
     Conv.forward m (Meta [n; c1; h; w])
     = Ok (Meta [n; c2; (h - 1) / s + 1; (w - 1) / s + 1]) /\
     ((s | h) -> (s | w) ->
      Conv.forward m (Meta [n; c1; h; w]) = Ok (Meta [n; c2; h / s; w / s]))) /\
  (Z.even k = true ->
     Conv.forward m (Meta [n; c1; h; w]) = Ok (Meta [n; c2; h / s + 1; w / s + 1])).
Proof.
  intros Hm Hk Hs Hc2 Hh Hw.
  pose proof (Z.div_pos k 2 ltac:(lia) ltac:(lia)) as Hp.
  pose proof (Z.div_mod k 2 ltac:(lia)) as Hdm.
  pose proof (Z.mod_pos_bound k 2 ltac:(lia)) as Hmb.
  pose proof (Conv_forward_meta c1 c2 (Int k) (Int s) None g a m
                k k s s (k / 2) (k / 2) n h w Hm eq_refl eq_refl eq_refl) as Hf.
  unfold MetaNN.out_size in Hf.
  split.
  - intros Hodd. rewrite Zmod_odd, Hodd in Hdm.
    assert (Conv.forward m (Meta [n; c1; h; w])
            = Ok (Meta [n; c2; (h - 1) / s + 1; (w - 1) / s + 1])) as Hceil.
    { rewrite Hf by lia.
      replace (h + 2 * (k / 2) - k) with (h - 1) by lia.
      replace (w + 2 * (k / 2) - k) with (w - 1) by lia. reflexivity. }
    split; [exact Hceil|].
    intros Hdh Hdw. rewrite Hceil, !ceil_div_exact by assumption. reflexivity.
  - intros Heven. rewrite Zmod_odd, <- Z.negb_even, Heven in Hdm. simpl in Hdm.
    rewrite Hf by lia.
    replace (h + 2 * (k / 2) - k) with h by lia.
    replace (w + 2 * (k / 2) - k) with w by lia. reflexivity.
Qed.

Lemma conv_same_padding_witness :
  exists m, Conv.init 3 16 (Int 3) (Int 2) None 1 true = Ok m /\
    Conv.forward m (Meta [1; 3; 640; 640]) = Ok (Meta [1; 16; 640 / 2; 640 / 2]).
Proof.
  eexists. split; [reflexivity|].
  pose proof (conv_same_padding 3 16 3 2 1 true _ 1 640 640 eq_refl) as H.
  destruct H as (Hodd & _); [lia..|].
  destruct (Hodd eq_refl) as (_ & Hdiv).
  apply Hdiv; exists 320; reflexivity.
Defined.

Lemma conv2d_shape_inv (c : Conv2d) (n ch h w : Z) (r : list Z) :
  MetaNN.conv2d_shape c [n; ch; h; w] = Ok r ->
  exists h' w', r = [n; out_channels c; h'; w'].
Proof.
  unfold MetaNN.conv2d_shape. intros H.
  repeat match type of H with
         | context [match ?l with [] => _ | _ :: _ => _ end] =>
             destruct l; try discriminate H
         end.
  bind_inv H as u1 H1. bind_inv H as u2 H2. bind_inv H as u3 H3. bind_inv H as u4 H4.
  injection H as <-. eauto.
Qed.

Lemma conv2d_shape_inv_unbatched (c : Conv2d) (ch h w : Z) (r : list Z) :
  MetaNN.conv2d_shape c [ch; h; w] = Ok r ->
  exists h' w', r = [out_channels c; h'; w'].
Proof.
  unfold MetaNN.conv2d_shape. intros H.
  repeat match type of H with
         | context [match ?l with [] => _ | _ :: _ => _ end] =>
             destruct l; try discriminate H
         end.
  bind_inv H as u1 H1. bind_inv H as u2 H2. bind_inv H as u3 H3. bind_inv H as u4 H4.
  injection H as <-. eauto.
Qed.

(** X8: the fused forward pass has the shape behaviour of the plain one on
    batched inputs only.  For every Conv that can be built and every input
    of shape (N,C,H,W) with C >= 1, fuseforward (which skips the batch
    normalisation) returns a tensor of the same shape as forward (in
    evaluation mode), and raises exactly when forward raises, with the same
    error: the BatchNorm2d of a Conv is built for the channel count its
    convolution produces.  On an unbatched input (C,H,W) the two differ:
    whenever fuseforward returns, forward raises ValueError, because
    BatchNorm2d refuses the 3-axis output of the convolution. *)
Theorem conv_fuseforward_shape (c1 c2 : Z) (k s : int_or_seq) (p : option int_or_seq)
  (g : Z) (a : bool) (m : Conv.t) :
  Conv.init c1 c2 k s p g a = Ok m ->
  (forall n ch h w : Z, 0 < ch ->
     Conv.fuseforward m (Meta [n; ch; h; w]) = Conv.forward m (Meta [n; ch; h; w])) /\
  (forall (ch h w : Z) (y : meta),
     Conv.fuseforward m (Meta [ch; h; w]) = Ok y ->
     (exists h' w', y = Meta [c2; h'; w']) /\
     Conv.forward m (Meta [ch; h; w]) = Raise ValueError).
Proof.
  intros Hm. apply Conv_init_inv in Hm as (-> & _).
  unfold Conv.fuseforward, Conv.forward. cbn [Conv.conv Conv.bn Conv.act].
  cbn [conv2d meta_nn]. unfold MetaNN.lift1. cbn [meta_shape]. split.
  - intros n ch h w _.
    destruct (MetaNN.conv2d_shape _ [n; ch; h; w]) as [r|e] eqn:E; [|reflexivity].
    apply conv2d_shape_inv in E as (h' & w' & ->).
    cbn [fmap result_fmap mbind result_bind batch_norm meta_nn out_channels].
    unfold MetaNN.lift1, MetaNN.batch_norm_shape.
    cbn [meta_shape nn_BatchNorm2d num_features]. rewrite Z.eqb_refl.
    reflexivity.
  - intros ch h w y.
    destruct (MetaNN.conv2d_shape _ [ch; h; w]) as [r|e] eqn:E; [|discriminate].
    apply conv2d_shape_inv_unbatched in E as (h' & w' & ->).
    cbn [fmap result_fmap mbind result_bind out_channels]. intros Hy.
    split; [|reflexivity].
    exists h', w'. destruct a; injection Hy as <-; reflexivity.
Qed.

Lemma conv_fuseforward_shape_witness :
  exists m, Conv.init 3 16 (Int 3) (Int 2) None 1 true = Ok m /\
    Conv.fuseforward m (Meta [1; 3; 640; 640]) = Conv.forward m (Meta [1; 3; 640; 640]) /\
    Conv.fuseforward m (Meta [3; 8; 8]) = Ok (Meta [16; 4; 4]) /\
    Conv.forward m (Meta [3; 8; 8]) = Raise ValueError.
Proof.
  eexists. split; [reflexivity|].
  pose proof (conv_fuseforward_shape 3 16 (Int 3) (Int 2) None 1 true _ eq_refl)
    as (H4 & H3).
  split; [apply H4; lia|]. split; [reflexivity|].
  apply (H3 3 8 8 (Meta [16; 4; 4])). reflexivity.
Defined.

(** ** Bottleneck and BottleneckCSP keep the spatial extent *)

(** X9: out_size = in_size for Bottleneck.  A Bottleneck whose hidden channel
    count, the int(c2 * e) it was built with, is positive, and with
    c2 >= 1, maps every input of shape (N,c1,H,W), H, W >= 1, to shape
    (N,c2,H,W), with or without the shortcut: its 1x1 and 3x3 Convs both
    keep H and W. *)
Theorem bottleneck_shape (c1 c2 : Z) (shortcut : bool) (g : Z) (e : float)
  (b : Bottleneck.t) (N H W : Z) :
  Bottleneck.init c1 c2 shortcut g e = Ok b ->
  0 < out_channels (Conv.conv (Bottleneck.cv1 b)) -> 0 < c2 -> 0 < H -> 0 < W ->
  mul_int_float c2 e ≫= int_of_float = Ok (out_channels (Conv.conv (Bottleneck.cv1 b))) /\
  Bottleneck.forward b (Meta [N; c1; H; W]) = Ok (Meta [N; c2; H; W]).
Proof.
  intros Hb Hc_ Hc2 HH HW. split.
  - exact (Bottleneck_hidden_width c1 c2 shortcut g e b Hb).
  - exact (Bottleneck_forward_meta c1 c2 shortcut g e b N H W Hb Hc_ Hc2 HH HW).
Qed.

Lemma bottleneck_shape_witness :
  exists b, Bottleneck.init 3 3 true 1 (float_lit 1 3) = Ok b /\
    out_channels (Conv.conv (Bottleneck.cv1 b)) = 1 /\
    Bottleneck.add b = true /\
    Bottleneck.forward b (Meta [2; 3; 40; 40]) = Ok (Meta [2; 3; 40; 40]).
Proof.
  eexists. split; [reflexivity|]. split; [reflexivity|]. split; [reflexivity|].
  apply (bottleneck_shape 3 3 true 1 (float_lit 1 3));
    [reflexivity|vm_compute; reflexivity|lia..].
Defined.

(** X10: out_size = in_size for BottleneckCSP.  A BottleneckCSP with any
    number n of inner Bottlenecks, whose hidden channel count c_, the
    int(c2 * e) it was built with, is positive (and below 2^53), and with
    c2 >= 1, maps every input of shape (N,c1,H,W), H, W >= 1, to shape
    (N,c2,H,W); the inner Bottlenecks, built with e = 1.0, have hidden width
    int(c_ * 1.0) = c_ and keep the shape (N,c_,H,W). *)
Theorem csp_shape (c1 c2 n : Z) (shortcut : bool) (g : Z) (e : float)
  (m : BottleneckCSP.t) (N H W : Z) :
  BottleneckCSP.init c1 c2 n shortcut g e = Ok m ->
  let c_ := out_channels (Conv.conv (BottleneckCSP.cv1 m)) in
  0 < c_ < 2 ^ 53 -> 0 < c2 -> 0 < H -> 0 < W ->
  mul_int_float c2 e ≫= int_of_float = Ok c_ /\
  Forall (fun b => out_channels (Conv.conv (Bottleneck.cv1 b)) = c_ /\
                   Bottleneck.forward b (Meta [N; c_; H; W]) = Ok (Meta [N; c_; H; W]))
    (BottleneckCSP.m m) /\
  BottleneckCSP.forward m (Meta [N; c1; H; W]) = Ok (Meta [N; c2; H; W]).
Proof.
  intros Hm c_ Hpos Hc2 HH HW.
  pose proof (BottleneckCSP_merged_meta _ _ _ _ _ _ _ N H W Hm Hpos HH HW) as Hmerged.
  destruct (BottleneckCSP_hidden_width _ _ _ _ _ _ _ Hm)
    as (Hc & Hnn & Hcv1 & Hcv2 & Hcv3 & Hcv4 & Hbn & Hact & Hlen & Hbs).
  fold c_ in Hmerged, Hc, Hcv1, Hcv2, Hcv3, Hcv4, Hbn, Hbs.
  split; [exact Hc|]. split.
  - apply (list.Forall_impl _ _ _ Hbs). intros b' Hb'.
    pose proof (Bottleneck_hidden_one _ _ _ _ Hb' ltac:(lia)) as Hhid.
    split; [exact Hhid|].
    apply (Bottleneck_forward_meta _ _ _ _ _ _ _ _ _ Hb'); lia.
  - unfold BottleneckCSP.forward. rewrite Hmerged.
    cbn [mbind result_bind batch_norm meta_nn]. rewrite Hbn, Hact.
    unfold MetaNN.lift1, MetaNN.batch_norm_shape.
    cbn [meta_shape nn_BatchNorm2d num_features]. rewrite Z.eqb_refl.
    cbn [check mbind result_bind fmap result_fmap apply_act leaky_relu meta_nn].
    rewrite (Conv_forward_meta _ _ _ _ _ _ _ _ 1 1 1 1 0 0 N H W Hcv4)
      by (reflexivity || lia).
    unfold MetaNN.out_size. rewrite !Z.div_1_r.
    replace (H + 2 * 0 - 1 + 1) with H by lia. replace (W + 2 * 0 - 1 + 1) with W by lia.
    reflexivity.
Qed.

Lemma csp_shape_witness :
  exists m, BottleneckCSP.init 64 10 3 true 1 float_0_7 = Ok m /\
    out_channels (Conv.conv (BottleneckCSP.cv1 m)) = 7 /\
    BottleneckCSP.forward m (Meta [2; 64; 40; 40]) = Ok (Meta [2; 10; 40; 40]).
Proof.
  eexists. split; [reflexivity|]. split; [reflexivity|].
  pose proof (csp_shape 64 10 3 true 1 float_0_7 _ 2 40 40 eq_refl) as H.
  destruct H as (_ & _ & Hf); [split; vm_compute; reflexivity|lia..|].
  exact Hf.
Defined.

(** ** SPP with an even pooling size *)

Lemma max_pool_half_padding (k n c h w : Z) :
  0 < k -> 0 < h -> 0 < w ->
  max_pool2d (nn_MaxPool2d k 1 (k / 2)) (Meta [n; c; h; w])
  = Ok (Meta [n; c; h + 2 * (k / 2) - k + 1; w + 2 * (k / 2) - k + 1]).
Proof.
  intros Hk Hh Hw.
  pose proof (Z.div_mod k 2). pose proof (Z.mod_pos_bound k 2).
  cbn [max_pool2d meta_nn]. unfold MetaNN.lift1, MetaNN.max_pool2d_shape.
  cbn [meta_shape nn_MaxPool2d pool_kernel_size pool_stride pool_padding].
  zbool. cbn [andb check mbind result_bind fmap result_fmap].
  unfold MetaNN.out_size. rewrite !Z.div_1_r. reflexivity.
Qed.

Lemma forallb_agree_even (N c H W : Z) (k : list Z) :
  Exists (fun x => Z.even x = true) k ->
  forallb (agree_except 1 [N; c; H; W])
    ((fun x => [N; c; H + 2 * (x / 2) - x + 1; W + 2 * (x / 2) - x + 1]) <$> k)
  = false.
Proof.
  induction 1 as [x k Hx | x k _ IH]; cbn [fmap list_fmap forallb].
  - apply andb_false_intro1. unfold agree_except.
    apply bool_decide_eq_false_2. cbn [insert list_insert]. intros E.
    pose proof (Z.div_mod x 2 ltac:(lia)) as Hdm.
    rewrite Zmod_odd, <- Z.negb_even, Hx in Hdm. simpl in Hdm.
    injection E as E1 E2. lia.
  - apply andb_false_intro2. exact IH.
Qed.

(** X11: SPP needs odd pooling sizes.  When one of the pooling sizes is even
    (all of them positive, c1 >= 2, H, W >= 1), forward raises RuntimeError:
    a max-pooling of even size x with stride 1 and padding x // 2 returns
    H + 1 rows and W + 1 columns, which torch.cat refuses to join with the
    H x W output of cv1. *)
Theorem spp_even_size (c1 c2 : Z) (k : list Z) (m : SPP.t) (N H W : Z) :
  SPP.init c1 c2 k = Ok m ->
  Forall (fun x => 0 < x) k -> Exists (fun x => Z.even x = true) k ->
  2 <= c1 -> 0 < H -> 0 < W ->
  SPP.forward m (Meta [N; c1; H; W]) = Raise RuntimeError.
Proof.
  intros Hm Hk Heven Hc1 HH HW.
  assert (0 < c1 / 2) as Hc by (apply Z.div_str_pos; lia).
  unfold SPP.init in Hm.
  bind_inv Hm as cv1 Hcv1. bind_inv Hm as cv2 Hcv2. injection Hm as <-.
  unfold SPP.forward, SPP.pooled. cbn [SPP.cv1 SPP.cv2 SPP.m].
  rewrite (Conv_forward_meta c1 (c1 / 2) (Int 1) (Int 1) None 1 true _ 1 1 1 1 0 0 N H W Hcv1)
    by (reflexivity || lia).
  cbn [mbind result_bind]. unfold MetaNN.out_size. rewrite !Z.div_1_r.
  replace (H + 2 * 0 - 1 + 1) with H by lia. replace (W + 2 * 0 - 1 + 1) with W by lia.
  rewrite (mapM_fmap_ok _
             (fun p => Meta [N; c1 / 2;
                             H + 2 * (pool_kernel_size p / 2) - pool_kernel_size p + 1;
                             W + 2 * (pool_kernel_size p / 2) - pool_kernel_size p + 1])).
  2:{ apply Forall_fmap. apply (list.Forall_impl _ _ _ Hk).
      intros x Hx. cbn [nn_MaxPool2d pool_kernel_size].
      apply max_pool_half_padding; assumption. }
  cbn [mbind result_bind cat meta_ops app fmap list_fmap meta_shape].
  unfold cat_shape. cbn [length]. change (wrap_dim 4 1) with (Ok 1%nat).
  cbn [mbind result_bind].
  match goal with
  | |- context [forallb _ ?l] =>
      replace l
        with ((fun x => [N; c1 / 2; H + 2 * (x / 2) - x + 1; W + 2 * (x / 2) - x + 1])
                <$> k)
        by (rewrite <- !list_fmap_compose; reflexivity)
  end.
  rewrite (forallb_agree_even N (c1 / 2) H W k Heven).
  reflexivity.
Qed.

Lemma spp_even_size_witness :
  exists m, SPP.init 512 256 [5; 8; 13] = Ok m /\
    SPP.forward m (Meta [1; 512; 20; 20]) = Raise RuntimeError.
Proof.
  eexists. split; [reflexivity|].
  apply (spp_even_size 512 256 [5; 8; 13] _ 1 20 20 eq_refl);
    [repeat constructor| |lia..].
  apply Exists_cons_tl, Exists_cons_hd. reflexivity.
Defined.

(** ** Focus on an odd extent *)

Lemma slice_len_from0 (n : Z) : 0 <= n -> slice_len n 0 2 = (n + 1) / 2.
Proof.
  intros Hn. unfold slice_len, slice_start. cbn [Z.ltb Z.compare].
  rewrite Z.min_l by lia. f_equal. lia.
Qed.

Lemma slice_len_from1 (n : Z) : 0 <= n -> slice_len n 1 2 = n / 2.
Proof.
  intros Hn. unfold slice_len, slice_start. cbn [Z.ltb Z.compare].
  destruct (Z.eq_dec n 0) as [-> | Hne]; [reflexivity|].
  rewrite Z.min_l by lia. f_equal. lia.
Qed.

Lemma half_odd (n : Z) : Z.odd n = true -> (n + 1) / 2 ≠ n / 2.
Proof.
  intros Hodd. pose proof (Z.div_mod n 2 ltac:(lia)) as Hdm.
  rewrite Zmod_odd, Hodd in Hdm.
  replace (n + 1) with ((n / 2 + 1) * 2) by lia.
  rewrite Z.div_mul by lia. lia.
Qed.

(** X12: Focus needs an even height and an even width.  On an input of shape
    (N,C,H,W) with H odd or W odd, forward raises RuntimeError whatever the
    layer's parameters: the slices starting at 0 have one more row (column)
    than those starting at 1, and torch.cat refuses to join them; no row or
    column is dropped or padded. *)
Theorem focus_odd_extent (m : Focus.t) (N C H W : Z) :
  0 <= H -> 0 <= W -> Z.odd H = true \/ Z.odd W = true ->
  Focus.gather4 (Meta [N; C; H; W]) = Raise RuntimeError /\
  Focus.forward m (Meta [N; C; H; W]) = Raise RuntimeError.
Proof.
  intros HH HW Hodd.
  assert (Focus.gather4 (Meta [N; C; H; W]) = Raise RuntimeError) as Hg.
  { unfold Focus.gather4. cbn [strided meta_ops meta_shape].
    unfold strided_shape.
    cbn [mbind result_bind check Z.ltb Z.compare andb reverse rev_append app
         fmap result_fmap].
    rewrite !slice_len_from0, !slice_len_from1 by assumption.
    cbn [mbind result_bind cat meta_ops fmap list_fmap meta_shape].
    unfold cat_shape. cbn [length]. change (wrap_dim 4 1) with (Ok 1%nat).
    cbn [mbind result_bind forallb].
    destruct Hodd as [Ho | Ho]; apply half_odd in Ho.
    - assert (agree_except 1 [N; C; (H + 1) / 2; (W + 1) / 2] [N; C; H / 2; (W + 1) / 2]
              = false) as ->; [|reflexivity].
      apply bool_decide_eq_false_2. cbn [insert list_insert]. congruence.
    - assert (agree_except 1 [N; C; (H + 1) / 2; (W + 1) / 2] [N; C; (H + 1) / 2; W / 2]
              = false) as ->.
      { apply bool_decide_eq_false_2. cbn [insert list_insert]. congruence. }
      destruct (agree_except 1 _ [N; C; H / 2; (W + 1) / 2]); reflexivity. }
  split; [exact Hg|]. unfold Focus.forward. rewrite Hg. reflexivity.
Qed.

Lemma focus_odd_extent_witness :
  exists m, Focus.init 3 32 (Int 3) (Int 1) None 1 true = Ok m /\
    Focus.forward m (Meta [1; 3; 641; 640]) = Raise RuntimeError.
Proof.
  eexists. split; [reflexivity|].
  apply (focus_odd_extent _ 1 3 641 640); [lia|lia|left; reflexivity].
Defined.

(** ** Flatten *)

Section FlattenFacts.
Context {A : Type} {inh : Inhabited A}.

(** X14: where Flatten raises.  On a tensor without axes x.size(0) raises
    IndexError; on an empty batch (first extent 0) the view (0, -1) is
    ambiguous and raises RuntimeError. *)
Theorem flatten_errors (x : Tensor.tensor A) :
  (Tensor.shape x = [] -> Flatten.forward x = Raise IndexError) /\
  (forall rest, Tensor.shape x = 0 :: rest -> Flatten.forward x = Raise RuntimeError).
Proof.
  split.
  - intros Hs. unfold Flatten.forward. cbn [size tensor_ops]. rewrite Hs. reflexivity.
  - intros rest Hs. unfold Flatten.forward. cbn [size tensor_ops view]. rewrite Hs.
    cbn [lookup list_lookup from_option mbind result_bind].
    unfold Tensor.view. rewrite Hs. reflexivity.
Qed.

End FlattenFacts.

Lemma flatten_errors_witness :
  Flatten.forward (Tensor.mk_tensor [] [7]) = Raise IndexError /\
  Flatten.forward (Tensor.mk_tensor [0; 3] ([] : list Z)) = Raise RuntimeError.
Proof.
  split.
  - apply (proj1 (flatten_errors (Tensor.mk_tensor [] [7]))). reflexivity.
  - apply (proj2 (flatten_errors (Tensor.mk_tensor [0; 3] ([] : list Z))) [3]).
    reflexivity.
Defined.

(** ** SAM is tied to the extent it was built for *)

Lemma conv2d_shape_err (c : Conv2d) (s : list Z) (e : exn) :
  MetaNN.conv2d_shape c s = Raise e -> e = RuntimeError.
Proof.
  unfold MetaNN.conv2d_shape. intros H.
  repeat match type of H with
         | context [match ?l with [] => _ | _ :: _ => _ end] =>
             destruct l; try (injection H as <-; reflexivity)
         end.
  all: repeat match type of H with
         | context [check ?b _] => destruct b; cbn [check mbind result_bind] in H
         end;
    try discriminate H; injection H as <-; reflexivity.
Qed.

Lemma conv2d_channel_mismatch (c : Conv2d) (n ch h w : Z) :
  ch ≠ in_channels c -> conv2d c (Meta [n; ch; h; w]) = Raise RuntimeError.
Proof.
  intros Hne. cbn [conv2d meta_nn]. unfold MetaNN.lift1.
  destruct (MetaNN.conv2d_shape c (meta_shape (Meta [n; ch; h; w]))) as [r|e] eqn:E.
  - exfalso. unfold MetaNN.conv2d_shape in E. cbn [meta_shape] in E.
    repeat match type of E with
           | context [match ?l with [] => _ | _ :: _ => _ end] =>
               destruct l; try discriminate E
           end.
    bind_inv E as u1 H1. apply check_inv, Z.eqb_eq in H1. contradiction.
  - apply conv2d_shape_err in E as ->. reflexivity.
Qed.

Lemma SAM_forward_mismatch (in_ch width height : Z) (m : SAM.t) (N C H W : Z) :
  SAM.init in_ch width height = Ok m ->
  H ≠ height \/ W ≠ width ->
  SAM.forward m (Meta [N; C; H; W]) = Raise RuntimeError.
Proof.
  intros Hm Hne.
  unfold SAM.init in Hm. bind_inv Hm as wam Hwam. bind_inv Hm as ham Hham.
  injection Hm as <-.
  apply nn_Conv2d_inv in Hwam as (Ewam & _). apply nn_Conv2d_inv in Hham as (Eham & _).
  assert (in_channels wam = width) as Hiw by (rewrite Ewam; reflexivity).
  assert (in_channels ham = height) as Hih by (rewrite Eham; reflexivity).
  clear Ewam Eham.
  unfold SAM.forward. cbn [SAM.ham SAM.wam].
  change (transpose (Meta [N; C; H; W]) (-2) (-3)) with (Ok (Meta [N; H; C; W])).
  change (transpose (Meta [N; C; H; W]) (-1) (-3)) with (Ok (Meta [N; W; H; C])).
  cbn [mbind result_bind].
  destruct (Z.eq_dec H height) as [EH | NH].
  - assert (W ≠ width) as NW by (destruct Hne; [contradiction|assumption]).
    destruct (conv2d ham (Meta [N; H; C; W])) as [yh|e] eqn:E.
    + cbn [mbind result_bind].
      rewrite (conv2d_channel_mismatch wam) by (rewrite Hiw; exact NW). reflexivity.
    + cbn [conv2d meta_nn] in E. unfold MetaNN.lift1 in E.
      destruct (MetaNN.conv2d_shape ham (meta_shape (Meta [N; H; C; W]))) as [r|e'] eqn:E';
        [discriminate E|].
      apply conv2d_shape_err in E' as ->. injection E as <-. reflexivity.
  - rewrite (conv2d_channel_mismatch ham) by (rewrite Hih; exact NH). reflexivity.
Qed.

(** X15: SAM accepts only the height and width it was built for.  On an
    input of shape (N,C,H,W) whose H differs from the constructor's height,
    or whose W differs from its width, forward raises RuntimeError: the
    transposed views carry H and W on the channel axis, where the 1x1
    projections expect height and width. *)
Theorem sam_other_extent (in_ch width height : Z) (m : SAM.t) (N C H W : Z) :
  SAM.init in_ch width height = Ok m ->
  H ≠ height \/ W ≠ width ->
  SAM.forward m (Meta [N; C; H; W]) = Raise RuntimeError.
Proof.
  intros Hm Hne. exact (SAM_forward_mismatch in_ch width height m N C H W Hm Hne).
Qed.

Lemma sam_other_extent_witness :
  exists m, SAM.init 256 16 16 = Ok m /\
    SAM.forward m (Meta [64; 256; 16; 8]) = Raise RuntimeError.
Proof.
  eexists. split; [reflexivity|].
  apply (sam_other_extent 256 16 16 _ 64 256 16 8 eq_refl). right. lia.
Defined.

(** ** DAM *)

(** X16: DAM returns the shape of its input, on the one extent it was built
    for.  A DAM built for in_planes >= 16 channels and a width and height of
    at least 1 maps an input of shape (N, in_planes, height, width) to the
    same shape; on an input of shape (N, in_planes, H, W) with another H or
    W (both at least 1) forward raises RuntimeError, in its SAM. *)
Theorem dam_shape (in_planes width height : Z) (m : DAM.t) (N : Z) :
  DAM.init in_planes width height = Ok m ->
  16 <= in_planes -> 0 < width -> 0 < height ->
  DAM.forward m (Meta [N; in_planes; height; width])
  = Ok (Meta [N; in_planes; height; width]) /\
  (forall H W : Z, 0 < H -> 0 < W -> H ≠ height \/ W ≠ width ->
     DAM.forward m (Meta [N; in_planes; H; W]) = Raise RuntimeError).
Proof.
  intros Hm Hc Hw Hh. unfold DAM.init in Hm.
  bind_inv Hm as cam Hcam. bind_inv Hm as sam Hsam. injection Hm as <-.
  unfold DAM.forward. cbn [DAM.cam DAM.sam]. split.
  - rewrite (ChannelAttention_forward_meta _ _ _ _ _ Hcam) by lia.
    cbn [mbind result_bind tensor_mul meta_nn]. unfold MetaNN.lift2. cbn [meta_shape].
    rewrite broadcast_gate. cbn [fmap result_fmap mbind result_bind].
    destruct (SAM_forward_meta _ _ _ _ N in_planes Hsam) as (_ & _ & ->); try lia.
    cbn [mbind result_bind meta_shape]. rewrite broadcast_same. reflexivity.
  - intros H W HH HW Hne.
    rewrite (ChannelAttention_forward_meta _ _ _ _ _ Hcam) by lia.
    cbn [mbind result_bind tensor_mul meta_nn]. unfold MetaNN.lift2. cbn [meta_shape].
    rewrite broadcast_gate. cbn [fmap result_fmap mbind result_bind].
    rewrite (SAM_forward_mismatch _ _ _ _ _ _ _ _ Hsam Hne). reflexivity.
Qed.

Lemma dam_shape_witness :
  exists m, DAM.init 32 8 4 = Ok m /\
    DAM.forward m (Meta [2; 32; 4; 8]) = Ok (Meta [2; 32; 4; 8]) /\
    DAM.forward m (Meta [2; 32; 8; 8]) = Raise RuntimeError.
Proof.
  eexists. split; [reflexivity|].
  pose proof (dam_shape 32 8 4 _ 2 eq_refl) as H.
  destruct H as (Hf & He); [lia..|].
  split; [exact Hf|]. apply He; [lia|lia|left; lia].
Defined.

(** ** SpatialAttention, CBAM and ChannelAttention *)

Lemma SpatialAttention_forward_meta (k : Z) (m : SpatialAttention.t) (N C H W : Z) :
  SpatialAttention.init k = Ok m ->
  0 < k -> Z.odd k = true -> 0 < C -> 0 < H -> 0 < W ->
  SpatialAttention.forward m (Meta [N; C; H; W]) = Ok (Meta [N; 1; H; W]).
Proof.
  intros Hm Hk Hodd HC HH HW.
  unfold SpatialAttention.init in Hm. bind_inv Hm as c Hc. injection Hm as <-.
  apply nn_Conv2d_inv in Hc as (-> & _).
  pose proof (Z.div_pos k 2 ltac:(lia) ltac:(lia)) as Hp.
  pose proof (Z.div_mod k 2 ltac:(lia)) as Hdm. rewrite Zmod_odd, Hodd in Hdm.
  unfold SpatialAttention.forward. cbn [SpatialAttention.conv1 mean_dim max_dim meta_reduce].
  unfold MetaReduce.max_shape, MetaReduce.reduce_shape. cbn [meta_shape length].
  change (wrap_dim 4 1) with (Ok 1%nat).
  cbn [mbind result_bind lookup_total list_lookup_total insert list_insert].
  zbool. cbn [check mbind result_bind fmap result_fmap cat meta_ops list_fmap meta_shape].
  change [[N; 1; H; W]; [N; 1; H; W]] with (replicate 2 [N; 1; H; W]).
  rewrite (cat_shape_copies 1 N 1 H W). cbn [fmap result_fmap mbind result_bind].
  rewrite (conv2d_meta _ N (1 * Z.of_nat 2) H W k k 1 1 (k / 2) (k / 2));
    cbn [kernel_size stride padding in_channels out_channels groups pair_of];
    try reflexivity; try lia.
  cbn [mbind result_bind sigmoid meta_nn].
  rewrite !out_size_same by assumption. reflexivity.
Qed.

(** X17: the spatial gate has one channel and the extent of its input.  For
    an odd kernel size k >= 1 (the default is 7), SpatialAttention maps
    every input of shape (N,C,H,W) with C, H, W >= 1 to shape (N,1,H,W),
    whatever C is: the mean and the maximum over the channel axis are
    concatenated to 2 channels and convolved with padding k // 2. *)
Theorem spatial_attention_shape (k : Z) (m : SpatialAttention.t) (N C H W : Z) :
  SpatialAttention.init k = Ok m ->
  0 < k -> Z.odd k = true -> 0 < C -> 0 < H -> 0 < W ->
  in_channels (SpatialAttention.conv1 m) = 2 /\
  out_channels (SpatialAttention.conv1 m) = 1 /\
  padding (SpatialAttention.conv1 m) = [k / 2; k / 2] /\
  SpatialAttention.forward m (Meta [N; C; H; W]) = Ok (Meta [N; 1; H; W]).
Proof.
  intros Hm Hk Hodd HC HH HW.
  pose proof (SpatialAttention_forward_meta k m N C H W Hm Hk Hodd HC HH HW) as Hf.
  unfold SpatialAttention.init in Hm. bind_inv Hm as c Hc. injection Hm as <-.
  apply nn_Conv2d_inv in Hc as (-> & _).
  repeat split; [exact Hf].
Qed.

Lemma spatial_attention_shape_witness :
  exists m, SpatialAttention.init 7 = Ok m /\
    SpatialAttention.forward m (Meta [4; 256; 64; 64]) = Ok (Meta [4; 1; 64; 64]).
Proof.
  eexists. split; [reflexivity|].
  pose proof (spatial_attention_shape 7 _ 4 256 64 64 eq_refl) as H.
  destruct H as (_ & _ & _ & Hf); [lia|reflexivity|lia..|].
  exact Hf.
Defined.

Lemma broadcast_spatial_gate (n c h w : Z) :
  MetaNN.broadcast [n; 1; h; w] [n; c; h; w] = Ok [n; c; h; w].
Proof.
  unfold MetaNN.broadcast. cbn [reverse rev_append MetaNN.broadcast_rev].
  rewrite ?Z.eqb_refl. cbn [mbind result_bind].
  destruct (1 =? c) eqn:Ec; try apply Z.eqb_eq in Ec as <-;
    cbn [mbind result_bind Z.eqb Pos.eqb]; rewrite ?Z.eqb_refl;
    cbn [mbind result_bind fmap result_fmap reverse rev_append];
    reflexivity.
Qed.

(** X18: CBAM returns a tensor of the shape of its input.  For
    in_planes >= 16 and an input of shape (N, in_planes, H, W) with
    H, W >= 1, the channel gate (N, in_planes, 1, 1) and then the spatial
    gate (N, 1, H, W) both broadcast against the input, and the output has
    shape (N, in_planes, H, W); unlike DAM and BDAM, CBAM is not tied to one
    height and width. *)
Theorem cbam_shape (in_planes : Z) (m : CBAM.t) (N H W : Z) :
  CBAM.init in_planes = Ok m ->
  16 <= in_planes -> 0 < H -> 0 < W ->
  ChannelAttention.forward (CBAM.channel_attn m) (Meta [N; in_planes; H; W])
  = Ok (Meta [N; in_planes; 1; 1]) /\
  SpatialAttention.forward (CBAM.sptial_attn m) (Meta [N; in_planes; H; W])
  = Ok (Meta [N; 1; H; W]) /\
  CBAM.forward m (Meta [N; in_planes; H; W]) = Ok (Meta [N; in_planes; H; W]).
Proof.
  intros Hm Hc HH HW. unfold CBAM.init in Hm.
  bind_inv Hm as sa Hsa. bind_inv Hm as ca Hca. injection Hm as <-.
  cbn [CBAM.channel_attn CBAM.sptial_attn].
  pose proof (ChannelAttention_forward_meta _ _ N H W Hca Hc HH HW) as Hg1.
  pose proof (SpatialAttention_forward_meta 7 sa N in_planes H W Hsa
                ltac:(lia) eq_refl ltac:(lia) HH HW) as Hg2.
  split; [exact Hg1|]. split; [exact Hg2|].
  unfold CBAM.forward. cbn [CBAM.channel_attn CBAM.sptial_attn].
  rewrite Hg1. cbn [mbind result_bind tensor_mul meta_nn]. unfold MetaNN.lift2.
  cbn [meta_shape]. rewrite broadcast_gate. cbn [fmap result_fmap mbind result_bind].
  rewrite Hg2. cbn [mbind result_bind meta_shape].
  rewrite broadcast_spatial_gate. reflexivity.
Qed.

Lemma cbam_shape_witness :
  exists m, CBAM.init 256 = Ok m /\
    CBAM.forward m (Meta [4; 256; 64; 48]) = Ok (Meta [4; 256; 64; 48]).
Proof.
  eexists. split; [reflexivity|].
  pose proof (cbam_shape 256 _ 4 64 48 eq_refl) as H.
  destruct H as (_ & _ & Hf); [lia..|].
  exact Hf.
Defined.

(** X19: the reduction ratio of ChannelAttention.  For a ratio r with
    1 <= r <= in_planes the layer can be built, its hidden 1x1 convolution
    has in_planes // r output channels, and on an input of shape
    (N, in_planes, H, W) with H, W >= 1 the gate has shape
    (N, in_planes, 1, 1); with ratio 0 the construction raises
    ZeroDivisionError (at in_planes // ratio). *)
Theorem channel_attention_ratio (in_planes ratio : Z) (N H W : Z) :
  0 < ratio -> ratio <= in_planes -> 0 < H -> 0 < W ->
  (exists m,
     ChannelAttention.init in_planes ratio = Ok m /\
     out_channels (ChannelAttention.fc m).1.1 = in_planes / ratio /\
     in_channels (ChannelAttention.fc m).2 = in_planes / ratio /\
     ChannelAttention.forward m (Meta [N; in_planes; H; W])
     = Ok (Meta [N; in_planes; 1; 1])) /\
  ChannelAttention.init in_planes 0 = Raise ZeroDivisionError.
Proof.
  intros Hr Hle HH HW. split; [|reflexivity].
  assert (0 < in_planes / ratio) as Hhid by (apply Z.div_str_pos; lia).
  pose proof (nn_Conv2d_ok in_planes (in_planes / ratio) (Int 1) (Int 1) (Int 0) 1 false
                ltac:(lia) (Z.divide_1_l _) (Z.divide_1_l _) ltac:(lia) ltac:(lia)
                ltac:(repeat constructor; lia)) as Hfc1.
  pose proof (nn_Conv2d_ok (in_planes / ratio) in_planes (Int 1) (Int 1) (Int 0) 1 false
                ltac:(lia) (Z.divide_1_l _) (Z.divide_1_l _) ltac:(lia) ltac:(lia)
                ltac:(repeat constructor; lia)) as Hfc2.
  eexists. split.
  { unfold ChannelAttention.init. rewrite !floordiv_ok by lia.
    cbn [mbind result_bind]. rewrite Hfc1. cbn [mbind result_bind].
    rewrite Hfc2. reflexivity. }
  match goal with
  | |- _ /\ _ /\ ChannelAttention.forward ?m _ = _ =>
      assert (ChannelAttention.fc_forward m (Meta [N; in_planes; 1; 1])
              = Ok (Meta [N; in_planes; 1; 1])) as Hfc
  end.
  { unfold ChannelAttention.fc_forward. cbn [ChannelAttention.fc].
    rewrite (conv1x1_meta _ _ _ _ _ _ _ Hfc1) by lia.
    cbn [mbind result_bind apply_act relu meta_nn].
    apply (conv1x1_meta _ _ _ _ _ _ _ Hfc2); lia. }
  split; [reflexivity|]. split; [reflexivity|].
  unfold ChannelAttention.forward.
  cbn [ChannelAttention.avg_pool ChannelAttention.max_pool adaptive_avg_pool2d
       adaptive_max_pool2d meta_nn].
  unfold MetaNN.lift1, MetaNN.adaptive_avg_pool2d_shape, MetaNN.adaptive_pool2d_shape.
  cbn [meta_shape Z.eqb Pos.eqb reverse rev_append app].
  zbool. cbn [andb check mbind result_bind fmap result_fmap].
  rewrite Hfc. cbn [mbind result_bind tensor_add meta_nn]. unfold MetaNN.lift2.
  cbn [meta_shape]. rewrite broadcast_same. reflexivity.
Qed.

Lemma channel_attention_ratio_witness :
  exists m, ChannelAttention.init 64 8 = Ok m /\
    out_channels (ChannelAttention.fc m).1.1 = 64 / 8 /\
    ChannelAttention.forward m (Meta [2; 64; 20; 20]) = Ok (Meta [2; 64; 1; 1]).
Proof.
  destruct (channel_attention_ratio 64 8 2 20 20) as ((m & Hm & Ho & _ & Hf) & _);
    [lia..|].
  exists m. split; [exact Hm|]. split; [exact Ho|exact Hf].
Defined.

(** ** Concat *)

Section ConcatFacts.
Context {A : Type} {inh : Inhabited A}.

(** X20: Concat along the channel axis.  For two tensors of shapes
    (N,C1,H,W) and (N,C2,H,W), Concat(1) returns a tensor of shape
    (N,C1+C2,H,W) whose channels 0 .. C1-1 are those of the first tensor and
    whose channels C1 .. C1+C2-1 are those of the second, in order; the
    axis -3 names the same axis and gives the same result. *)
Theorem concat_channels (x1 x2 : Tensor.tensor A) (N C1 C2 H W : Z) :
  Tensor.shape x1 = [N; C1; H; W] -> Tensor.shape x2 = [N; C2; H; W] ->
  0 <= N -> 0 <= C1 -> 0 <= C2 -> 0 <= H -> 0 <= W ->
  exists y,
    Concat.forward (Concat.init 1) [x1; x2] = Ok y /\
    Concat.forward (Concat.init (-3)) [x1; x2] = Ok y /\
    Tensor.wf y /\ Tensor.shape y = [N; C1 + C2; H; W] /\
    forall n c h w : Z,
      0 <= n < N -> 0 <= c < C1 + C2 -> 0 <= h < H -> 0 <= w < W ->
      Tensor.get y [n; c; h; w]
      = if c <? C1 then Tensor.get x1 [n; c; h; w]
        else Tensor.get x2 [n; c - C1; h; w].
Proof.
  intros Hs1 Hs2 HN HC1 HC2 HH HW.
  assert (forall dim, wrap_dim 4 dim = Ok 1%nat ->
            Concat.forward (Concat.init dim) [x1; x2]
            = Ok (Tensor.tabulate [N; C1 + C2; H; W] (Tensor.cat_get [x1; x2] 1))) as Hcat.
  { intros dim Hdim. unfold Concat.forward, Concat.init. cbn [Concat.d cat tensor_ops].
    unfold Tensor.cat. cbn [fmap list_fmap]. rewrite Hs1, Hs2.
    unfold cat_shape. cbn [length]. rewrite Hdim. cbn [mbind result_bind forallb].
    assert (agree_except 1 [N; C1; H; W] [N; C2; H; W] = true) as ->
      by (apply bool_decide_eq_true_2; reflexivity).
    cbn [andb check mbind result_bind map foldr lookup_total list_lookup_total
         insert list_insert length].
    rewrite Hdim. cbn [mbind result_bind].
    replace (C1 + (C2 + 0)) with (C1 + C2) by lia. reflexivity. }
  eexists. split; [apply Hcat; reflexivity|]. split; [apply Hcat; reflexivity|].
  split; [apply wf_tabulate; repeat constructor; lia|].
  split; [reflexivity|].
  intros n c h w Hn Hc Hh Hw.
  rewrite get_tabulate by idx_tac.
  cbn [Tensor.cat_get]. rewrite Hs1, Hs2.
  cbn [lookup_total list_lookup_total insert list_insert].
  destruct (c <? C1) eqn:E; [reflexivity|].
  apply Z.ltb_ge in E.
  replace (c - C1 <? C2) with true by (symmetry; apply Z.ltb_lt; lia).
  reflexivity.
Qed.

End ConcatFacts.

Lemma concat_channels_witness :
  exists y,
    Concat.forward (Concat.init 1) [iota [1; 1; 1; 2]; iota [1; 2; 1; 2]] = Ok y /\
    Tensor.shape y = [1; 1 + 2; 1; 2] /\
    Tensor.get y [0; 2; 0; 1] = Tensor.get (iota [1; 2; 1; 2]) [0; 2 - 1; 0; 1].
Proof.
  destruct (concat_channels (iota [1; 1; 1; 2]) (iota [1; 2; 1; 2]) 1 1 2 1 2
              eq_refl eq_refl) as (y & Hy & _ & _ & Hs & Hg); [lia..|].
  exists y. split; [exact Hy|]. split; [exact Hs|].
  apply (Hg 0 2 0 1); lia.
Defined.
